(** * Daisy Emojis: the Discord application emoji manager (src/main.py)

    A shallow embedding of the reconciliation script and the properties of
    its specification.

    Conventions of the embedding.
    - A Python [str] is a Rocq [string]; one [ascii] is one character
      (code points below 256), so [String.length] is Python's [len] and the
      order of [String.le] is Python's order on [str].
    - [existing_emojis] is only ever looked up, updated, counted, sorted or
      turned into a set: it is a [gmap string RemoteEntry].  [local_files] is
      iterated in insertion order: it is a key-unique association list built
      by [dict_set].
    - Everything outside the script (environment variables, the directory
      tree, the HTTP server, cairosvg, the clock, the iteration order of a
      Python [set]) is a field of [World].  The answers of the outside may
      depend on everything that happened before: they take the trace.
    - Effects are threaded by the monad [M]: a system state (trace of
      effects, scratch files on disk) and Python exceptions.  [print] calls
      are not part of the trace.  The scratch files belong to the script
      alone: nothing else creates, changes or removes them; a removal by
      the script can fail ([unlink_fails]), and the file stays then.
    - A byte is an [N] below 256. *)

From Stdlib Require Import Ascii String.
From stdpp Require Import base numbers list strings gmap sets sorting pretty.

Set Warnings "-clear-no-such-hyp".

(** ** Python [str] operations used by the script *)

Definition nl : string := String "010"%char "".

(** [str.lower] on code points below 256: A-Z and the Latin-1 capitals
    (U+00C0-U+00DE without the multiplication sign U+00D7) move by 32. *)
Definition lower_char (c : ascii) : ascii :=
  let n := N_of_ascii c in
  if ((65 <=? n) && (n <=? 90) || (192 <=? n) && (n <=? 222) && negb (n =? 215))%N
  then ascii_of_N (n + 32) else c.

Fixpoint lower (s : string) : string :=
  match s with
  | EmptyString => EmptyString
  | String c s' => String (lower_char c) (lower s')
  end.

(** [sub in s] *)
Fixpoint str_in (sub s : string) : bool :=
  String.prefix sub s ||
  match s with
  | EmptyString => false
  | String _ s' => str_in sub s'
  end.

(** [s.rfind(c)], [None] for -1 *)
Fixpoint rfind (c : ascii) (s : string) : option nat :=
  match s with
  | EmptyString => None
  | String a s' =>
      match rfind c s' with
      | Some i => Some (S i)
      | None => if Ascii.eqb a c then Some 0 else None
      end
  end.

Fixpoint spaces (n : nat) : string :=
  match n with
  | O => EmptyString
  | S n' => String " "%char (spaces n')
  end.

(** [f"{s:30}"]: a [str] is left-aligned in its field and never cut *)
Definition ljust (width : nat) (s : string) : string :=
  s +:+ spaces (width - String.length s).

Fixpoint str_repeat (s : string) (n : nat) : string :=
  match n with
  | O => EmptyString
  | S n' => s +:+ str_repeat s n'
  end.

(** ** pathlib *)

(** [PurePath.name]: the last component *)
Definition path_name (p : string) : string :=
  match rfind "/"%char p with
  | Some i => String.substring (S i) (String.length p - S i) p
  | None => p
  end.

(** [PurePath.suffix]: [name[i:]] if [0 < i < len(name) - 1] for
    [i = name.rfind('.')], else the empty string (the rule of Python 3.9 to
    3.13; the script needs 3.9 for [zoneinfo]) *)
Definition suffix (p : string) : string :=
  let name := path_name p in
  match rfind "."%char name with
  | Some i =>
      if (0 <? i) && (i <? String.length name - 1)
      then String.substring i (String.length name - i) name
      else ""
  | None => ""
  end.

(** [PurePath.stem] *)
Definition stem (p : string) : string :=
  let name := path_name p in
  match rfind "."%char name with
  | Some i =>
      if (0 <? i) && (i <? String.length name - 1)
      then String.substring 0 i name
      else name
  | None => name
  end.

(** [emoji_path / rel] *)
Definition path_join (folder rel : string) : string := folder +:+ "/" +:+ rel.

(** ** base64.b64encode *)

Definition b64_alphabet : string :=
  "ABCDEFGHIJKLMNOPQRSTUVWXYZabcdefghijklmnopqrstuvwxyz0123456789+/".

Definition b64_char (n : N) : ascii :=
  match String.get (N.to_nat n) b64_alphabet with
  | Some c => c
  | None => "="%char
  end.

Fixpoint b64encode (data : list N) : string :=
  match data with
  | [] => ""
  | [a] =>
      String (b64_char (a / 4)) (String (b64_char ((a mod 4) * 16)) "==")
  | [a; b] =>
      String (b64_char (a / 4))
        (String (b64_char ((a mod 4) * 16 + b / 16))
           (String (b64_char ((b mod 16) * 4)) "="))
  | a :: b :: c :: rest =>
      String (b64_char (a / 4))
        (String (b64_char ((a mod 4) * 16 + b / 16))
           (String (b64_char ((b mod 16) * 4 + c / 64))
              (String (b64_char (c mod 64)) (b64encode rest))))
  end%N.

(** ** Data model *)

(** A value of [local_files]: [{'path': ..., 'relative_path': ...}] *)
Record LocalEntry := { le_path : string; le_relative_path : string }.

(** A value of [existing_emojis]: [{'id': ..., 'animated': ...}] *)
Record RemoteEntry := { re_id : string; re_animated : bool }.

(** The loop-carried variables of [main] *)
Record Vars := {
  existing_emojis : gmap string RemoteEntry;
  uploaded_count : nat;
  updated_count : nat;
  deleted_count : nat;
  skipped_count : nat;
  error_count : nat
}.

Global Instance LocalEntry_eq_dec : EqDecision LocalEntry.
Proof. solve_decision. Defined.

Global Instance RemoteEntry_eq_dec : EqDecision RemoteEntry.
Proof. solve_decision. Defined.

(** ** The outside world *)

(** The value of the variable [file_path] of [upload_emoji]: the local file,
    or the scratch file that [tempfile.NamedTemporaryFile] named *)
Inductive FilePath := LocalFile (p : string) | ScratchFile (n : nat).

Inductive Event :=
| EvMkdir (folder : string)                  (* emoji_path.mkdir *)
| EvGet (url : string)                       (* requests.get *)
| EvUpload (file_path emoji_name : string)   (* upload_emoji is entered *)
| EvMkTemp (n : nat)                         (* NamedTemporaryFile(delete=False) *)
| EvSvg2Png (svg_path : string) (n : nat)    (* cairosvg.svg2png *)
| EvRead (p : FilePath)                      (* open(file_path, 'rb').read() *)
| EvUnlink (n : nat)                         (* os.unlink *)
| EvPost (url emoji_name data_uri : string)  (* requests.post *)
| EvDelete (url emoji_name : string)         (* requests.delete *)
| EvSleep (ms : N)                           (* time.sleep, in milliseconds *)
| EvWrite (file content : string).           (* the report file is written *)

Global Instance FilePath_eq_dec : EqDecision FilePath.
Proof. solve_decision. Defined.

Global Instance Event_eq_dec : EqDecision Event.
Proof. solve_decision. Defined.

Record Response := { status_code : Z; text : string }.

(** An element of [response.json()['items']]; a missing key is [None] *)
Record ItemJson := {
  item_name : option string;
  item_id : option string;
  item_animated : option bool
}.

(** [response.json()] of a Create call; a missing key is [None] *)
Record EmojiJson := { json_id : option string; json_animated : option bool }.

(** An entry of [emoji_path.rglob('*')], relative to the folder *)
Record DirEntry := { de_rel : string; de_is_file : bool }.

(** Every oracle that takes a trace answers the request that is the last
    event of that trace; [None] is an exception raised by the library. *)
Record World := {
  getenv : string → option string;
  cairosvg_importable : bool;
  (** the tree under [EMOJI_FOLDER]; [None] when the folder does not exist *)
  folder_tree : option (list DirEntry);
  (** the response and the value of [response.json()['items']] *)
  requests_get : list Event → option (Response * option (list ItemJson));
  (** the response and the value of [response.json()] *)
  requests_post : list Event → option (Response * option EmojiJson);
  requests_delete : list Event → option Response;
  (** the bytes of a local file *)
  read_bytes : list Event → option (list N);
  tempfile_fails : list Event → bool;
  (** whether [os.unlink] of a scratch file that is there raises *)
  unlink_fails : list Event → bool;
  (** the PNG that cairosvg renders *)
  svg2png : list Event → option (list N);
  (** the position of a name in the iteration order of a Python [set] *)
  set_order : string → N;
  (** [ny_time.strftime('%Y-%m-%d %H:%M:%S %Z')] *)
  now_ny : list Event → string;
  (** whether [open(EMOJI_CODES_FILE, 'w')] raises *)
  report_unwritable : list Event → bool
}.

Definition BOT_TOKEN (w : World) : option string := getenv w "DISCORD_BOT_TOKEN".
Definition APPLICATION_ID (w : World) : option string :=
  getenv w "DISCORD_APPLICATION_ID".
Definition EMOJI_FOLDER (w : World) : string :=
  default "emojis" (getenv w "EMOJI_FOLDER").
Definition EMOJI_CODES_FILE (w : World) : string :=
  default "emojis.txt" (getenv w "EMOJI_CODES_FILE").
Definition SVG_SUPPORT (w : World) : bool := cairosvg_importable w.

Definition SUPPORTED_FORMATS : list string :=
  [".png"; ".jpg"; ".jpeg"; ".gif"; ".webp"; ".svg"].

(** [f"{x}"] of an environment variable *)
Definition fstr (o : option string) : string := default "None" o.

(** [not x] for the value of [os.getenv] *)
Definition falsy (o : option string) : bool :=
  match o with
  | None => true
  | Some s => bool_decide (s = "")
  end.

(** ** The monad of the script: system state and exceptions *)

Record Sys := {
  trace : list Event;
  (** the scratch files on disk, with their bytes *)
  scratch : gmap nat (list N)
}.

Inductive Exn :=
| SystemExit (code : Z)
| RequestException
| JSONDecodeError
| KeyError (key : string)
| TypeError
| OSError
| CairoError.

Inductive Res (A : Type) :=
| Ok (a : A) (s : Sys)
| Raise (e : Exn) (s : Sys).
Arguments Ok {A} a s.
Arguments Raise {A} e s.

Definition M (A : Type) : Type := Sys → Res A.

Global Instance M_ret : MRet M := λ A a s, Ok a s.

Global Instance M_bind : MBind M := λ A B f m s,
  match m s with
  | Ok a s' => f a s'
  | Raise e s' => Raise e s'
  end.

Definition raise {A} (e : Exn) : M A := λ s, Raise e s.

(** [try: m except: h] (the effects of [m] up to the exception stay) *)
Definition try_except {A} (m : M A) (h : Exn → M A) : M A := λ s,
  match m s with
  | Ok a s' => Ok a s'
  | Raise e s' => h e s'
  end.

Definition emit (e : Event) : M unit := λ s,
  Ok () {| trace := trace s ++ [e]; scratch := scratch s |}.

Definition history : M (list Event) := λ s, Ok (trace s) s.

Definition sleep (ms : N) : M unit := emit (EvSleep ms).

(** [for x in l: v = body(v, x)] *)
Fixpoint for_each {A S} (body : S → A → M S) (l : list A) (v : S) : M S :=
  match l with
  | [] => mret v
  | x :: l' => v' ← body v x; for_each body l' v'
  end.

(** ** The script *)

Definition emojis_url (w : World) : string :=
  "https://discord.com/api/v10/applications/" +:+ fstr (APPLICATION_ID w) +:+ "/emojis".

(** [f"{response.status_code} - {response.text}"] *)
Definition diagnostic (response : Response) : string :=
  pretty (status_code response) +:+ " - " +:+ text response.

(** [tempfile.NamedTemporaryFile(delete=False, suffix='.png')] and [close]:
    an empty file under a name that is not in use *)
Definition new_tempfile : M nat := λ s,
  let n := fresh (dom (scratch s)) in
  Ok n {| trace := trace s ++ [EvMkTemp n]; scratch := <[n := []]> (scratch s) |}.

Definition write_scratch (n : nat) (png : list N) : M unit := λ s,
  Ok () {| trace := trace s; scratch := <[n := png]> (scratch s) |}.

Definition read_scratch (n : nat) : M (list N) := λ s,
  match scratch s !! n with
  | None => Raise OSError s
  | Some image_data => Ok image_data s
  end.

Definition convert_svg_to_png (w : World) (svg_path : string) : M (option nat) :=
  if negb (SVG_SUPPORT w) then mret None
  else
    try_except
      (h ← history;
       if tempfile_fails w h then raise OSError
       else
         n ← new_tempfile;
         emit (EvSvg2Png svg_path n);;
         h ← history;
         match svg2png w h with
         | None => raise CairoError
         | Some png => write_scratch n png;; mret (Some n)
         end)
      (λ e, mret None).

Definition get_existing_emojis (w : World) : M (gmap string RemoteEntry) :=
  emit (EvGet (emojis_url w));;
  h ← history;
  match requests_get w h with
  | None => raise RequestException
  | Some (response, json) =>
      if bool_decide (status_code response = 200%Z) then
        match json with
        | None => raise JSONDecodeError
        | Some items =>
            for_each
              (λ emojis emoji,
                 match item_id emoji, item_name emoji with
                 | Some i, Some name =>
                     mret (<[name := {| re_id := i;
                                        re_animated := default false (item_animated emoji) |}]>
                             emojis)
                 | None, _ => raise (KeyError "id")
                 | _, None => raise (KeyError "name")
                 end)
              items ∅
        end
      else mret ∅
  end.

Definition delete_emoji (w : World) (emoji_id emoji_name : string) : M (bool * string) :=
  emit (EvDelete (emojis_url w +:+ "/" +:+ emoji_id) emoji_name);;
  h ← history;
  match requests_delete w h with
  | None => raise RequestException
  | Some response =>
      if bool_decide (status_code response = 204%Z) then mret (true, "Success")
      else mret (false, diagnostic response)
  end.

Definition read_file (w : World) (file_path : FilePath) : M (list N) :=
  emit (EvRead file_path);;
  match file_path with
  | LocalFile _ =>
      h ← history;
      match read_bytes w h with
      | None => raise OSError
      | Some image_data => mret image_data
      end
  | ScratchFile n => read_scratch n
  end.

(** [os.unlink]: it raises when the file is not there and when the system
    refuses the removal; the file stays then *)
Definition unlink (w : World) (n : nat) : M unit := λ s,
  match scratch s !! n with
  | None => Raise OSError {| trace := trace s ++ [EvUnlink n]; scratch := scratch s |}
  | Some _ =>
      if unlink_fails w (trace s ++ [EvUnlink n])
      then Raise OSError {| trace := trace s ++ [EvUnlink n]; scratch := scratch s |}
      else Ok () {| trace := trace s ++ [EvUnlink n]; scratch := delete n (scratch s) |}
  end.

(** [upload_emoji] from [with open(file_path, 'rb')] on, for the values its
    variables [file_path], [file_ext] and [temp_png_path] have there *)
Definition upload_prepared (w : World) (file_path : FilePath) (file_ext : string)
    (temp_png_path : option nat) (emoji_name : string)
    : M (bool * string * option EmojiJson) :=
  image_data ← read_file w file_path;
  match temp_png_path with
  | Some n => try_except (unlink w n) (λ _, mret ())
  | None => mret ()
  end;;
  let image_type :=
    if bool_decide (file_ext = ".png") then Some "image/png"
    else if bool_decide (file_ext ∈ [".jpg"; ".jpeg"]) then Some "image/jpeg"
    else if bool_decide (file_ext = ".gif") then Some "image/gif"
    else if bool_decide (file_ext = ".webp") then Some "image/webp"
    else None in
  match image_type with
  | None => mret (false, "Unsupported format", None)
  | Some image_type =>
      let image_base64 := b64encode image_data in
      let data_uri := "data:" +:+ image_type +:+ ";base64," +:+ image_base64 in
      emit (EvPost (emojis_url w) emoji_name data_uri);;
      h ← history;
      match requests_post w h with
      | None => raise RequestException
      | Some (response, json) =>
          if bool_decide (status_code response = 201%Z) then
            match json with
            | None => raise JSONDecodeError
            | Some emoji_data => mret (true, "Success", Some emoji_data)
            end
          else mret (false, diagnostic response, None)
      end
  end.

Definition upload_emoji (w : World) (file_path emoji_name : string)
    : M (bool * string * option EmojiJson) :=
  emit (EvUpload file_path emoji_name);;
  let file_ext := lower (suffix file_path) in
  if bool_decide (file_ext = ".svg") then
    if negb (SVG_SUPPORT w) then
      mret (false, "SVG support not available (cairosvg not installed)", None)
    else
      temp_png_path ← convert_svg_to_png w file_path;
      match temp_png_path with
      | None => mret (false, "Failed to convert SVG to PNG", None)
      | Some n => upload_prepared w (ScratchFile n) ".png" (Some n) emoji_name
      end
  else upload_prepared w (LocalFile file_path) file_ext None emoji_name.

Definition format_emoji_code (emoji_name emoji_id : string) (animated : bool) : string :=
  let prefix := if animated then "a" else "" in
  "<" +:+ prefix +:+ ":" +:+ emoji_name +:+ ":" +:+ emoji_id +:+ ">".

(** [emoji_files[key] = value]: a key that is present keeps its place *)
Fixpoint dict_set {V} (key : string) (value : V) (d : list (string * V))
    : list (string * V) :=
  match d with
  | [] => [(key, value)]
  | (k, x) :: d' =>
      if bool_decide (k = key) then (k, value) :: d'
      else (k, x) :: dict_set key value d'
  end.

(** The body runs over [emoji_path.rglob('*')]: the entries of the tree, none
    when [main] has just created the folder *)
Definition find_all_emoji_files (w : World) (emoji_folder : string)
    : list (string * LocalEntry) :=
  foldl
    (λ emoji_files entry,
       let file_path := path_join emoji_folder (de_rel entry) in
       if de_is_file entry && bool_decide (lower (suffix file_path) ∈ SUPPORTED_FORMATS)
       then
         let emoji_name := stem file_path in
         dict_set emoji_name
           {| le_path := file_path; le_relative_path := de_rel entry |} emoji_files
       else emoji_files)
    [] (default [] (folder_tree w)).

(** [sorted(emojis_dict.keys())] *)
Definition sorted_keys (emojis_dict : gmap string RemoteEntry) : list string :=
  merge_sort (≤)%string (elements (dom emojis_dict)).

(** What one turn of the loop of [write_emoji_codes] writes *)
Definition report_line (emojis_dict : gmap string RemoteEntry) (emoji_name : string)
    : option string :=
  emoji_info ← emojis_dict !! emoji_name;
  let emoji_code :=
    format_emoji_code emoji_name (re_id emoji_info) (re_animated emoji_info) in
  Some (ljust 30 emoji_name +:+ " " +:+ emoji_code +:+ nl).

Definition report_header (emojis_dict : gmap string RemoteEntry) : string :=
  "Discord Application Emoji Codes" +:+ nl +:+
  "Total emojis: " +:+ pretty (size emojis_dict) +:+ nl +:+
  str_repeat "=" 60 +:+ nl +:+ nl.

Definition report_footer (stamp : string) : string :=
  nl +:+ "Last updated on: " +:+ stamp +:+ nl.

(** The file is written in one piece, when the [with] block is left.  Of
    what can fail in the function only [open] is described: the writes and
    the lookup of the time zone for the footer are taken to succeed, so the
    properties below are about a report that was written to its end, and
    none of them says which exceptions the function can raise. *)
Definition write_emoji_codes (w : World) (emojis_dict : gmap string RemoteEntry)
    (local_files : list (string * LocalEntry)) : M unit :=
  h ← history;
  if report_unwritable w h then raise OSError
  else
    match mapM (report_line emojis_dict) (sorted_keys emojis_dict) with
    | None => raise (KeyError "emoji_name")
    | Some lines =>
        emit (EvWrite (EMOJI_CODES_FILE w)
                (report_header emojis_dict +:+ foldr String.append "" lines +:+
                 report_footer (now_ny w h)))
    end.

Definition initial_vars (existing : gmap string RemoteEntry) : Vars :=
  {| existing_emojis := existing; uploaded_count := 0; updated_count := 0;
     deleted_count := 0; skipped_count := 0; error_count := 0 |}.

Definition with_skipped (v : Vars) : Vars :=
  {| existing_emojis := existing_emojis v; uploaded_count := uploaded_count v;
     updated_count := updated_count v; deleted_count := deleted_count v;
     skipped_count := S (skipped_count v); error_count := error_count v |}.

Definition with_uploaded (emoji_name : string) (entry : RemoteEntry) (v : Vars) : Vars :=
  {| existing_emojis := <[emoji_name := entry]> (existing_emojis v);
     uploaded_count := S (uploaded_count v);
     updated_count := updated_count v; deleted_count := deleted_count v;
     skipped_count := skipped_count v; error_count := error_count v |}.

Definition with_deleted (emoji_name : string) (v : Vars) : Vars :=
  {| existing_emojis := delete emoji_name (existing_emojis v);
     uploaded_count := uploaded_count v;
     updated_count := updated_count v; deleted_count := S (deleted_count v);
     skipped_count := skipped_count v; error_count := error_count v |}.

Definition with_error (v : Vars) : Vars :=
  {| existing_emojis := existing_emojis v; uploaded_count := uploaded_count v;
     updated_count := updated_count v; deleted_count := deleted_count v;
     skipped_count := skipped_count v; error_count := S (error_count v) |}.

(** The [else] branch of both loops: count the error, pause on "429" *)
Definition failed (message : string) (v : Vars) : M Vars :=
  (if str_in "429" message then sleep 5000 else mret ());;
  mret (with_error v).

(** The body of the loop over [local_files.items()] *)
Definition process_local (w : World) (v : Vars) (item : string * LocalEntry) : M Vars :=
  let emoji_name := item.1 in
  let file_path := le_path item.2 in
  match existing_emojis v !! emoji_name with
  | Some _ => mret (with_skipped v)
  | None =>
      '(success, message, emoji_data) ← upload_emoji w file_path emoji_name;
      if success : bool then
        match emoji_data with
        | None => raise TypeError
        | Some emoji_data =>
            match json_id emoji_data with
            | None => raise (KeyError "id")
            | Some i =>
                let entry := {| re_id := i;
                                re_animated := default false (json_animated emoji_data) |} in
                sleep 1500;;
                mret (with_uploaded emoji_name entry v)
            end
        end
      else failed message v
  end.

(** The body of the loop over [emojis_to_delete] *)
Definition process_delete (w : World) (v : Vars) (emoji_name : string) : M Vars :=
  match existing_emojis v !! emoji_name with
  | None => raise (KeyError emoji_name)
  | Some emoji_info =>
      '(success, message) ← delete_emoji w (re_id emoji_info) emoji_name;
      if success : bool then
        sleep 1500;;
        mret (with_deleted emoji_name v)
      else failed message v
  end.

(** [set(existing_emojis.keys()) - set(local_files.keys())] *)
Definition emojis_to_delete (existing : gmap string RemoteEntry)
    (local_files : list (string * LocalEntry)) : gset string :=
  dom existing ∖ list_to_set local_files.*1.

Definition yielded_before (w : World) (a b : string) : Prop :=
  (set_order w a ≤ set_order w b)%N.

Global Instance yielded_before_dec w : RelDecision (yielded_before w).
Proof. intros a b. unfold yielded_before. apply _. Defined.

(** The elements of a Python [set] in the order the interpreter yields them *)
Definition set_iter (w : World) (X : gset string) : list string :=
  merge_sort (yielded_before w) (elements X).

(** The two passes of [main], from the counters set to zero to the end of
    the deletion loop *)
Definition reconcile (w : World) (local_files : list (string * LocalEntry))
    (existing : gmap string RemoteEntry) : M Vars :=
  v ← for_each (process_local w) local_files (initial_vars existing);
  for_each (process_delete w)
    (set_iter w (emojis_to_delete (existing_emojis v) local_files)) v.

(** [main] between the check of the credentials and the summary; its value
    is the variables as the summary prints them.  The creation of the folder
    is taken to succeed. *)
Definition run (w : World) : M Vars :=
  (if folder_tree w is None then emit (EvMkdir (EMOJI_FOLDER w)) else mret ());;
  existing ← get_existing_emojis w;
  let local_files := find_all_emoji_files w (EMOJI_FOLDER w) in
  v ← reconcile w local_files existing;
  write_emoji_codes w (existing_emojis v) local_files;;
  mret v.

Definition main (w : World) : M unit :=
  if falsy (BOT_TOKEN w) || falsy (APPLICATION_ID w) then raise (SystemExit 1)
  else
    v ← run w;
    if bool_decide (0 < error_count v) then raise (SystemExit 1) else mret ().

(** How the process ends: [sys.exit(code)], a return from [main] (status 0),
    or an exception that nothing handles *)
Inductive Outcome := Exit (code : Z) | Traceback (e : Exn).

Definition outcome {A} (r : Res A) : Outcome :=
  match r with
  | Ok _ _ => Exit 0
  | Raise (SystemExit code) _ => Exit code
  | Raise e _ => Traceback e
  end.

(** The status the interpreter hands to the operating system: the argument
    of [sys.exit], and 1 after the traceback of an exception that nothing
    handled *)
Definition exit_status (o : Outcome) : Z :=
  match o with
  | Exit code => code
  | Traceback _ => 1
  end.

Definition boot : Sys := {| trace := []; scratch := ∅ |}.

Definition final_sys {A} (r : Res A) : Sys :=
  match r with Ok _ s => s | Raise _ s => s end.

(** The effects counted by the properties *)
Definition is_upload (name : string) (e : Event) : bool :=
  match e with EvUpload _ n => bool_decide (n = name) | _ => false end.

Definition is_post (name : string) (e : Event) : bool :=
  match e with EvPost _ n _ => bool_decide (n = name) | _ => false end.

Definition is_delete (name : string) (e : Event) : bool :=
  match e with EvDelete _ n => bool_decide (n = name) | _ => false end.

Definition any_post (e : Event) : bool :=
  match e with EvPost _ _ _ => true | _ => false end.

Definition any_delete (e : Event) : bool :=
  match e with EvDelete _ _ => true | _ => false end.

(** The work of an upload on files *)
Definition file_event (e : Event) : Prop :=
  match e with
  | EvMkTemp _ | EvSvg2Png _ _ | EvRead _ | EvUnlink _ => True
  | _ => False
  end.

(** The extensions of [SUPPORTED_FORMATS] that [upload_emoji] gives a MIME
    type: all but ".svg" *)
Definition RASTER_FORMATS : list string := [".png"; ".jpg"; ".jpeg"; ".gif"; ".webp"].

Definition count (p : Event → bool) (t : list Event) : nat :=
  length (List.filter p t).

(** The state after some more effects *)
Definition after (s : Sys) (t : list Event) : Sys :=
  {| trace := trace s ++ t; scratch := scratch s |}.

(** ** Sample worlds *)

Definition sample_env (k : string) : option string :=
  if bool_decide (k = "DISCORD_BOT_TOKEN") then Some "token"
  else if bool_decide (k = "DISCORD_APPLICATION_ID") then Some "42"
  else None.

(** A server that accepts everything, an empty folder, no cairosvg *)
Definition calm : World := {|
  getenv := sample_env;
  cairosvg_importable := false;
  folder_tree := Some [];
  requests_get := λ _, Some ({| status_code := 200; text := "" |}, Some []);
  requests_post := λ _, Some ({| status_code := 201; text := "" |},
                             Some {| json_id := Some "900"; json_animated := None |});
  requests_delete := λ _, Some {| status_code := 204; text := "" |};
  read_bytes := λ _, Some [77; 97; 110]%N;
  tempfile_fails := λ _, false;
  unlink_fails := λ _, false;
  svg2png := λ _, Some [77]%N;
  set_order := λ _, 0%N;
  now_ny := λ _, "2025-06-01 12:00:00 EDT";
  report_unwritable := λ _, false
|}.

Definition with_cairosvg (render : list Event → option (list N)) (w : World) : World := {|
  getenv := getenv w; cairosvg_importable := true;
  folder_tree := folder_tree w;
  requests_get := requests_get w; requests_post := requests_post w;
  requests_delete := requests_delete w; read_bytes := read_bytes w;
  tempfile_fails := tempfile_fails w; unlink_fails := unlink_fails w;
  svg2png := render;
  set_order := set_order w; now_ny := now_ny w;
  report_unwritable := report_unwritable w
|}.

Definition sample_inventory : gmap string RemoteEntry :=
  {[ "wave" := {| re_id := "2"; re_animated := true |};
     "smile" := {| re_id := "1"; re_animated := false |} ]}.

Definition with_tree (tree : list DirEntry) (w : World) : World := {|
  getenv := getenv w; cairosvg_importable := cairosvg_importable w;
  folder_tree := Some tree;
  requests_get := requests_get w; requests_post := requests_post w;
  requests_delete := requests_delete w; read_bytes := read_bytes w;
  tempfile_fails := tempfile_fails w; unlink_fails := unlink_fails w;
  svg2png := svg2png w;
  set_order := set_order w; now_ny := now_ny w;
  report_unwritable := report_unwritable w
|}.

(** The folder of the first scenario of the specification *)
Definition two_files : World :=
  with_tree [ {| de_rel := "smile.png"; de_is_file := true |};
              {| de_rel := "sub"; de_is_file := false |};
              {| de_rel := "sub/wave.gif"; de_is_file := true |} ] calm.

(** A folder with one SVG, and no cairosvg *)
Definition svg_only : World :=
  with_tree [ {| de_rel := "icon.svg"; de_is_file := true |} ] calm.

Definition old_inventory : gmap string RemoteEntry :=
  {[ "old" := {| re_id := "123"; re_animated := false |} ]}.

(** What [reconcile] leaves for [two_files] against [old_inventory] *)
Definition two_files_vars : Vars :=
  {| existing_emojis :=
       {[ "smile" := {| re_id := "900"; re_animated := false |};
          "wave" := {| re_id := "900"; re_animated := false |} ]};
     uploaded_count := 2; updated_count := 0; deleted_count := 1;
     skipped_count := 0; error_count := 0 |}.

Definition two_files_trace : list Event :=
  [ EvUpload "emojis/smile.png" "smile";
    EvRead (LocalFile "emojis/smile.png");
    EvPost (emojis_url two_files) "smile" "data:image/png;base64,TWFu";
    EvSleep 1500;
    EvUpload "emojis/sub/wave.gif" "wave";
    EvRead (LocalFile "emojis/sub/wave.gif");
    EvPost (emojis_url two_files) "wave" "data:image/gif;base64,TWFu";
    EvSleep 1500;
    EvDelete (emojis_url two_files +:+ "/123") "old";
    EvSleep 1500 ].

(** What [reconcile] leaves for [svg_only] against an empty inventory *)
Definition svg_only_vars : Vars :=
  {| existing_emojis := ∅;
     uploaded_count := 0; updated_count := 0; deleted_count := 0;
     skipped_count := 0; error_count := 1 |}.

(** A server that answers every Create and Delete call with 429 *)
Definition busy : World := {|
  getenv := sample_env;
  cairosvg_importable := false;
  folder_tree := Some [ {| de_rel := "smile.png"; de_is_file := true |} ];
  requests_get := λ _, Some ({| status_code := 200; text := "" |}, Some []);
  requests_post := λ _, Some ({| status_code := 429; text := "rate limited" |}, None);
  requests_delete := λ _, Some {| status_code := 429; text := "rate limited" |};
  read_bytes := λ _, Some [77; 97; 110]%N;
  tempfile_fails := λ _, false;
  unlink_fails := λ _, false;
  svg2png := λ _, None;
  set_order := λ _, 0%N;
  now_ny := λ _, "2025-06-01 12:00:00 EDT";
  report_unwritable := λ _, false
|}.

(** ** The listing as a mapping

    The entry that [get_existing_emojis] makes of one listed item, and the
    mapping of a whole listing: an item that comes later replaces an earlier
    one of the same name. *)
Definition entry_of_item (emoji : ItemJson) : option (string * RemoteEntry) :=
  match item_id emoji, item_name emoji with
  | Some i, Some name =>
      Some (name, {| re_id := i; re_animated := default false (item_animated emoji) |})
  | _, _ => None
  end.

Definition listed (entries : list (string * RemoteEntry)) : gmap string RemoteEntry :=
  list_to_map (reverse entries).


(** The second scenario of the specification: "old" is remote, with id
    "123", and there is no local folder *)
Definition only_old : World := {|
  getenv := sample_env;
  cairosvg_importable := false;
  folder_tree := None;
  requests_get := λ _, Some ({| status_code := 200; text := "" |},
                            Some [ {| item_name := Some "old"; item_id := Some "123";
                                      item_animated := None |} ]);
  requests_post := λ _, None;
  requests_delete := λ _, Some {| status_code := 204; text := "" |};
  read_bytes := λ _, None;
  tempfile_fails := λ _, false;
  unlink_fails := λ _, false;
  svg2png := λ _, None;
  set_order := λ _, 0%N;
  now_ny := λ _, "2025-06-01 12:00:00 EDT";
  report_unwritable := λ _, false
|}.

(** No network: [requests] raises on the first call *)
Definition offline : World := {|
  getenv := sample_env;
  cairosvg_importable := false;
  folder_tree := Some [ {| de_rel := "smile.png"; de_is_file := true |} ];
  requests_get := λ _, None;
  requests_post := λ _, None;
  requests_delete := λ _, None;
  read_bytes := λ _, Some [77; 97; 110]%N;
  tempfile_fails := λ _, false;
  unlink_fails := λ _, false;
  svg2png := λ _, None;
  set_order := λ _, 0%N;
  now_ny := λ _, "2025-06-01 12:00:00 EDT";
  report_unwritable := λ _, false
|}.

(** A computation that never raises [SystemExit] *)
Definition no_exit {A} (m : M A) : Prop :=
  ∀ s e s', m s = Raise e s' → ∀ code, e ≠ SystemExit code.

(** The credentials check of [main] *)
Definition credentials_absent (w : World) : bool :=
  falsy (BOT_TOKEN w) || falsy (APPLICATION_ID w).

(** An outside on which no call of the two passes raises: every file can be
    read, every Create call is answered, a 201 with the id of the new emoji,
    and every Delete call is answered *)
Definition dependable (w : World) : Prop :=
  (∀ h, is_Some (read_bytes w h)) ∧
  (∀ h, ∃ response json,
     requests_post w h = Some (response, json) ∧
     (status_code response = 201%Z →
      ∃ emoji_data i, json = Some emoji_data ∧ json_id emoji_data = Some i)) ∧
  (∀ h, is_Some (requests_delete w h)).

(** ** More names for the parts of the script *)

(** One turn of the loop of [find_all_emoji_files] *)
Definition scan_step (emoji_folder : string) (emoji_files : list (string * LocalEntry))
    (entry : DirEntry) : list (string * LocalEntry) :=
  let file_path := path_join emoji_folder (de_rel entry) in
  if de_is_file entry && bool_decide (lower (suffix file_path) ∈ SUPPORTED_FORMATS)
  then dict_set (stem file_path)
         {| le_path := file_path; le_relative_path := de_rel entry |} emoji_files
  else emoji_files.

(** The entry the scanner makes of a directory entry *)
Definition local_item (emoji_folder : string) (entry : DirEntry) : string * LocalEntry :=
  (stem (path_join emoji_folder (de_rel entry)),
   {| le_path := path_join emoji_folder (de_rel entry);
      le_relative_path := de_rel entry |}).

(** A directory entry that the scanner keeps *)
Definition scanned (emoji_folder : string) (entry : DirEntry) : Prop :=
  de_is_file entry = true ∧
  lower (suffix (path_join emoji_folder (de_rel entry))) ∈ SUPPORTED_FORMATS.

(** Two images of the same stem in different folders, and a text file *)
Definition colliding : World :=
  with_tree [ {| de_rel := "a/x.png"; de_is_file := true |};
              {| de_rel := "b/x.GIF"; de_is_file := true |};
              {| de_rel := "b/x.txt"; de_is_file := true |} ] calm.

(** One turn of the loop of [get_existing_emojis] *)
Definition keep_item (emojis : gmap string RemoteEntry) (emoji : ItemJson)
    : M (gmap string RemoteEntry) :=
  match item_id emoji, item_name emoji with
  | Some i, Some name =>
      mret (<[name := {| re_id := i;
                         re_animated := default false (item_animated emoji) |}]>
              emojis)
  | None, _ => raise (KeyError "id")
  | _, None => raise (KeyError "name")
  end.

(** A listing that has the name "old" twice *)
Definition twice_listed : World := {|
  getenv := sample_env;
  cairosvg_importable := false;
  folder_tree := Some [];
  requests_get := λ _, Some ({| status_code := 200; text := "" |},
      Some [ {| item_name := Some "old"; item_id := Some "1"; item_animated := None |};
             {| item_name := Some "old"; item_id := Some "2";
                item_animated := Some true |} ]);
  requests_post := λ _, None;
  requests_delete := λ _, Some {| status_code := 204; text := "" |};
  read_bytes := λ _, None;
  tempfile_fails := λ _, false;
  unlink_fails := λ _, false;
  svg2png := λ _, None;
  set_order := λ _, 0%N;
  now_ny := λ _, "2025-06-01 12:00:00 EDT";
  report_unwritable := λ _, false
|}.

(** The MIME type [upload_emoji] gives a file extension *)
Definition image_type_of (file_ext : string) : option string :=
  if bool_decide (file_ext = ".png") then Some "image/png"
  else if bool_decide (file_ext ∈ [".jpg"; ".jpeg"]) then Some "image/jpeg"
  else if bool_decide (file_ext = ".gif") then Some "image/gif"
  else if bool_decide (file_ext = ".webp") then Some "image/webp"
  else None.

(** [upload_emoji] once [requests.post] has been called: the answer *)
Definition read_answer (w : World) : M (bool * string * option EmojiJson) :=
  h ← history;
  match requests_post w h with
  | None => raise RequestException
  | Some (response, json) =>
      if bool_decide (status_code response = 201%Z) then
        match json with
        | None => raise JSONDecodeError
        | Some emoji_data => mret (true, "Success", Some emoji_data)
        end
      else mret (false, diagnostic response, None)
  end.

(** [upload_emoji] from the choice of [image_type] on *)
Definition post_image (w : World) (file_ext emoji_name : string) (image_data : list N)
    : M (bool * string * option EmojiJson) :=
  match image_type_of file_ext with
  | None => mret (false, "Unsupported format", None)
  | Some image_type =>
      emit (EvPost (emojis_url w) emoji_name
              ("data:" +:+ image_type +:+ ";base64," +:+ b64encode image_data));;
      read_answer w
  end.

(** The messages of the failures of [upload_emoji] before its request *)
Definition preparation_failures : list string :=
  [ "SVG support not available (cairosvg not installed)";
    "Failed to convert SVG to PNG";
    "Unsupported format" ].


(** The result [upload_emoji] makes of the answer to its request, the
    request being the last event of the history [h] *)
Definition answer_of (w : World) (h : list Event)
    (r : bool * string * option EmojiJson) : Prop :=
  ∃ response json,
    requests_post w h = Some (response, json) ∧
    (status_code response = 201%Z ∧ is_Some json ∧ r = (true, "Success", json) ∨
     status_code response ≠ 201%Z ∧ r = (false, diagnostic response, None)).

(** What the upload loop leaves for [two_files] against [old_inventory] *)
Definition two_files_uploaded : Vars :=
  {| existing_emojis :=
       <["wave" := {| re_id := "900"; re_animated := false |}]>
         (<["smile" := {| re_id := "900"; re_animated := false |}]> old_inventory);
     uploaded_count := 2; updated_count := 0; deleted_count := 0;
     skipped_count := 0; error_count := 0 |}.

(** An SVG file, cairosvg installed and rendering three bytes *)
Definition svg_rendered : World :=
  with_cairosvg (λ _, Some [77; 97; 110]%N) svg_only.

(** The same outside, on a system that refuses every removal *)
Definition with_stuck_scratch (w : World) : World := {|
  getenv := getenv w; cairosvg_importable := cairosvg_importable w;
  folder_tree := folder_tree w;
  requests_get := requests_get w; requests_post := requests_post w;
  requests_delete := requests_delete w; read_bytes := read_bytes w;
  tempfile_fails := tempfile_fails w; unlink_fails := λ _, true;
  svg2png := svg2png w;
  set_order := set_order w; now_ny := now_ny w;
  report_unwritable := report_unwritable w
|}.

(** The pauses, by their length in milliseconds *)
Definition is_sleep (ms : N) (e : Event) : bool :=
  match e with EvSleep m => bool_decide (m = ms) | _ => false end.

Definition any_sleep (e : Event) : bool :=
  match e with EvSleep _ => true | _ => false end.

(** The effects of the deletion pass *)
Definition delete_event (e : Event) : Prop :=
  match e with
  | EvDelete _ _ | EvSleep _ => True
  | _ => False
  end.

(** The effects of the two passes: everything but the creation of the
    folder, the listing and the report *)
Definition reconcile_event (e : Event) : Prop :=
  match e with
  | EvMkdir _ | EvGet _ | EvWrite _ _ => False
  | _ => True
  end.

(** The file and the name of an upload attempt, the URL and the name of a
    Delete call *)
Definition upload_of (e : Event) : option (string * string) :=
  match e with EvUpload file_path emoji_name => Some (file_path, emoji_name) | _ => None end.

Definition delete_of (e : Event) : option (string * string) :=
  match e with EvDelete url emoji_name => Some (url, emoji_name) | _ => None end.

(** ** The report line as the specification words it

    The name padded on the left up to the field width, then the reference
    code [<name:id>], or [<a:name:id>] for an animated emoji. *)
Definition spec_left_padded (width : nat) (s : string) : string :=
  spaces (width - String.length s) +:+ s.

Definition spec_reference_code (emoji_name emoji_id : string) (animated : bool) : string :=
  if animated then "<a:" +:+ emoji_name +:+ ":" +:+ emoji_id +:+ ">"
  else "<" +:+ emoji_name +:+ ":" +:+ emoji_id +:+ ">".

Definition spec_report_line (emoji_name : string) (emoji_info : RemoteEntry) : string :=
  spec_left_padded 30 emoji_name +:+ " " +:+
  spec_reference_code emoji_name (re_id emoji_info) (re_animated emoji_info) +:+ nl.

(** ** Tactics for the monad *)

(** Open the operations of [M] *)
Ltac unfold_m :=
  unfold mbind, M_bind, mret, M_ret, raise, try_except, emit, sleep, history,
    new_tempfile, write_scratch, read_scratch, unlink, after in *.

(** A run that raised is not a run that returned *)
Ltac raised H := exfalso; unfold_m; simpl in H; discriminate H.

(** [no_exit] of a computation without loops, by cases *)
Ltac no_exit_cases :=
  intros s e s' Hrun code; revert Hrun; unfold_m;
  repeat case_match; intros Hrun; by simplify_eq/=.

(** ** Checks of the string and path functions *)

Example lower_GIF : lower ".GIF" = ".gif".
Proof. reflexivity. Qed.

Example suffix_nested : suffix "emojis/sub/wave.tar.GIF" = ".GIF".
Proof. reflexivity. Qed.

Example suffix_hidden : suffix "emojis/.png" = "".
Proof. reflexivity. Qed.

Example stem_nested : stem "emojis/sub/wave.gif" = "wave".
Proof. reflexivity. Qed.

Example b64_Man : b64encode [77; 97; 110]%N = "TWFu".
Proof. reflexivity. Qed.

Example b64_Ma : b64encode [77; 97]%N = "TWE=".
Proof. reflexivity. Qed.

Example b64_M : b64encode [77]%N = "TQ==".
Proof. reflexivity. Qed.

Example in_429 : str_in "429" "HTTP 429 - slow down" = true.
Proof. reflexivity. Qed.

Example ljust_smile : ljust 8 "smile" = "smile   ".
Proof. reflexivity. Qed.

(** ** The scenarios of the specification, run *)

Example main_uploads_two :
  main two_files boot
  = Ok () (after boot
      [ EvGet (emojis_url two_files);
        EvUpload "emojis/smile.png" "smile";
        EvRead (LocalFile "emojis/smile.png");
        EvPost (emojis_url two_files) "smile" "data:image/png;base64,TWFu";
        EvSleep 1500;
        EvUpload "emojis/sub/wave.gif" "wave";
        EvRead (LocalFile "emojis/sub/wave.gif");
        EvPost (emojis_url two_files) "wave" "data:image/gif;base64,TWFu";
        EvSleep 1500;
        EvWrite "emojis.txt"
          ("Discord Application Emoji Codes" +:+ nl +:+
           "Total emojis: 2" +:+ nl +:+
           "============================================================" +:+ nl +:+ nl +:+
           "smile                          <:smile:900>" +:+ nl +:+
           "wave                           <:wave:900>" +:+ nl +:+
           nl +:+ "Last updated on: 2025-06-01 12:00:00 EDT" +:+ nl) ]).
Proof. reflexivity. Qed.

Example main_deletes_old :
  main only_old boot
  = Ok () (after boot
      [ EvMkdir "emojis";
        EvGet (emojis_url only_old);
        EvDelete (emojis_url only_old +:+ "/123") "old";
        EvSleep 1500;
        EvWrite "emojis.txt"
          ("Discord Application Emoji Codes" +:+ nl +:+
           "Total emojis: 0" +:+ nl +:+
           "============================================================" +:+ nl +:+ nl +:+
           nl +:+ "Last updated on: 2025-06-01 12:00:00 EDT" +:+ nl) ]).
Proof. reflexivity. Qed.

Example main_without_token :
  main (with_tree [] {| getenv := λ _, None; cairosvg_importable := false;
                        folder_tree := None;
                        requests_get := λ _, None; requests_post := λ _, None;
                        requests_delete := λ _, None; read_bytes := λ _, None;
                        tempfile_fails := λ _, false; unlink_fails := λ _, false;
                        svg2png := λ _, None;
                        set_order := λ _, 0%N; now_ny := λ _, "";
                        report_unwritable := λ _, false |}) boot
  = Raise (SystemExit 1) boot.
Proof. reflexivity. Qed.

(** ** Strings *)

Lemma str_app_cons (x : ascii) (a b : string) : String x a +:+ b = String x (a +:+ b).
Proof. reflexivity. Qed.

Lemma str_app_assoc (a b c : string) : (a +:+ b) +:+ c = a +:+ b +:+ c.
Proof. induction a as [|x a IH]; [done|]. by rewrite !str_app_cons, IH. Qed.

Lemma str_concat_app (l1 l2 : list string) :
  foldr String.append "" (l1 ++ l2)
  = foldr String.append "" l1 +:+ foldr String.append "" l2.
Proof.
  induction l1 as [|x l1 IH]; [done|].
  change (x +:+ foldr String.append "" (l1 ++ l2)
          = (x +:+ foldr String.append "" l1) +:+ foldr String.append "" l2).
  by rewrite IH, str_app_assoc.
Qed.

Lemma prefix_app (a b : string) : String.prefix a (a +:+ b) = true.
Proof.
  induction a as [|x a IH]; [by destruct b|].
  rewrite str_app_cons. simpl. destruct (ascii_dec x x); [done | congruence].
Qed.

Lemma str_in_app_r (sub a b : string) : str_in sub b = true → str_in sub (a +:+ b) = true.
Proof.
  intros Hb. induction a as [|x a IH]; [done|].
  rewrite str_app_cons. simpl. rewrite IH. apply orb_true_r.
Qed.

Lemma str_in_middle (sub a b : string) : str_in sub (a +:+ sub +:+ b) = true.
Proof.
  apply str_in_app_r. pose proof (prefix_app sub b) as Hp.
  destruct (sub +:+ b); unfold str_in; fold str_in; by rewrite Hp.
Qed.

(** ** The report *)

Section report.
Context (emojis_dict : gmap string RemoteEntry).

Lemma sorted_keys_perm : sorted_keys emojis_dict ≡ₚ elements (dom emojis_dict).
Proof. apply merge_sort_Permutation. Qed.

Lemma elem_of_sorted_keys name :
  name ∈ sorted_keys emojis_dict ↔ is_Some (emojis_dict !! name).
Proof. by rewrite sorted_keys_perm, elem_of_elements, elem_of_dom. Qed.

Lemma sorted_keys_NoDup : NoDup (sorted_keys emojis_dict).
Proof. rewrite sorted_keys_perm. apply NoDup_elements. Qed.

Lemma sorted_keys_sorted : StronglySorted String.le (sorted_keys emojis_dict).
Proof. apply StronglySorted_merge_sort; apply _. Qed.

Lemma report_lines_Some (names : list string) :
  (∀ name, name ∈ names → is_Some (emojis_dict !! name)) →
  ∃ lines, mapM (report_line emojis_dict) names = Some lines.
Proof.
  intros Hin. apply mapM_is_Some, Forall_forall. intros name Hname.
  destruct (Hin name Hname) as [info Hinfo]. unfold report_line; simpl.
  rewrite Hinfo. by eexists.
Qed.

Lemma report_lines_split names lines name line :
  mapM (report_line emojis_dict) names = Some lines →
  name ∈ names → report_line emojis_dict name = Some line →
  ∃ above below,
    foldr String.append "" lines = above +:+ line +:+ below.
Proof.
  intros Hm Hname Hline. apply mapM_Some in Hm.
  apply list_elem_of_split in Hname as (n1 & n2 & ->).
  apply Forall2_app_inv_l in Hm as (l1 & l2' & _ & Hm & ->).
  apply Forall2_cons_inv_l in Hm as (line' & l2 & Hl & _ & ->).
  assert (line' = line) as -> by congruence.
  exists (foldr String.append "" l1), (foldr String.append "" l2).
  by rewrite str_concat_app.
Qed.
End report.

(** ** Running the monad *)

Lemma bind_Ok {A B} (m : M A) (f : A → M B) s b s' :
  (m ≫= f) s = Ok b s' ↔ ∃ a s1, m s = Ok a s1 ∧ f a s1 = Ok b s'.
Proof.
  unfold_m. destruct (m s) as [a s1|e s1]; split.
  - intros H. by exists a, s1.
  - by intros (a' & s1' & [= -> ->] & H).
  - done.
  - by intros (a' & s1' & [=] & _).
Qed.

(** C3. Report round-trip: whatever the final inventory is, the lines that
    [write_emoji_codes] puts between the header and the footer of the report
    file are the lines of the names [sorted(emojis_dict.keys())], each line
    starting with its name; these names are exactly the keys of the
    inventory, each once, in lexicographic order. *)
Theorem report_round_trip w (emojis_dict : gmap string RemoteEntry) local_files s :
  report_unwritable w (trace s) = false →
  ∃ lines,
    write_emoji_codes w emojis_dict local_files s
    = Ok () (after s [EvWrite (EMOJI_CODES_FILE w)
                        (report_header emojis_dict +:+ foldr String.append "" lines +:+
                         report_footer (now_ny w (trace s)))]) ∧
    Forall2 (λ name line, ∃ rest, line = name +:+ rest ∧
                                  report_line emojis_dict name = Some line)
      (sorted_keys emojis_dict) lines ∧
    (∀ name, name ∈ sorted_keys emojis_dict ↔ name ∈ dom emojis_dict) ∧
    NoDup (sorted_keys emojis_dict) ∧
    StronglySorted String.le (sorted_keys emojis_dict).
Proof.
  intros Hw.
  destruct (report_lines_Some emojis_dict (sorted_keys emojis_dict)) as [lines Hl].
  { intros name. by rewrite elem_of_sorted_keys. }
  exists lines. split; [|split; [|split; [|split]]].
  - unfold write_emoji_codes. unfold_m. by rewrite Hw, Hl.
  - apply mapM_Some in Hl. eapply Forall2_impl; [exact Hl|].
    intros name line Hline. pose proof Hline as Hline'.
    unfold report_line in Hline. destruct (emojis_dict !! name); [|done].
    simpl in Hline. injection Hline as <-. unfold ljust.
    eexists. split; [apply str_app_assoc | exact Hline'].
  - intros name. by rewrite elem_of_sorted_keys, elem_of_dom.
  - apply sorted_keys_NoDup.
  - apply sorted_keys_sorted.
Qed.

Lemma report_round_trip_witness :
  report_unwritable calm (trace boot) = false ∧
  ∃ lines,
    write_emoji_codes calm sample_inventory [] boot
    = Ok () (after boot [EvWrite (EMOJI_CODES_FILE calm)
                           (report_header sample_inventory +:+
                            foldr String.append "" lines +:+
                            report_footer (now_ny calm (trace boot)))]) ∧
    Forall2 (λ name line, ∃ rest, line = name +:+ rest ∧
                                  report_line sample_inventory name = Some line)
      (sorted_keys sample_inventory) lines ∧
    (∀ name, name ∈ sorted_keys sample_inventory ↔ name ∈ dom sample_inventory) ∧
    NoDup (sorted_keys sample_inventory) ∧
    StronglySorted String.le (sorted_keys sample_inventory).
Proof.
  split; [reflexivity|].
  apply (report_round_trip calm sample_inventory [] boot). reflexivity.
Defined.


Lemma format_emoji_code_cases emoji_name emoji_id animated :
  format_emoji_code emoji_name emoji_id animated
  = if animated then "<a:" +:+ emoji_name +:+ ":" +:+ emoji_id +:+ ">"
    else "<:" +:+ emoji_name +:+ ":" +:+ emoji_id +:+ ">".
Proof. by destruct animated. Qed.

Lemma report_line_written (emojis_dict : gmap string RemoteEntry) n line :
  report_line emojis_dict n = Some line →
  ∃ i, emojis_dict !! n = Some i ∧
       line = (n +:+ spaces (30 - String.length n)) +:+ " " +:+
              (if re_animated i
               then "<a:" +:+ n +:+ ":" +:+ re_id i +:+ ">"
               else "<:" +:+ n +:+ ":" +:+ re_id i +:+ ">") +:+ nl.
Proof.
  unfold report_line. destruct (emojis_dict !! n) as [i|]; [|done]. simpl.
  intros [= <-]. exists i. split; [done|]. by rewrite format_emoji_code_cases.
Qed.

(** C4, as the code has it. Between its header and its footer the report
    file is made of whole lines, one for each name of the final inventory in
    sorted order, and nothing else.  The line of an emoji is: the name
    first, filled up on the right with spaces to 30 characters when it is
    shorter (a longer name is written in full), one space, then the
    reference code, which is [<:name:id>] when the animated flag is false
    and [<a:name:id>] when it is true, and a newline.  So for every emoji of
    the inventory its line is in the file, after the lines of the names
    before it and before the lines of the names after it. *)
Theorem report_line_format w (emojis_dict : gmap string RemoteEntry) local_files s
    name info :
  report_unwritable w (trace s) = false →
  emojis_dict !! name = Some info →
  ∃ names_above names_below above below,
    let line := λ n (i : RemoteEntry),
      (n +:+ spaces (30 - String.length n)) +:+ " " +:+
      (if re_animated i
       then "<a:" +:+ n +:+ ":" +:+ re_id i +:+ ">"
       else "<:" +:+ n +:+ ":" +:+ re_id i +:+ ">") +:+ nl in
    sorted_keys emojis_dict = names_above ++ name :: names_below ∧
    Forall2 (λ n l, ∃ i, emojis_dict !! n = Some i ∧ l = line n i) names_above above ∧
    Forall2 (λ n l, ∃ i, emojis_dict !! n = Some i ∧ l = line n i) names_below below ∧
    write_emoji_codes w emojis_dict local_files s
    = Ok () (after s [EvWrite (EMOJI_CODES_FILE w)
               (report_header emojis_dict +:+
                foldr String.append "" (above ++ line name info :: below) +:+
                report_footer (now_ny w (trace s)))]).
Proof.
  intros Hw Hinfo.
  destruct (report_lines_Some emojis_dict (sorted_keys emojis_dict)) as [lines Hl].
  { intros n. by rewrite elem_of_sorted_keys. }
  assert (name ∈ sorted_keys emojis_dict) as Hname.
  { apply elem_of_sorted_keys. by eexists. }
  apply list_elem_of_split in Hname as (names_above & names_below & Hsplit).
  pose proof Hl as Hall. apply mapM_Some in Hall. rewrite Hsplit in Hall.
  apply Forall2_app_inv_l in Hall as (above & rest & Habove & Hrest & Hlines).
  apply Forall2_cons_inv_l in Hrest as (line0 & below & Hline & Hbelow & ->).
  apply report_line_written in Hline as (i & Hi & ->).
  rewrite Hinfo in Hi. injection Hi as <-.
  exists names_above, names_below, above, below. cbv zeta. split_and!.
  - done.
  - eapply Forall2_impl; [exact Habove|]. intros n l. apply report_line_written.
  - eapply Forall2_impl; [exact Hbelow|]. intros n l. apply report_line_written.
  - unfold write_emoji_codes. unfold_m. by rewrite Hw, Hl, Hlines.
Qed.

Lemma report_line_format_witness :
  report_unwritable calm (trace boot) = false ∧
  sample_inventory !! "wave" = Some {| re_id := "2"; re_animated := true |} ∧
  write_emoji_codes calm sample_inventory [] boot
  = Ok () (after boot [EvWrite "emojis.txt"
             ("Discord Application Emoji Codes" +:+ nl +:+
              "Total emojis: 2" +:+ nl +:+
              "============================================================" +:+ nl +:+ nl +:+
              "smile                          <:smile:1>" +:+ nl +:+
              "wave                           <a:wave:2>" +:+ nl +:+
              nl +:+ "Last updated on: 2025-06-01 12:00:00 EDT" +:+ nl)]) ∧
  ∃ names_above names_below above below,
    let line := λ n (i : RemoteEntry),
      (n +:+ spaces (30 - String.length n)) +:+ " " +:+
      (if re_animated i
       then "<a:" +:+ n +:+ ":" +:+ re_id i +:+ ">"
       else "<:" +:+ n +:+ ":" +:+ re_id i +:+ ">") +:+ nl in
    sorted_keys sample_inventory = names_above ++ "wave" :: names_below ∧
    Forall2 (λ n l, ∃ i, sample_inventory !! n = Some i ∧ l = line n i) names_above above ∧
    Forall2 (λ n l, ∃ i, sample_inventory !! n = Some i ∧ l = line n i) names_below below ∧
    write_emoji_codes calm sample_inventory [] boot
    = Ok () (after boot [EvWrite (EMOJI_CODES_FILE calm)
               (report_header sample_inventory +:+
                foldr String.append ""
                  (above ++ line "wave" {| re_id := "2"; re_animated := true |} :: below) +:+
                report_footer (now_ny calm (trace boot)))]).
Proof.
  split; [reflexivity|]. split; [reflexivity|]. split; [by vm_compute|].
  apply (report_line_format calm sample_inventory [] boot "wave"
           {| re_id := "2"; re_animated := true |}); reflexivity.
Defined.

(** C4 as the specification words it fails: the line of a non-animated emoji
    starts with the name, not with the padding, and its code is [<:smile:1>],
    with a colon before the name. *)
Lemma report_line_not_as_worded :
  report_line sample_inventory "smile"
  = Some ("smile                          <:smile:1>" +:+ nl) ∧
  spec_report_line "smile" {| re_id := "1"; re_animated := false |}
  = "                         smile <smile:1>" +:+ nl ∧
  report_line sample_inventory "smile"
  ≠ Some (spec_report_line "smile" {| re_id := "1"; re_animated := false |}) ∧
  format_emoji_code "smile" "1" false ≠ spec_reference_code "smile" "1" false.
Proof. split_and!; [reflexivity | reflexivity | by vm_compute | by vm_compute]. Qed.

(** ** One upload *)

Lemma diagnostic_not_unsupported response : diagnostic response ≠ "Unsupported format".
Proof.
  intros H. pose proof (str_in_middle " - " (pretty (status_code response)) (text response)) as Hin.
  unfold diagnostic in H. rewrite H in Hin. discriminate Hin.
Qed.

Lemma upload_prepared_supported w file_path file_ext temp_png_path emoji_name s r s' :
  file_ext ∈ [".png"; ".jpg"; ".jpeg"; ".gif"; ".webp"] →
  upload_prepared w file_path file_ext temp_png_path emoji_name s = Ok r s' →
  r.1.2 ≠ "Unsupported format".
Proof.
  intros Hext Hrun. unfold upload_prepared in Hrun.
  apply bind_Ok in Hrun as (image_data & s1 & _ & Hrun).
  apply bind_Ok in Hrun as ([] & s2 & _ & Hrun).
  assert (∃ image_type,
    (if bool_decide (file_ext = ".png") then Some "image/png"
     else if bool_decide (file_ext ∈ [".jpg"; ".jpeg"]) then Some "image/jpeg"
     else if bool_decide (file_ext = ".gif") then Some "image/gif"
     else if bool_decide (file_ext = ".webp") then Some "image/webp"
     else None) = Some image_type) as [image_type Htype].
  { repeat (apply elem_of_cons in Hext as [->|Hext]); try (by eexists).
    by apply elem_of_nil in Hext. }
  cbv zeta in Hrun. rewrite Htype in Hrun.
  apply bind_Ok in Hrun as ([] & s3 & _ & Hrun).
  apply bind_Ok in Hrun as (h & s4 & _ & Hrun).
  destruct (requests_post w h) as [[response json]|]; [|raised Hrun].
  destruct (bool_decide (status_code response = 201%Z)); unfold_m.
  - destruct json; [|raised Hrun]. by injection Hrun as <- _.
  - injection Hrun as <- _. apply diagnostic_not_unsupported.
Qed.

Lemma elem_of_dict_set {V} key (value : V) d item :
  item ∈ dict_set key value d → item = (key, value) ∨ item ∈ d.
Proof.
  induction d as [|[k x] d IH]; simpl.
  - intros ->%list_elem_of_singleton. by left.
  - destruct (decide (k = key)) as [->|Hk].
    + rewrite bool_decide_true by done. set_solver.
    + rewrite bool_decide_false by done. set_solver.
Qed.

Lemma dict_set_keys {V} key (value : V) d :
  (dict_set key value d).*1 = if bool_decide (key ∈ d.*1) then d.*1 else d.*1 ++ [key].
Proof.
  induction d as [|[k x] d IH]; [done|].
  change (((k, x) :: d).*1) with (k :: d.*1).
  unfold dict_set; fold (@dict_set V).
  destruct (decide (k = key)) as [->|Hk].
  - rewrite !bool_decide_true by set_solver. done.
  - rewrite (bool_decide_false (k = key)) by done.
    change (((k, x) :: dict_set key value d).*1) with (k :: (dict_set key value d).*1).
    rewrite IH. destruct (decide (key ∈ d.*1)) as [Hin|Hin].
    + rewrite !bool_decide_true by set_solver. done.
    + rewrite !bool_decide_false by set_solver. done.
Qed.

Lemma dict_set_NoDup {V} key (value : V) d : NoDup d.*1 → NoDup (dict_set key value d).*1.
Proof.
  intros Hd. rewrite dict_set_keys. case_bool_decide as Hin; [done|].
  apply NoDup_app. split_and!; [done | set_solver | apply NoDup_singleton].
Qed.

(** What the scanner keeps: files with an allowed extension, one per name *)
Lemma find_all_emoji_files_spec w emoji_folder :
  NoDup (find_all_emoji_files w emoji_folder).*1 ∧
  ∀ item, item ∈ find_all_emoji_files w emoji_folder →
    lower (suffix (le_path item.2)) ∈ SUPPORTED_FORMATS ∧ item.1 = stem (le_path item.2).
Proof.
  unfold find_all_emoji_files.
  generalize (default [] (folder_tree w)). intros tree.
  cut (∀ acc : list (string * LocalEntry),
         (NoDup acc.*1 ∧ ∀ item, item ∈ acc →
            lower (suffix (le_path item.2)) ∈ SUPPORTED_FORMATS ∧
            item.1 = stem (le_path item.2)) →
         let out := foldl
           (λ emoji_files entry,
              let file_path := path_join emoji_folder (de_rel entry) in
              if de_is_file entry && bool_decide (lower (suffix file_path) ∈ SUPPORTED_FORMATS)
              then dict_set (stem file_path)
                     {| le_path := file_path; le_relative_path := de_rel entry |} emoji_files
              else emoji_files) acc tree in
         NoDup out.*1 ∧ ∀ item, item ∈ out →
            lower (suffix (le_path item.2)) ∈ SUPPORTED_FORMATS ∧
            item.1 = stem (le_path item.2)).
  { intros H. apply H. split; [constructor | by intros ? ?%elem_of_nil]. }
  induction tree as [|entry tree IH]; simpl; [done|].
  intros acc [Hnd Hacc]. apply IH.
  destruct (de_is_file entry); simpl; [|done].
  case_bool_decide as Hext; [|done]. split.
  - by apply dict_set_NoDup.
  - intros item [->|Hin]%elem_of_dict_set; [done | by apply Hacc].
Qed.

(** C10. A file path whose lower-cased extension is in the allow-list of the
    scanner, and so every path that [find_all_emoji_files] puts into
    [local_files], never makes [upload_emoji] return the failure
    "Unsupported format": the five raster extensions have a MIME type and
    ".svg" is replaced by ".png" before the lookup. *)
Theorem unsupported_format_unreachable w file_path emoji_name s r s' :
  lower (suffix file_path) ∈ SUPPORTED_FORMATS ∨
  (∃ w0 emoji_folder relative_path,
     (emoji_name, {| le_path := file_path; le_relative_path := relative_path |})
     ∈ find_all_emoji_files w0 emoji_folder) →
  upload_emoji w file_path emoji_name s = Ok r s' →
  r.1.2 ≠ "Unsupported format".
Proof.
  intros Hext Hrun.
  assert (lower (suffix file_path) ∈ SUPPORTED_FORMATS) as Hin.
  { destruct Hext as [?|(w0 & folder & rel & Hitem)]; [done|].
    by apply (find_all_emoji_files_spec w0 folder) in Hitem as [? _]. }
  clear Hext. unfold upload_emoji in Hrun.
  apply bind_Ok in Hrun as ([] & s1 & _ & Hrun). cbv zeta in Hrun.
  case_bool_decide as Hsvg.
  - destruct (SVG_SUPPORT w); simpl in Hrun.
    + apply bind_Ok in Hrun as ([n|] & s2 & _ & Hrun).
      * eapply upload_prepared_supported; [|exact Hrun]. set_solver.
      * by injection Hrun as <- _.
    + by injection Hrun as <- _.
  - eapply upload_prepared_supported; [|exact Hrun].
    unfold SUPPORTED_FORMATS in Hin.
    set_solver.
Qed.

Lemma unsupported_format_unreachable_witness :
  (lower (suffix "emojis/sub/Wave.GIF") ∈ SUPPORTED_FORMATS ∨
   (∃ w0 emoji_folder relative_path,
      ("Wave", {| le_path := "emojis/sub/Wave.GIF"; le_relative_path := relative_path |})
      ∈ find_all_emoji_files w0 emoji_folder)) ∧
  upload_emoji calm "emojis/sub/Wave.GIF" "Wave" boot
  = Ok (true, "Success", Some {| json_id := Some "900"; json_animated := None |})
       (after boot [EvUpload "emojis/sub/Wave.GIF" "Wave";
                    EvRead (LocalFile "emojis/sub/Wave.GIF");
                    EvPost (emojis_url calm) "Wave" "data:image/gif;base64,TWFu"]) ∧
  "Success" ≠ "Unsupported format".
Proof.
  assert (lower (suffix "emojis/sub/Wave.GIF") ∈ SUPPORTED_FORMATS) as Hext.
  { vm_compute. set_solver. }
  split; [by left|]. split; [reflexivity|].
  apply (unsupported_format_unreachable calm "emojis/sub/Wave.GIF" "Wave" boot
           (true, "Success", Some {| json_id := Some "900"; json_animated := None |})
           (after boot [EvUpload "emojis/sub/Wave.GIF" "Wave";
                        EvRead (LocalFile "emojis/sub/Wave.GIF");
                        EvPost (emojis_url calm) "Wave" "data:image/gif;base64,TWFu"]));
    [by left | reflexivity].
Defined.

Lemma upload_emoji_svg_unsupported w file_path emoji_name s :
  lower (suffix file_path) = ".svg" →
  SVG_SUPPORT w = false →
  upload_emoji w file_path emoji_name s
  = Ok (false, "SVG support not available (cairosvg not installed)", None)
       (after s [EvUpload file_path emoji_name]).
Proof.
  intros Hext Hsvg. unfold upload_emoji. unfold_m. simpl. by rewrite Hext, Hsvg.
Qed.

(** C7. An upload of a file whose lower-cased extension is ".svg", when
    cairosvg could not be imported, returns at once the failure
    "SVG support not available (cairosvg not installed)": the only effect is
    the entry into [upload_emoji] (no scratch file, no conversion, no POST),
    and the turn of the loop of [main] that made the call adds one to
    [error_count], changes nothing else and does not pause. *)
Theorem svg_without_support w file_path emoji_name s :
  lower (suffix file_path) = ".svg" →
  SVG_SUPPORT w = false →
  upload_emoji w file_path emoji_name s
  = Ok (false, "SVG support not available (cairosvg not installed)", None)
       (after s [EvUpload file_path emoji_name]) ∧
  str_in "not available" "SVG support not available (cairosvg not installed)" = true ∧
  ∀ v relative_path,
    existing_emojis v !! emoji_name = None →
    process_local w v
      (emoji_name, {| le_path := file_path; le_relative_path := relative_path |}) s
    = Ok (with_error v) (after s [EvUpload file_path emoji_name]) ∧
    error_count (with_error v) = S (error_count v).
Proof.
  intros Hext Hsvg.
  pose proof (upload_emoji_svg_unsupported w file_path emoji_name s Hext Hsvg) as Hup.
  split_and!; [done | reflexivity|].
  intros v relative_path Hnew. split; [|done].
  unfold process_local. simpl. rewrite Hnew.
  unfold mbind, M_bind. rewrite Hup. reflexivity.
Qed.

Lemma svg_without_support_witness :
  lower (suffix "emojis/icon.svg") = ".svg" ∧
  SVG_SUPPORT calm = false ∧
  upload_emoji calm "emojis/icon.svg" "icon" boot
  = Ok (false, "SVG support not available (cairosvg not installed)", None)
       (after boot [EvUpload "emojis/icon.svg" "icon"]) ∧
  str_in "not available" "SVG support not available (cairosvg not installed)" = true ∧
  ∀ v relative_path,
    existing_emojis v !! "icon" = None →
    process_local calm v
      ("icon", {| le_path := "emojis/icon.svg"; le_relative_path := relative_path |}) boot
    = Ok (with_error v) (after boot [EvUpload "emojis/icon.svg" "icon"]) ∧
    error_count (with_error v) = S (error_count v).
Proof.
  split; [reflexivity|]. split; [reflexivity|].
  apply (svg_without_support calm "emojis/icon.svg" "icon" boot); reflexivity.
Defined.

(** C8 at its failing input. cairosvg is there and raises on the file: the
    scratch file that [convert_svg_to_png] has just made (number 0, empty)
    is still on disk when [upload_emoji] returns its failure. *)
Theorem scratch_file_left_behind :
  upload_emoji (with_cairosvg (λ _, None) calm) "emojis/icon.svg" "icon" boot
  = Ok (false, "Failed to convert SVG to PNG", None)
       {| trace := [EvUpload "emojis/icon.svg" "icon"; EvMkTemp 0;
                    EvSvg2Png "emojis/icon.svg" 0];
          scratch := {[ 0 := [] ]} |} ∧
  scratch boot = ∅.
Proof. split; reflexivity. Qed.

(** ** The effects of one upload and of one deletion *)

Lemma convert_svg_to_png_effects w svg_path s r s' :
  convert_svg_to_png w svg_path s = Ok r s' →
  ∃ files, trace s' = trace s ++ files ∧ Forall file_event files.
Proof.
  unfold convert_svg_to_png. unfold_m. intros Hrun.
  repeat case_match; simplify_eq/=;
    rewrite <- ?app_assoc; (eexists; split; [done || by rewrite app_nil_r|]);
    by repeat constructor.
Qed.

Lemma upload_prepared_effects w file_path file_ext temp_png_path emoji_name s r s' :
  upload_prepared w file_path file_ext temp_png_path emoji_name s = Ok r s' →
  ∃ files posts,
    trace s' = trace s ++ files ++ posts ∧ Forall file_event files ∧
    (posts = [] ∨ ∃ data_uri, posts = [EvPost (emojis_url w) emoji_name data_uri]).
Proof.
  unfold upload_prepared, read_file. unfold_m. intros Hrun.
  repeat case_match; simplify_eq/=; rewrite <- ?app_assoc; simpl;
    first
      [ by eexists [_; _], [_]; split; [reflexivity|]; split; [repeat constructor | eauto]
      | by eexists [_], [_]; split; [reflexivity|]; split; [repeat constructor | eauto]
      | by eexists [_; _], []; split; [reflexivity|]; split; [repeat constructor | eauto]
      | by eexists [_], []; split; [reflexivity|]; split; [repeat constructor | eauto] ].
Qed.

Lemma upload_emoji_effects w file_path emoji_name s r s' :
  upload_emoji w file_path emoji_name s = Ok r s' →
  ∃ files posts,
    trace s' = trace s ++ EvUpload file_path emoji_name :: files ++ posts ∧
    Forall file_event files ∧
    (posts = [] ∨ ∃ data_uri, posts = [EvPost (emojis_url w) emoji_name data_uri]).
Proof.
  unfold upload_emoji. intros Hrun.
  apply bind_Ok in Hrun as ([] & s1 & [= <-] & Hrun). cbv zeta in Hrun.
  destruct (bool_decide (lower (suffix file_path) = ".svg")).
  - destruct (SVG_SUPPORT w); simpl in Hrun.
    + apply bind_Ok in Hrun as (temp & s2 & Hconv & Hrun).
      apply convert_svg_to_png_effects in Hconv as (files1 & Ht1 & Hf1).
      destruct temp as [n|].
      * apply upload_prepared_effects in Hrun as (files2 & posts & Ht2 & Hf2 & Hposts).
        exists (files1 ++ files2), posts. split_and!; [|by apply Forall_app|done].
        rewrite Ht2, Ht1. simpl. by rewrite <- !app_assoc.
      * injection Hrun as <- <-. exists files1, []. split_and!; [|done|by left].
        rewrite Ht1. simpl. by rewrite <- !app_assoc, app_nil_r.
    + injection Hrun as <- <-. exists [], []. split_and!; [done|constructor|by left].
  - apply upload_prepared_effects in Hrun as (files2 & posts & Ht2 & Hf2 & Hposts).
    exists files2, posts. split_and!; [|done|done].
    rewrite Ht2. simpl. by rewrite <- !app_assoc.
Qed.

Lemma upload_prepared_posts w file_path file_ext temp_png_path emoji_name s r s' :
  file_ext ∈ RASTER_FORMATS →
  upload_prepared w file_path file_ext temp_png_path emoji_name s = Ok r s' →
  ∃ files data_uri,
    trace s' = trace s ++ files ++ [EvPost (emojis_url w) emoji_name data_uri] ∧
    Forall file_event files.
Proof.
  intros Hext Hrun.
  apply upload_prepared_effects in Hrun as Heff.
  destruct Heff as (files & posts & Ht & Hfiles & [->|[data_uri ->]]); [|by eauto].
  exfalso. unfold upload_prepared in Hrun.
  apply bind_Ok in Hrun as (image_data & s1 & Hread & Hrun).
  apply bind_Ok in Hrun as ([] & s2 & Hunlink & Hrun).
  assert (∃ image_type,
    (if bool_decide (file_ext = ".png") then Some "image/png"
     else if bool_decide (file_ext ∈ [".jpg"; ".jpeg"]) then Some "image/jpeg"
     else if bool_decide (file_ext = ".gif") then Some "image/gif"
     else if bool_decide (file_ext = ".webp") then Some "image/webp"
     else None) = Some image_type) as [image_type Htype].
  { unfold RASTER_FORMATS in Hext.
    repeat (apply elem_of_cons in Hext as [->|Hext]); try (by eexists).
    by apply elem_of_nil in Hext. }
  cbv zeta in Hrun. rewrite Htype in Hrun. clear Htype.
  apply bind_Ok in Hrun as ([] & s3 & [= <-] & Hrun).
  assert (∃ files', trace s2 = trace s ++ files' ∧ Forall file_event files')
    as (files' & Ht2 & _).
  { revert Hread Hunlink. unfold read_file. unfold_m. intros Hread Hunlink.
    repeat case_match; simplify_eq/=; rewrite <- ?app_assoc; simpl;
      eexists; (split; [reflexivity|]); by repeat constructor. }
  assert (∃ rest, trace s' = (trace s2 ++ [EvPost (emojis_url w) emoji_name
            ("data:" +:+ image_type +:+ ";base64," +:+ b64encode image_data)]) ++ rest)
    as [rest Ht'].
  { revert Hrun. unfold_m. intros Hrun.
    repeat case_match; simplify_eq/=; exists []; by rewrite app_nil_r. }
  rewrite Ht2, Ht, <- !app_assoc in Ht'. apply app_inv_head in Ht'.
  rewrite app_nil_r in Ht'.
  rewrite Ht' in Hfiles. apply Forall_app in Hfiles as [_ Hbad].
  inversion Hbad as [|? ? Hx _]. exact Hx.
Qed.

(** Where one upload sends its request: always for a raster file, never
    for an SVG without cairosvg *)
Lemma upload_emoji_posts w file_path emoji_name s r s' :
  upload_emoji w file_path emoji_name s = Ok r s' →
  ∃ files posts,
    trace s' = trace s ++ EvUpload file_path emoji_name :: files ++ posts ∧
    Forall file_event files ∧
    (posts = [] ∨ ∃ data_uri, posts = [EvPost (emojis_url w) emoji_name data_uri]) ∧
    (lower (suffix file_path) ∈ RASTER_FORMATS → posts ≠ []) ∧
    (lower (suffix file_path) = ".svg" → SVG_SUPPORT w = false → posts = []).
Proof.
  intros Hrun.
  destruct (decide (lower (suffix file_path) = ".svg")) as [Hsvg|Hsvg].
  - destruct (SVG_SUPPORT w) eqn:Hsup.
    + apply upload_emoji_effects in Hrun as (files & posts & Ht & Hf & Hp).
      exists files, posts. split_and!; [done..| |done].
      rewrite Hsvg. unfold RASTER_FORMATS. set_solver.
    + rewrite (upload_emoji_svg_unsupported w file_path emoji_name s Hsvg Hsup) in Hrun. injection Hrun as <- <-.
      exists [], []. split_and!; [done | constructor | by left | | done].
      rewrite Hsvg. unfold RASTER_FORMATS. set_solver.
  - destruct (decide (lower (suffix file_path) ∈ RASTER_FORMATS)) as [Hras|Hras].
    + unfold upload_emoji in Hrun.
      apply bind_Ok in Hrun as ([] & s1 & [= <-] & Hrun). cbv zeta in Hrun.
      rewrite bool_decide_false in Hrun by done.
      apply upload_prepared_posts in Hrun as (files & data_uri & Ht & Hf); [|done].
      exists files, [EvPost (emojis_url w) emoji_name data_uri].
      split_and!; [|done|eauto|done|done].
      rewrite Ht. simpl. by rewrite <- !app_assoc.
    + apply upload_emoji_effects in Hrun as (files & posts & Ht & Hf & Hp).
      exists files, posts. split_and!; done.
Qed.

(** ** Counting effects *)

Lemma count_app p t1 t2 : count p (t1 ++ t2) = count p t1 + count p t2.
Proof. unfold count. by rewrite List.filter_app, length_app. Qed.

Lemma count_cons p e t : count p (e :: t) = (if p e then 1 else 0) + count p t.
Proof. unfold count. simpl. by destruct (p e). Qed.

Lemma count_nil p : count p [] = 0.
Proof. done. Qed.

Lemma count_files p files :
  (∀ e, file_event e → p e = false) → Forall file_event files → count p files = 0.
Proof.
  intros Hp. induction 1 as [|e files He _ IH]; [done|].
  by rewrite count_cons, (Hp e He), IH.
Qed.

Lemma count_upload_files name files : Forall file_event files → count (is_upload name) files = 0.
Proof. apply count_files. by intros []. Qed.

Lemma count_post_files name files : Forall file_event files → count (is_post name) files = 0.
Proof. apply count_files. by intros []. Qed.

Lemma count_delete_files name files : Forall file_event files → count (is_delete name) files = 0.
Proof. apply count_files. by intros []. Qed.

(** ** One turn of each loop *)

Lemma failed_spec message v s v' s' :
  failed message v s = Ok v' s' →
  v' = with_error v ∧
  s' = after s (if str_in "429" message then [EvSleep 5000] else []).
Proof.
  unfold failed. unfold_m. destruct (str_in "429" message); intros [= <- <-].
  - done.
  - split; [done|]. destruct s; simpl. by rewrite app_nil_r.
Qed.

Lemma process_local_spec w v item s v' s' :
  process_local w v item s = Ok v' s' →
  (is_Some (existing_emojis v !! item.1) ∧ v' = with_skipped v ∧ s' = s) ∨
  (existing_emojis v !! item.1 = None ∧
   ∃ files posts pause,
     trace s' = trace s ++ EvUpload (le_path item.2) item.1 :: files ++ posts ++ pause ∧
     Forall file_event files ∧
     (posts = [] ∨ ∃ data_uri, posts = [EvPost (emojis_url w) item.1 data_uri]) ∧
     (lower (suffix (le_path item.2)) ∈ RASTER_FORMATS → posts ≠ []) ∧
     (lower (suffix (le_path item.2)) = ".svg" → SVG_SUPPORT w = false → posts = []) ∧
     ((∃ entry, v' = with_uploaded item.1 entry v ∧ pause = [EvSleep 1500]) ∨
      (v' = with_error v ∧ (pause = [] ∨ pause = [EvSleep 5000])))).
Proof.
  unfold process_local. cbv zeta.
  destruct (existing_emojis v !! item.1) as [entry|] eqn:Hlook.
  - intros [= <- <-]. left. eauto.
  - intros Hrun. right. split; [done|].
    apply bind_Ok in Hrun as ([[success message] emoji_data] & s1 & Hup & Hrun).
    apply upload_emoji_posts in Hup as (files & posts & Ht & Hf & Hp & Hras & Hsvg).
    exists files, posts.
    destruct success.
    + destruct emoji_data as [emoji_data|]; [|raised Hrun].
      destruct (json_id emoji_data) as [i|]; [|raised Hrun].
      revert Hrun. unfold_m. intros [= <- <-]. exists [EvSleep 1500]. simpl.
      split_and!; [|done..|left; eauto].
      rewrite Ht. rewrite <- !app_assoc. simpl. by rewrite <- !app_assoc.
    + apply failed_spec in Hrun as [-> ->].
      exists (if str_in "429" message then [EvSleep 5000] else []).
      split_and!; [|done..|right; split; [done|]; destruct (str_in "429" message); eauto].
      simpl. rewrite Ht. rewrite <- !app_assoc. simpl. by rewrite <- !app_assoc.
Qed.

Lemma process_delete_spec w v emoji_name s v' s' :
  process_delete w v emoji_name s = Ok v' s' →
  ∃ emoji_info pause,
    existing_emojis v !! emoji_name = Some emoji_info ∧
    trace s' = trace s ++
      EvDelete (emojis_url w +:+ "/" +:+ re_id emoji_info) emoji_name :: pause ∧
    ((v' = with_deleted emoji_name v ∧ pause = [EvSleep 1500]) ∨
     (v' = with_error v ∧ (pause = [] ∨ pause = [EvSleep 5000]))).
Proof.
  unfold process_delete.
  destruct (existing_emojis v !! emoji_name) as [emoji_info|]; [|intros Hrun; raised Hrun].
  intros Hrun. exists emoji_info.
  apply bind_Ok in Hrun as ([success message] & s1 & Hdel & Hrun).
  assert (trace s1 = trace s ++
            [EvDelete (emojis_url w +:+ "/" +:+ re_id emoji_info) emoji_name]) as Ht.
  { revert Hdel. unfold delete_emoji. unfold_m. intros Hdel.
    repeat case_match; by simplify_eq/=. }
  destruct success.
  - revert Hrun. unfold_m. intros [= <- <-]. exists [EvSleep 1500].
    split_and!; [done| |by left]. simpl. rewrite Ht. by rewrite <- app_assoc.
  - apply failed_spec in Hrun as [-> ->].
    exists (if str_in "429" message then [EvSleep 5000] else []).
    split_and!; [done| |right; split; [done|]; destruct (str_in "429" message); eauto].
    simpl. rewrite Ht. by rewrite <- app_assoc.
Qed.

Lemma process_local_counts w v item s v' s' :
  process_local w v item s = Ok v' s' →
  ∃ t, trace s' = trace s ++ t ∧
    (∀ n, count (is_delete n) t = 0) ∧
    (∀ n, n ≠ item.1 → count (is_upload n) t = 0 ∧ count (is_post n) t = 0) ∧
    (is_Some (existing_emojis v !! item.1) → t = [] ∧ v' = with_skipped v) ∧
    (existing_emojis v !! item.1 = None →
       count (is_upload item.1) t = 1 ∧ count (is_post item.1) t ≤ 1 ∧
       (lower (suffix (le_path item.2)) ∈ RASTER_FORMATS → count (is_post item.1) t = 1) ∧
       (lower (suffix (le_path item.2)) = ".svg" → SVG_SUPPORT w = false →
          count (is_post item.1) t = 0) ∧
       ((∃ entry, v' = with_uploaded item.1 entry v) ∨ v' = with_error v)).
Proof.
  intros Hrun. apply process_local_spec in Hrun
    as [(Hknown & -> & ->)|(Hnew & files & posts & pause & Ht & Hf & Hp & Hras & Hsvg & Hv)].
  - exists []. rewrite app_nil_r. split_and!; try done.
    intros Hnone. rewrite Hnone in Hknown. by destruct Hknown.
  - eexists. split; [exact Ht|].
    assert (∀ p, (∀ ms, p (EvSleep ms) = false) → count p pause = 0) as Hpause.
    { intros p Hps. destruct Hv as [(_ & _ & ->)|(_ & [->| ->])];
        rewrite ?count_cons, ?Hps; done. }
    split_and!.
    + intros n. rewrite count_cons, !count_app, count_delete_files, Hpause by done.
      destruct Hp as [->|[uri ->]]; done.
    + intros n Hn. rewrite !count_cons, !count_app, count_upload_files,
        count_post_files, !Hpause by done. simpl.
      rewrite bool_decide_false by done.
      destruct Hp as [->|[uri ->]]; [done|].
      rewrite !count_cons. simpl. by rewrite bool_decide_false.
    + intros Hknown. rewrite Hnew in Hknown. by destruct Hknown.
    + intros _.
      rewrite !count_cons, !count_app, count_upload_files,
        count_post_files, !Hpause by done. simpl.
      rewrite bool_decide_true by done.
      assert (count (is_upload item.1) posts = 0) as ->
        by (destruct Hp as [->|[uri ->]]; done).
      split_and!.
      * done.
      * destruct Hp as [->|[uri ->]]; [rewrite count_nil; lia|].
        rewrite count_cons. simpl. rewrite bool_decide_true by done. simpl. lia.
      * intros Hr. specialize (Hras Hr). destruct Hp as [->|[uri ->]]; [done|].
        rewrite count_cons. simpl. by rewrite bool_decide_true.
      * intros H1 H2. by rewrite (Hsvg H1 H2).
      * destruct Hv as [(entry & -> & _)|(-> & _)]; eauto.
Qed.

Lemma process_delete_counts w v emoji_name s v' s' :
  process_delete w v emoji_name s = Ok v' s' →
  ∃ t, trace s' = trace s ++ t ∧
    is_Some (existing_emojis v !! emoji_name) ∧
    (∀ n, count (is_upload n) t = 0 ∧ count (is_post n) t = 0) ∧
    (∀ n, n ≠ emoji_name → count (is_delete n) t = 0) ∧
    count (is_delete emoji_name) t = 1 ∧
    (v' = with_deleted emoji_name v ∨ v' = with_error v).
Proof.
  intros Hrun. apply process_delete_spec in Hrun as (info & pause & Hlook & Ht & Hv).
  eexists. split; [exact Ht|].
  assert (∀ p, (∀ ms, p (EvSleep ms) = false) → count p pause = 0) as Hpause.
  { intros p Hps. destruct Hv as [(_ & ->)|(_ & [->| ->])];
      rewrite ?count_cons, ?Hps; done. }
  split_and!.
  - by eexists.
  - intros n. by rewrite !count_cons, !Hpause.
  - intros n Hn. rewrite count_cons, Hpause by done. simpl.
    by rewrite bool_decide_false.
  - rewrite count_cons, Hpause by done. simpl. by rewrite bool_decide_true.
  - destruct Hv as [[-> _]|[-> _]]; eauto.
Qed.

(** ** The two passes *)

Lemma filter_known_ext (m1 m2 : gmap string RemoteEntry) (l : list string) :
  (∀ n, n ∈ l → m1 !! n = m2 !! n) →
  length (filter (λ n, is_Some (m1 !! n)) l) = length (filter (λ n, is_Some (m2 !! n)) l).
Proof.
  induction l as [|x l IH]; intros Heq; [done|].
  rewrite !filter_cons, (Heq x) by set_solver.
  destruct (decide (is_Some (m2 !! x))); simpl; rewrite IH; set_solver.
Qed.

Lemma upload_pass_spec w local_files :
  NoDup local_files.*1 →
  ∀ v s v' s',
    for_each (process_local w) local_files v s = Ok v' s' →
    ∃ t, trace s' = trace s ++ t ∧
      (∀ n, count (is_delete n) t = 0) ∧
      (∀ n, n ∉ local_files.*1 ∨ is_Some (existing_emojis v !! n) →
         count (is_upload n) t = 0 ∧ count (is_post n) t = 0 ∧
         existing_emojis v' !! n = existing_emojis v !! n) ∧
      (∀ n info, (n, info) ∈ local_files → existing_emojis v !! n = None →
         count (is_upload n) t = 1 ∧ count (is_post n) t ≤ 1 ∧
         (lower (suffix (le_path info)) ∈ RASTER_FORMATS → count (is_post n) t = 1) ∧
         (lower (suffix (le_path info)) = ".svg" → SVG_SUPPORT w = false →
            count (is_post n) t = 0) ∧
         (error_count v' = error_count v → is_Some (existing_emojis v' !! n))) ∧
      error_count v ≤ error_count v' ∧
      deleted_count v' = deleted_count v ∧
      skipped_count v'
      = skipped_count v +
        length (filter (λ n, is_Some (existing_emojis v !! n)) local_files.*1).
Proof.
  induction local_files as [|item rest IH]; intros Hnd v s v' s' Hrun.
  { injection Hrun as <- <-. exists []. rewrite app_nil_r.
    split_and!; try done. by intros n info ?%elem_of_nil. }
  change ((item :: rest).*1) with (item.1 :: rest.*1) in *.
  apply NoDup_cons in Hnd as [Hfresh Hnd].
  simpl in Hrun. apply bind_Ok in Hrun as (v1 & s1 & Hstep & Hrun).
  apply process_local_counts in Hstep as (t1 & Ht1 & Hd1 & Ho1 & Hskip & Hnew).
  destruct (IH Hnd _ _ _ _ Hrun) as (t2 & Ht2 & Hd2 & Ho2 & Hn2 & He2 & Hdel2 & Hsk2).
  exists (t1 ++ t2). split; [by rewrite Ht2, Ht1, app_assoc|].
  assert (∀ n, n ≠ item.1 → existing_emojis v1 !! n = existing_emojis v !! n) as Hframe.
  { intros n Hn. destruct (existing_emojis v !! item.1) eqn:Hlook.
    - destruct Hskip as [_ ->]; [by eexists | done].
    - destruct Hnew as (_ & _ & _ & _ & [[entry ->]| ->]); [done| |done].
      simpl. by rewrite lookup_insert_ne. }
  assert (error_count v ≤ error_count v1 ∧ deleted_count v1 = deleted_count v ∧
          (error_count v1 = error_count v → existing_emojis v !! item.1 = None →
           is_Some (existing_emojis v1 !! item.1))) as (He1 & Hdel1 & Hok1).
  { destruct (existing_emojis v !! item.1) eqn:Hlook.
    - destruct Hskip as [_ ->]; [by eexists|]. simpl. split_and!; [lia|done|done].
    - destruct Hnew as (_ & _ & _ & _ & [[entry ->]| ->]); [done| |]; simpl.
      + split_and!; [lia|done|]. intros _ _. rewrite lookup_insert_eq. by eexists.
      + split_and!; [lia|done|lia]. }
  split_and!.
  - intros n. by rewrite count_app, Hd1, Hd2.
  - intros n Hn.
    assert (n ≠ item.1 ∨ (n = item.1 ∧ is_Some (existing_emojis v !! item.1)))
      as [Hne|[-> Hknown]].
    { destruct (decide (n = item.1)) as [->|]; [|by left].
      right. split; [done|]. destruct Hn as [Hn|Hn]; [set_solver|done]. }
    + rewrite !count_app.
      destruct (Ho1 n Hne) as [-> ->].
      destruct (Ho2 n) as (-> & -> & ->).
      { rewrite Hframe by done. set_solver. }
      by rewrite Hframe.
    + destruct (Hskip Hknown) as [-> ->]. simpl.
      destruct (Ho2 item.1) as (-> & -> & ->); [by left|done].
  - intros n info [Heq|Hin]%elem_of_cons Hnone.
    + subst item. simpl in *.
      destruct (Hnew Hnone) as (Hu & Hp & Hras & Hsvg & _).
      destruct (Ho2 n) as (Hu2 & Hp2 & Hex2); [by left|].
      rewrite !count_app, Hu, Hu2, Hp2. split_and!; [lia|lia| | |].
      * intros Hr. rewrite (Hras Hr). lia.
      * intros H1 H2. rewrite (Hsvg H1 H2). lia.
      * intros Herr. rewrite Hex2. apply Hok1; [lia|done].
    + assert (n ∈ rest.*1) as Hnrest.
      { apply list_elem_of_fmap. by exists (n, info). }
      assert (n ≠ item.1) as Hne by (intros ->; done).
      destruct (Ho1 n Hne) as [Hu1 Hp1].
      destruct (Hn2 n info Hin) as (Hu & Hp & Hras & Hsvg & Hok); [by rewrite Hframe|].
      rewrite !count_app, Hu1, Hp1. split_and!; [done..|].
      intros Herr. apply Hok. lia.
  - lia.
  - lia.
  - rewrite Hsk2, filter_cons.
    rewrite (filter_known_ext (existing_emojis v1) (existing_emojis v))
      by (intros n Hn; apply Hframe; intros ->; done).
    destruct (decide (is_Some (existing_emojis v !! item.1))) as [Hknown|Hnone].
    + destruct (Hskip Hknown) as [_ ->]. simpl. lia.
    + apply eq_None_not_Some in Hnone.
      destruct Hnew as (_ & _ & _ & _ & [[entry ->]| ->]); [done|simpl; lia..].
Qed.

Lemma delete_pass_spec w names :
  NoDup names →
  ∀ v s v' s',
    for_each (process_delete w) names v s = Ok v' s' →
    ∃ t, trace s' = trace s ++ t ∧
      (∀ n, count (is_upload n) t = 0 ∧ count (is_post n) t = 0) ∧
      (∀ n, n ∈ names → count (is_delete n) t = 1) ∧
      (∀ n, n ∉ names →
         count (is_delete n) t = 0 ∧ existing_emojis v' !! n = existing_emojis v !! n) ∧
      (∀ n, n ∈ names → error_count v' = error_count v → existing_emojis v' !! n = None) ∧
      error_count v ≤ error_count v' ∧
      skipped_count v' = skipped_count v.
Proof.
  induction names as [|name rest IH]; intros Hnd v s v' s' Hrun.
  { injection Hrun as <- <-. exists []. rewrite app_nil_r.
    split_and!; try done; by intros n ?%elem_of_nil. }
  apply NoDup_cons in Hnd as [Hfresh Hnd].
  simpl in Hrun. apply bind_Ok in Hrun as (v1 & s1 & Hstep & Hrun).
  apply process_delete_counts in Hstep as (t1 & Ht1 & Hknown & Hu1 & Ho1 & Hd1 & Hv1).
  destruct (IH Hnd _ _ _ _ Hrun) as (t2 & Ht2 & Hu2 & Hin2 & Ho2 & Hgone2 & He2 & Hsk2).
  exists (t1 ++ t2). split; [by rewrite Ht2, Ht1, app_assoc|].
  assert (∀ n, n ≠ name → existing_emojis v1 !! n = existing_emojis v !! n) as Hframe.
  { intros n Hn. destruct Hv1 as [-> | ->]; [|done]. simpl. by rewrite lookup_delete_ne. }
  assert (error_count v ≤ error_count v1 ∧ skipped_count v1 = skipped_count v ∧
          (error_count v1 = error_count v → existing_emojis v1 !! name = None))
    as (He1 & Hsk1 & Hgone1).
  { destruct Hv1 as [-> | ->]; simpl.
    - split_and!; [lia|done|]. intros _. by rewrite lookup_delete_eq.
    - split_and!; [lia|done|lia]. }
  split_and!.
  - intros n. rewrite !count_app.
    destruct (Hu1 n) as [-> ->]. destruct (Hu2 n) as [-> ->]. done.
  - intros n [->|Hin]%elem_of_cons; rewrite count_app.
    + destruct (Ho2 name Hfresh) as [-> _]. lia.
    + rewrite (Hin2 n Hin), Ho1; [done|]. by intros ->.
  - intros n [Hne Hnin]%not_elem_of_cons. rewrite count_app.
    destruct (Ho2 n Hnin) as [-> ->]. rewrite Ho1 by done. by rewrite Hframe.
  - intros n [->|Hin]%elem_of_cons Herr.
    + destruct (Ho2 name Hfresh) as [_ ->]. apply Hgone1. lia.
    + apply Hgone2; [done|lia].
  - lia.
  - lia.
Qed.

Lemma set_iter_perm w (X : gset string) : set_iter w X ≡ₚ elements X.
Proof. apply merge_sort_Permutation. Qed.

Lemma elem_of_set_iter w (X : gset string) n : n ∈ set_iter w X ↔ n ∈ X.
Proof. by rewrite set_iter_perm, elem_of_elements. Qed.

Lemma set_iter_NoDup w (X : gset string) : NoDup (set_iter w X).
Proof. rewrite set_iter_perm. apply NoDup_elements. Qed.

Lemma elem_of_emojis_to_delete existing local_files n :
  n ∈ emojis_to_delete existing local_files ↔
  is_Some (existing !! n) ∧ n ∉ local_files.*1.
Proof.
  unfold emojis_to_delete.
  rewrite elem_of_difference, elem_of_dom, elem_of_list_to_set. done.
Qed.

(** A pass over names that are all remote already skips them all *)
Lemma upload_pass_all_known w local_files v s :
  (∀ n, n ∈ local_files.*1 → is_Some (existing_emojis v !! n)) →
  for_each (process_local w) local_files v s
  = Ok (Nat.iter (length local_files) with_skipped v) s.
Proof.
  revert v. induction local_files as [|item rest IH]; intros v Hall; [done|].
  simpl. unfold mbind, M_bind, process_local at 1. cbv zeta.
  destruct (Hall item.1) as [entry ->]; [set_solver|].
  simpl. rewrite IH.
  - f_equal. clear. induction (length rest) as [|k IHk]; [done|].
    simpl. by rewrite IHk.
  - intros n Hn. simpl. apply Hall. set_solver.
Qed.

Lemma iter_with_skipped k v :
  existing_emojis (Nat.iter k with_skipped v) = existing_emojis v ∧
  uploaded_count (Nat.iter k with_skipped v) = uploaded_count v ∧
  deleted_count (Nat.iter k with_skipped v) = deleted_count v ∧
  error_count (Nat.iter k with_skipped v) = error_count v ∧
  skipped_count (Nat.iter k with_skipped v) = k + skipped_count v.
Proof. induction k as [|k IH]; simpl; [done|]. destruct IH as (-> & -> & -> & -> & ->). done. Qed.

(** C1, as the code has it. After a reconciliation that completes, for a
    local inventory [local_files] (a dictionary: its names are distinct) and
    a remote inventory [existing]:
    - a name that is local and not remote had exactly one upload attempt
      ([upload_emoji] was entered once for it) and no Delete call; the attempt
      made exactly one Create (POST) call when the file has a raster
      extension, at most one when it is an SVG, and none when it is an SVG
      and cairosvg is missing;
    - a name that is remote and not local had exactly one Delete call, no
      upload attempt and no Create call;
    - a name in both had no upload attempt, no Create and no Delete call, and
      its remote entry is unchanged; [skipped_count] is the number of these
      names. *)
Theorem reconcile_attempts w local_files (existing : gmap string RemoteEntry) s v s' :
  NoDup local_files.*1 →
  reconcile w local_files existing s = Ok v s' →
  ∃ t, trace s' = trace s ++ t ∧
    (∀ name info, (name, info) ∈ local_files → existing !! name = None →
       count (is_upload name) t = 1 ∧ count (is_delete name) t = 0 ∧
       count (is_post name) t ≤ 1 ∧
       (lower (suffix (le_path info)) ∈ RASTER_FORMATS → count (is_post name) t = 1) ∧
       (lower (suffix (le_path info)) = ".svg" → SVG_SUPPORT w = false →
          count (is_post name) t = 0)) ∧
    (∀ name, is_Some (existing !! name) → name ∉ local_files.*1 →
       count (is_delete name) t = 1 ∧
       count (is_upload name) t = 0 ∧ count (is_post name) t = 0) ∧
    (∀ name, name ∈ local_files.*1 → is_Some (existing !! name) →
       count (is_upload name) t = 0 ∧ count (is_post name) t = 0 ∧
       count (is_delete name) t = 0 ∧
       existing_emojis v !! name = existing !! name) ∧
    skipped_count v
    = length (filter (λ name, is_Some (existing !! name)) local_files.*1).
Proof.
  intros Hnd Hrun. unfold reconcile in Hrun.
  apply bind_Ok in Hrun as (v1 & s1 & Hup & Hdel).
  apply (upload_pass_spec w local_files Hnd) in Hup
    as (t1 & Ht1 & Hd1 & Ho1 & Hn1 & _ & _ & Hsk1).
  apply delete_pass_spec in Hdel
    as (t2 & Ht2 & Hu2 & Hin2 & Ho2 & _ & _ & Hsk2); [|apply set_iter_NoDup].
  simpl in *.
  exists (t1 ++ t2). split; [by rewrite Ht2, Ht1, app_assoc|].
  split_and!.
  - intros name info Hin Hnone.
    destruct (Hn1 name info Hin Hnone) as (Hu & Hp & Hras & Hsvg & _).
    destruct (Hu2 name) as [Hu' Hp'].
    destruct (Ho2 name) as [Hd' _].
    { rewrite elem_of_set_iter, elem_of_emojis_to_delete. intros [_ []].
      apply list_elem_of_fmap. by exists (name, info). }
    rewrite !count_app, Hu, Hu', Hp', Hd1, Hd'. split_and!; [lia..| |].
    + intros Hr. rewrite (Hras Hr). lia.
    + intros H1 H2. rewrite (Hsvg H1 H2). lia.
  - intros name Hknown Hnot.
    destruct (Ho1 name) as (Hu & Hp & Hex); [by left|].
    destruct (Hu2 name) as [Hu' Hp'].
    rewrite !count_app, Hu, Hu', Hp, Hp', Hd1, Hin2; [done|].
    rewrite elem_of_set_iter, elem_of_emojis_to_delete. by rewrite Hex.
  - intros name Hin Hknown.
    destruct (Ho1 name) as (Hu & Hp & Hex); [by right|].
    destruct (Hu2 name) as [Hu' Hp'].
    destruct (Ho2 name) as [Hd' Hex'].
    { rewrite elem_of_set_iter, elem_of_emojis_to_delete. by intros [_ []]. }
    rewrite !count_app, Hu, Hu', Hp, Hp', Hd1, Hd', Hex', Hex. done.
  - by rewrite Hsk2, Hsk1.
Qed.

Lemma reconcile_attempts_witness :
  NoDup (find_all_emoji_files two_files "emojis").*1 ∧
  reconcile two_files (find_all_emoji_files two_files "emojis") old_inventory boot
  = Ok two_files_vars (after boot two_files_trace) ∧
  ∃ t, trace (after boot two_files_trace) = trace boot ++ t ∧
    (∀ name info, (name, info) ∈ find_all_emoji_files two_files "emojis" →
       old_inventory !! name = None →
       count (is_upload name) t = 1 ∧ count (is_delete name) t = 0 ∧
       count (is_post name) t ≤ 1 ∧
       (lower (suffix (le_path info)) ∈ RASTER_FORMATS → count (is_post name) t = 1) ∧
       (lower (suffix (le_path info)) = ".svg" → SVG_SUPPORT two_files = false →
          count (is_post name) t = 0)) ∧
    (∀ name, is_Some (old_inventory !! name) →
       name ∉ (find_all_emoji_files two_files "emojis").*1 →
       count (is_delete name) t = 1 ∧
       count (is_upload name) t = 0 ∧ count (is_post name) t = 0) ∧
    (∀ name, name ∈ (find_all_emoji_files two_files "emojis").*1 →
       is_Some (old_inventory !! name) →
       count (is_upload name) t = 0 ∧ count (is_post name) t = 0 ∧
       count (is_delete name) t = 0 ∧
       existing_emojis two_files_vars !! name = old_inventory !! name) ∧
    skipped_count two_files_vars
    = length (filter (λ name, is_Some (old_inventory !! name))
                (find_all_emoji_files two_files "emojis").*1).
Proof.
  assert (NoDup (find_all_emoji_files two_files "emojis").*1) as Hnd
    by apply find_all_emoji_files_spec.
  assert (reconcile two_files (find_all_emoji_files two_files "emojis") old_inventory boot
          = Ok two_files_vars (after boot two_files_trace)) as Hrun by reflexivity.
  split; [exact Hnd|]. split; [exact Hrun|].
  exact (reconcile_attempts two_files (find_all_emoji_files two_files "emojis")
           old_inventory boot two_files_vars (after boot two_files_trace) Hnd Hrun).
Defined.

(** C1 as the specification words it fails: "icon" is local and not remote,
    the reconciliation completes, and no Create (POST) call was made for it,
    because cairosvg is missing. *)
Lemma create_call_not_made :
  find_all_emoji_files svg_only "emojis"
  = [("icon", {| le_path := "emojis/icon.svg"; le_relative_path := "icon.svg" |})] ∧
  reconcile svg_only (find_all_emoji_files svg_only "emojis") ∅ boot
  = Ok svg_only_vars (after boot [EvUpload "emojis/icon.svg" "icon"]) ∧
  count (is_post "icon") [EvUpload "emojis/icon.svg" "icon"] = 0 ∧
  count any_post [EvUpload "emojis/icon.svg" "icon"] = 0.
Proof. split_and!; reflexivity. Qed.

(** C2, as the code has it. If a reconciliation completes with the error
    counter at zero (every upload, its preparation and its Create call, and
    every Delete call succeeded), then a second reconciliation of the same
    local inventory against the inventory the first one left, whatever the
    outside then answers, completes without any effect: nothing is uploaded
    or deleted, every local name is skipped and the set to delete is
    empty. *)
Theorem second_run_idle w w2 local_files (existing : gmap string RemoteEntry) s v s' s2 :
  NoDup local_files.*1 →
  reconcile w local_files existing s = Ok v s' →
  error_count v = 0 →
  emojis_to_delete (existing_emojis v) local_files = ∅ ∧
  ∃ v2,
    reconcile w2 local_files (existing_emojis v) s2 = Ok v2 s2 ∧
    uploaded_count v2 = 0 ∧ deleted_count v2 = 0 ∧ error_count v2 = 0 ∧
    skipped_count v2 = length local_files ∧
    existing_emojis v2 = existing_emojis v.
Proof.
  intros Hnd Hrun Herr. unfold reconcile in Hrun.
  apply bind_Ok in Hrun as (v1 & s1 & Hup & Hdel).
  apply (upload_pass_spec w local_files Hnd) in Hup
    as (t1 & _ & _ & Ho1 & Hn1 & He1 & _ & _).
  apply delete_pass_spec in Hdel
    as (t2 & _ & _ & _ & Ho2 & Hgone2 & He2 & _); [|apply set_iter_NoDup].
  simpl in *.
  assert (error_count v1 = 0 ∧ error_count v = error_count v1) as [Herr1 Heq] by lia.
  assert (∀ n, n ∈ local_files.*1 → is_Some (existing_emojis v !! n)) as Hlocal.
  { intros n Hn.
    destruct (Ho2 n) as [_ ->].
    { rewrite elem_of_set_iter, elem_of_emojis_to_delete. by intros [_ []]. }
    apply list_elem_of_fmap in Hn as ([n' info] & -> & Hin). simpl.
    destruct (existing !! n') eqn:Hlook.
    - destruct (Ho1 n') as (_ & _ & ->); [right; by eexists | by eexists].
    - destruct (Hn1 n' info Hin Hlook) as (_ & _ & _ & _ & Hok). by apply Hok. }
  assert (emojis_to_delete (existing_emojis v) local_files = ∅) as Hempty.
  { apply set_eq. intros n. rewrite elem_of_emojis_to_delete.
    split; [|by intros ?%not_elem_of_empty]. intros [Hknown Hnot].
    destruct (decide (n ∈ set_iter w (emojis_to_delete (existing_emojis v1) local_files)))
      as [Hin|Hnin].
    - rewrite (Hgone2 n Hin Heq) in Hknown. by destruct Hknown.
    - destruct (Ho2 n Hnin) as [_ Hsame]. rewrite Hsame in Hknown.
      destruct Hnin. rewrite elem_of_set_iter, elem_of_emojis_to_delete. done. }
  split; [done|].
  exists (Nat.iter (length local_files) with_skipped (initial_vars (existing_emojis v))).
  destruct (iter_with_skipped (length local_files) (initial_vars (existing_emojis v)))
    as (Hex & Hu & Hd & He & Hs).
  split_and!; [|done..|simpl in Hs; lia|done].
  unfold reconcile, mbind, M_bind.
  rewrite upload_pass_all_known by done.
  rewrite Hex. simpl. rewrite Hempty. unfold set_iter. by rewrite elements_empty.
Qed.

Lemma second_run_idle_witness :
  NoDup (find_all_emoji_files two_files "emojis").*1 ∧
  reconcile two_files (find_all_emoji_files two_files "emojis") old_inventory boot
  = Ok two_files_vars (after boot two_files_trace) ∧
  error_count two_files_vars = 0 ∧
  emojis_to_delete (existing_emojis two_files_vars)
    (find_all_emoji_files two_files "emojis") = ∅ ∧
  ∃ v2,
    reconcile calm (find_all_emoji_files two_files "emojis")
      (existing_emojis two_files_vars) (after boot two_files_trace)
    = Ok v2 (after boot two_files_trace) ∧
    uploaded_count v2 = 0 ∧ deleted_count v2 = 0 ∧ error_count v2 = 0 ∧
    skipped_count v2 = length (find_all_emoji_files two_files "emojis") ∧
    existing_emojis v2 = existing_emojis two_files_vars.
Proof.
  assert (NoDup (find_all_emoji_files two_files "emojis").*1) as Hnd
    by apply find_all_emoji_files_spec.
  assert (reconcile two_files (find_all_emoji_files two_files "emojis") old_inventory boot
          = Ok two_files_vars (after boot two_files_trace)) as Hrun by reflexivity.
  split; [exact Hnd|]. split; [exact Hrun|]. split; [reflexivity|].
  exact (second_run_idle two_files calm (find_all_emoji_files two_files "emojis")
           old_inventory boot two_files_vars (after boot two_files_trace)
           (after boot two_files_trace) Hnd Hrun eq_refl).
Defined.

(** C2 as the specification words it fails. The first run makes no Create and
    no Delete call, so none of them failed, and it completes; the second run
    over the same folder and the inventory it left does not skip "icon": it
    enters [upload_emoji] for it again. *)
Lemma second_run_not_idle :
  reconcile svg_only (find_all_emoji_files svg_only "emojis") ∅ boot
  = Ok svg_only_vars (after boot [EvUpload "emojis/icon.svg" "icon"]) ∧
  count any_post [EvUpload "emojis/icon.svg" "icon"] = 0 ∧
  count any_delete [EvUpload "emojis/icon.svg" "icon"] = 0 ∧
  reconcile svg_only (find_all_emoji_files svg_only "emojis")
    (existing_emojis svg_only_vars) (after boot [EvUpload "emojis/icon.svg" "icon"])
  = Ok svg_only_vars
      (after boot [EvUpload "emojis/icon.svg" "icon"; EvUpload "emojis/icon.svg" "icon"]) ∧
  skipped_count svg_only_vars = 0 ∧
  length (find_all_emoji_files svg_only "emojis") = 1.
Proof. split_and!; reflexivity. Qed.

(** C9. When a Create attempt or a Delete call fails with a diagnostic that
    contains "429", the turn of the loop adds one to [error_count], leaves
    the inventory and the other counters as they are, pauses once for 5000
    milliseconds, and the loop goes on with the remaining items; the failed
    name, which occurs once in the dictionary (or set) the loop runs over,
    gets no further upload attempt, Create call or Delete call from these
    items, and the inventory still has it as it was. *)
Theorem rate_limit_pause w v s :
  (∀ item rest message emoji_data s1,
     NoDup (item :: rest).*1 →
     existing_emojis v !! item.1 = None →
     upload_emoji w (le_path item.2) item.1 s = Ok (false, message, emoji_data) s1 →
     str_in "429" message = true →
     error_count (with_error v) = S (error_count v) ∧
     for_each (process_local w) (item :: rest) v s
     = for_each (process_local w) rest (with_error v) (after s1 [EvSleep 5000]) ∧
     ∀ v' s',
       for_each (process_local w) rest (with_error v) (after s1 [EvSleep 5000]) = Ok v' s' →
       ∃ t, trace s' = trace s1 ++ EvSleep 5000 :: t ∧
            count (is_upload item.1) t = 0 ∧ count (is_post item.1) t = 0 ∧
            existing_emojis v' !! item.1 = None) ∧
  (∀ emoji_name rest emoji_info message s1,
     NoDup (emoji_name :: rest) →
     existing_emojis v !! emoji_name = Some emoji_info →
     delete_emoji w (re_id emoji_info) emoji_name s = Ok (false, message) s1 →
     str_in "429" message = true →
     error_count (with_error v) = S (error_count v) ∧
     for_each (process_delete w) (emoji_name :: rest) v s
     = for_each (process_delete w) rest (with_error v) (after s1 [EvSleep 5000]) ∧
     ∀ v' s',
       for_each (process_delete w) rest (with_error v) (after s1 [EvSleep 5000]) = Ok v' s' →
       ∃ t, trace s' = trace s1 ++ EvSleep 5000 :: t ∧
            count (is_delete emoji_name) t = 0 ∧
            existing_emojis v' !! emoji_name = Some emoji_info).
Proof.
  split.
  - intros item rest message emoji_data s1 Hnd Hnew Hup H429.
    change ((item :: rest).*1) with (item.1 :: rest.*1) in Hnd.
    apply NoDup_cons in Hnd as [Hfresh Hnd].
    split_and!; [done| |].
    + simpl. unfold mbind at 1, M_bind at 1, process_local at 1. cbv zeta.
      rewrite Hnew. unfold mbind at 1, M_bind at 1. rewrite Hup.
      unfold failed. rewrite H429. reflexivity.
    + intros v' s' Hrest.
      apply (upload_pass_spec w rest Hnd) in Hrest as (t & Ht & _ & Ho & _).
      destruct (Ho item.1) as (Hu & Hp & Hex); [by left|].
      exists t. split_and!; [|done..|by rewrite Hex].
      rewrite Ht. simpl. by rewrite <- app_assoc.
  - intros emoji_name rest emoji_info message s1 Hnd Hknown Hdel H429.
    apply NoDup_cons in Hnd as [Hfresh Hnd].
    split_and!; [done| |].
    + simpl. unfold mbind at 1, M_bind at 1, process_delete at 1.
      rewrite Hknown. unfold mbind at 1, M_bind at 1. rewrite Hdel.
      unfold failed. rewrite H429. reflexivity.
    + intros v' s' Hrest.
      apply (delete_pass_spec w rest Hnd) in Hrest as (t & Ht & _ & _ & Ho & _).
      destruct (Ho emoji_name Hfresh) as (Hd & Hex).
      exists t. split_and!; [|done|by rewrite Hex].
      rewrite Ht. simpl. by rewrite <- app_assoc.
Qed.

Lemma rate_limit_pause_witness :
  upload_emoji busy "emojis/smile.png" "smile" boot
  = Ok (false, "429 - rate limited", None)
       (after boot [EvUpload "emojis/smile.png" "smile";
                    EvRead (LocalFile "emojis/smile.png");
                    EvPost (emojis_url busy) "smile" "data:image/png;base64,TWFu"]) ∧
  reconcile busy (find_all_emoji_files busy "emojis") old_inventory boot
  = Ok {| existing_emojis := old_inventory; uploaded_count := 0; updated_count := 0;
          deleted_count := 0; skipped_count := 0; error_count := 2 |}
       (after boot [EvUpload "emojis/smile.png" "smile";
                    EvRead (LocalFile "emojis/smile.png");
                    EvPost (emojis_url busy) "smile" "data:image/png;base64,TWFu";
                    EvSleep 5000;
                    EvDelete (emojis_url busy +:+ "/123") "old";
                    EvSleep 5000]) ∧
  for_each (process_local busy)
    [("smile", {| le_path := "emojis/smile.png"; le_relative_path := "smile.png" |})]
    (initial_vars old_inventory) boot
  = for_each (process_local busy) [] (with_error (initial_vars old_inventory))
      (after
         (after boot [EvUpload "emojis/smile.png" "smile";
                      EvRead (LocalFile "emojis/smile.png");
                      EvPost (emojis_url busy) "smile" "data:image/png;base64,TWFu"])
         [EvSleep 5000]).
Proof.
  split; [reflexivity|]. split; [reflexivity|].
  apply (proj1 (rate_limit_pause busy (initial_vars old_inventory) boot)
           ("smile", {| le_path := "emojis/smile.png"; le_relative_path := "smile.png" |})
           [] "429 - rate limited" None
           (after boot [EvUpload "emojis/smile.png" "smile";
                        EvRead (LocalFile "emojis/smile.png");
                        EvPost (emojis_url busy) "smile" "data:image/png;base64,TWFu"])).
  - apply NoDup_singleton.
  - reflexivity.
  - reflexivity.
  - reflexivity.
Defined.

(** ** The listing *)

Lemma listed_snoc entries name entry :
  listed (entries ++ [(name, entry)]) = <[name := entry]> (listed entries).
Proof. unfold listed. by rewrite reverse_app. Qed.




(** ** How the process ends *)

Lemma no_exit_bind {A B} (m : M A) (f : A → M B) :
  no_exit m → (∀ a, no_exit (f a)) → no_exit (m ≫= f).
Proof.
  intros Hm Hf s e s' Hrun. unfold mbind, M_bind in Hrun.
  destruct (m s) as [a s1|e1 s1] eqn:Hms.
  - by apply (Hf a s1 e s').
  - injection Hrun as <- <-. by apply (Hm s e1 s1).
Qed.

Lemma no_exit_ret {A} (a : A) : no_exit (mret a).
Proof. by intros s e s' [=]. Qed.

Lemma no_exit_for_each {A S} (body : S → A → M S) l :
  (∀ v x, no_exit (body v x)) → ∀ v, no_exit (for_each body l v).
Proof.
  intros Hbody. induction l as [|x l IH]; intros v; simpl.
  - apply no_exit_ret.
  - apply no_exit_bind; [apply Hbody | apply IH].
Qed.

Lemma no_exit_failed message v : no_exit (failed message v).
Proof. unfold failed. no_exit_cases. Qed.

Lemma no_exit_upload_prepared w file_path file_ext temp_png_path emoji_name :
  no_exit (upload_prepared w file_path file_ext temp_png_path emoji_name).
Proof. unfold upload_prepared, read_file. no_exit_cases. Qed.

Lemma no_exit_convert_svg_to_png w svg_path : no_exit (convert_svg_to_png w svg_path).
Proof. unfold convert_svg_to_png. no_exit_cases. Qed.

Lemma no_exit_upload_emoji w file_path emoji_name :
  no_exit (upload_emoji w file_path emoji_name).
Proof.
  unfold upload_emoji. apply no_exit_bind; [no_exit_cases|]. intros _. cbv zeta.
  destruct (bool_decide (lower (suffix file_path) = ".svg"));
    [|apply no_exit_upload_prepared].
  destruct (negb (SVG_SUPPORT w)); [apply no_exit_ret|].
  apply no_exit_bind; [apply no_exit_convert_svg_to_png|].
  intros [n|]; [apply no_exit_upload_prepared | apply no_exit_ret].
Qed.

Lemma no_exit_delete_emoji w emoji_id emoji_name :
  no_exit (delete_emoji w emoji_id emoji_name).
Proof. unfold delete_emoji. no_exit_cases. Qed.

Lemma no_exit_process_local w v item : no_exit (process_local w v item).
Proof.
  unfold process_local. cbv zeta.
  destruct (existing_emojis v !! item.1); [apply no_exit_ret|].
  apply no_exit_bind; [apply no_exit_upload_emoji|].
  intros [[[] message] emoji_data]; [|apply no_exit_failed].
  destruct emoji_data as [emoji_data|]; [|no_exit_cases].
  destruct (json_id emoji_data) as [i|]; no_exit_cases.
Qed.

Lemma no_exit_process_delete w v emoji_name : no_exit (process_delete w v emoji_name).
Proof.
  unfold process_delete.
  destruct (existing_emojis v !! emoji_name); [|no_exit_cases].
  apply no_exit_bind; [apply no_exit_delete_emoji|].
  intros [[] message]; [no_exit_cases | apply no_exit_failed].
Qed.

Lemma no_exit_get_existing_emojis w : no_exit (get_existing_emojis w).
Proof.
  unfold get_existing_emojis.
  apply no_exit_bind; [no_exit_cases|]. intros _.
  apply no_exit_bind; [no_exit_cases|]. intros h.
  destruct (requests_get w h) as [[response json]|]; [|no_exit_cases].
  destruct (bool_decide (status_code response = 200%Z)); [|apply no_exit_ret].
  destruct json as [items|]; [|no_exit_cases].
  apply no_exit_for_each. intros emojis emoji. no_exit_cases.
Qed.

Lemma no_exit_write_emoji_codes w emojis_dict local_files :
  no_exit (write_emoji_codes w emojis_dict local_files).
Proof. unfold write_emoji_codes. no_exit_cases. Qed.

Lemma no_exit_run w : no_exit (run w).
Proof.
  unfold run, reconcile.
  apply no_exit_bind; [destruct (folder_tree w); no_exit_cases|]. intros _.
  apply no_exit_bind; [apply no_exit_get_existing_emojis|]. intros existing.
  apply no_exit_bind.
  - apply no_exit_bind; [apply no_exit_for_each, no_exit_process_local|].
    intros v. apply no_exit_for_each, no_exit_process_delete.
  - intros v. apply no_exit_bind; [apply no_exit_write_emoji_codes|].
    intros _. apply no_exit_ret.
Qed.

(** C6, as the code has it. With a credential absent (unset or empty: the
    test is [not BOT_TOKEN or not APPLICATION_ID]) [main] exits at once with
    code 1: the trace is empty, nothing was requested.  The exit status of
    the process is 1 exactly when a credential is absent, or the run reaches
    its end with a nonzero [error_count], or an exception that the script
    does not handle cuts the run short; it is 0 exactly when the credentials
    are there and the run reaches its end with [error_count] zero. *)
Theorem exit_code w :
  (credentials_absent w = true → main w boot = Raise (SystemExit 1) boot) ∧
  (exit_status (outcome (main w boot)) = 1%Z ↔
   credentials_absent w = true ∨
   (∃ v s, run w boot = Ok v s ∧ 0 < error_count v) ∨
   (credentials_absent w = false ∧ ∃ e s, run w boot = Raise e s)) ∧
  (exit_status (outcome (main w boot)) = 0%Z ↔
   credentials_absent w = false ∧
   ∃ v s, run w boot = Ok v s ∧ error_count v = 0) ∧
  (∀ e, outcome (main w boot) = Traceback e ↔
   credentials_absent w = false ∧ ∃ s, run w boot = Raise e s).
Proof.
  unfold main. fold (credentials_absent w).
  destruct (credentials_absent w) eqn:Habs.
  { split_and!; try done.
    - split; [by left | done].
    - split; [done | by intros [? _]].
    - intros e. split; [done | by intros [? _]]. }
  unfold mbind, M_bind.
  destruct (run w boot) as [v s|e s] eqn:Hrun.
  - destruct (decide (0 < error_count v)) as [Hpos|Hzero].
    + rewrite bool_decide_true by done. simpl. split_and!; [done| | |].
      * split; [right; left; eauto | done].
      * split; [done|]. intros [_ (v' & s' & [= <- <-] & Hz)]. lia.
      * intros e. split; [done | by intros [_ [? ?]]].
    + rewrite bool_decide_false by done. simpl. split_and!; [done| | |].
      * split; [done|].
        intros [?|[(v' & s' & [= <- <-] & Hp)|[_ (e & s' & [=])]]]; done.
      * split; [|done]. intros _. split; [done|]. exists v, s. split; [done|lia].
      * intros e. split; [done | by intros [_ [? ?]]].
  - pose proof (no_exit_run w boot e s Hrun) as Hne.
    assert (outcome (Raise e s : Res ()) = Traceback e) as Hout.
    { destruct e; try done. by destruct (Hne code). }
    rewrite Hout. simpl. split_and!; [done| | |].
    + split; [|done]. intros _. right. right. eauto.
    + split; [done|]. intros [_ (v' & s' & [=] & _)].
    + intros e'. split.
      * intros [= <-]. eauto.
      * intros [_ [s' [= <- <-]]]. done.
Qed.

(** C6 as the specification words it fails: the credentials are there, the
    first request raises, no error was ever counted, and the status of the
    process is 1. *)
Lemma crash_exits_with_one :
  credentials_absent offline = false ∧
  main offline boot
  = Raise RequestException (after boot [EvGet (emojis_url offline)]) ∧
  exit_status (outcome (main offline boot)) = 1%Z.
Proof. split_and!; reflexivity. Qed.

(** ** Scratch files *)

Lemma fresh_scratch_restored (sc : gmap nat (list N)) png :
  delete (fresh (dom sc)) (<[fresh (dom sc) := png]> (<[fresh (dom sc) := []]> sc)) = sc.
Proof.
  rewrite insert_insert_eq, delete_insert_eq. apply delete_id.
  apply not_elem_of_dom, is_fresh.
Qed.

(** ** Completion *)

Lemma bind_returns {A B} (m : M A) (f : A → M B) s a s1 r :
  m s = Ok a s1 → f a s1 = r → (m ≫= f) s = r.
Proof. intros Hm Hf. unfold mbind, M_bind. by rewrite Hm. Qed.

Lemma read_file_returns w file_path s :
  dependable w →
  (∀ n, file_path = ScratchFile n → is_Some (scratch s !! n)) →
  ∃ image_data s', read_file w file_path s = Ok image_data s'.
Proof.
  intros (Hread & _) Hscratch. unfold read_file.
  destruct file_path as [p|n]; unfold_m; simpl.
  - destruct (Hread (trace s ++ [EvRead (LocalFile p)])) as [data ->]. eauto.
  - destruct (Hscratch n eq_refl) as [data ->]. eauto.
Qed.

Lemma cleanup_returns w (temp_png_path : option nat) s :
  ∃ s', match temp_png_path with
        | Some n => try_except (unlink w n) (λ _, mret ())
        | None => mret ()
        end s = Ok () s'.
Proof.
  destruct temp_png_path as [n|]; unfold_m; [|eauto].
  destruct (scratch s !! n); [|eauto].
  destruct (unlink_fails w _); eauto.
Qed.

Lemma upload_prepared_returns w file_path file_ext temp_png_path emoji_name s :
  dependable w →
  (∀ n, file_path = ScratchFile n → is_Some (scratch s !! n)) →
  ∃ r s', upload_prepared w file_path file_ext temp_png_path emoji_name s = Ok r s' ∧
    (r.1.1 = true → ∃ emoji_data i, r.2 = Some emoji_data ∧ json_id emoji_data = Some i).
Proof.
  intros Hw Hscratch.
  destruct (read_file_returns w file_path s Hw Hscratch) as (image_data & s1 & Hread).
  destruct (cleanup_returns w temp_png_path s1) as (s2 & Hclean).
  unfold upload_prepared.
  setoid_rewrite (bind_returns _ _ _ _ _ _ Hread eq_refl).
  setoid_rewrite (bind_returns _ _ _ _ _ _ Hclean eq_refl).
  cbv zeta.
  destruct (if bool_decide (file_ext = ".png") then Some "image/png"
            else if bool_decide (file_ext ∈ [".jpg"; ".jpeg"]) then Some "image/jpeg"
            else if bool_decide (file_ext = ".gif") then Some "image/gif"
            else if bool_decide (file_ext = ".webp") then Some "image/webp"
            else None) as [image_type|].
  - unfold_m. simpl.
    destruct Hw as (_ & Hpost & _).
    destruct (Hpost (trace s2 ++ [EvPost (emojis_url w) emoji_name
                ("data:" +:+ image_type +:+ ";base64," +:+ b64encode image_data)]))
      as (response & json & -> & Hjson).
    destruct (decide (status_code response = 201%Z)) as [H201|Hnot].
    + rewrite bool_decide_true by done.
      destruct (Hjson H201) as (emoji_data & i & -> & Hid).
      eexists _, _. split; [reflexivity|]. simpl. eauto.
    + rewrite bool_decide_false by done.
      eexists _, _. split; [reflexivity|]. done.
  - eexists _, _. split; [reflexivity|]. done.
Qed.

Lemma convert_svg_to_png_returns w svg_path s :
  ∃ temp_png_path s',
    convert_svg_to_png w svg_path s = Ok temp_png_path s' ∧
    ∀ n, temp_png_path = Some n → is_Some (scratch s' !! n).
Proof.
  unfold convert_svg_to_png. unfold_m.
  destruct (negb (SVG_SUPPORT w)); [by eexists None, _|].
  destruct (tempfile_fails w (trace s)); [by eexists None, _|]. simpl.
  destruct (svg2png w _) as [png|]; [|by eexists None, _].
  eexists (Some _), _. split; [reflexivity|].
  intros n [= <-]. simpl. rewrite lookup_insert_eq. by eexists.
Qed.

Lemma upload_emoji_returns w file_path emoji_name s :
  dependable w →
  ∃ r s', upload_emoji w file_path emoji_name s = Ok r s' ∧
    (r.1.1 = true → ∃ emoji_data i, r.2 = Some emoji_data ∧ json_id emoji_data = Some i).
Proof.
  intros Hw. unfold upload_emoji.
  assert (emit (EvUpload file_path emoji_name) s
          = Ok () (after s [EvUpload file_path emoji_name])) as Hemit by reflexivity.
  setoid_rewrite (bind_returns _ _ _ _ _ _ Hemit eq_refl). cbv zeta.
  destruct (bool_decide (lower (suffix file_path) = ".svg")).
  - destruct (negb (SVG_SUPPORT w)); [by eexists _, _|].
    destruct (convert_svg_to_png_returns w file_path
                (after s [EvUpload file_path emoji_name]))
      as (temp & s1 & Hconv & Htemp).
    setoid_rewrite (bind_returns _ _ _ _ _ _ Hconv eq_refl).
    destruct temp as [n|]; [|by eexists _, _].
    apply upload_prepared_returns; [done|].
    intros n' [= <-]. by apply Htemp.
  - apply upload_prepared_returns; [done | by intros n [=]].
Qed.

Lemma process_local_returns w v item s :
  dependable w → ∃ v' s', process_local w v item s = Ok v' s'.
Proof.
  intros Hw. unfold process_local. cbv zeta.
  destruct (existing_emojis v !! item.1); [by eexists _, _|].
  destruct (upload_emoji_returns w (le_path item.2) item.1 s Hw)
    as ([[success message] emoji_data] & s1 & Hup & Hdata).
  setoid_rewrite (bind_returns _ _ _ _ _ _ Hup eq_refl).
  destruct success.
  - destruct (Hdata eq_refl) as (d & i & Hd & Hid). simpl in Hd. subst emoji_data.
    rewrite Hid. by eexists _, _.
  - unfold failed. unfold_m. destruct (str_in "429" message); by eexists _, _.
Qed.

Lemma process_delete_returns w v emoji_name s :
  dependable w →
  is_Some (existing_emojis v !! emoji_name) →
  ∃ v' s', process_delete w v emoji_name s = Ok v' s'.
Proof.
  intros (_ & _ & Hdelete) [emoji_info Hlook].
  unfold process_delete. rewrite Hlook. unfold delete_emoji. unfold_m. simpl.
  destruct (Hdelete (trace s ++
              [EvDelete (emojis_url w +:+ "/" +:+ re_id emoji_info) emoji_name]))
    as [response ->].
  destruct (bool_decide (status_code response = 204%Z)); simpl; [by eexists _, _|].
  unfold failed. unfold_m. destruct (str_in "429" (diagnostic response)); by eexists _, _.
Qed.

(** The two passes run to their end whenever the files can be read and the
    server answers every Create and Delete call, whatever the answers are. *)
Theorem reconcile_completes w local_files (existing : gmap string RemoteEntry) s :
  dependable w →
  ∃ v s', reconcile w local_files existing s = Ok v s'.
Proof.
  intros Hw. unfold reconcile.
  assert (∀ l v0 s0, ∃ v1 s1, for_each (process_local w) l v0 s0 = Ok v1 s1) as Hup.
  { induction l as [|item l IH]; intros v0 s0; [by eexists _, _|]. simpl.
    destruct (process_local_returns w v0 item s0 Hw) as (v1 & s1 & Hstep).
    setoid_rewrite (bind_returns _ _ _ _ _ _ Hstep eq_refl). apply IH. }
  destruct (Hup local_files (initial_vars existing) s) as (v1 & s1 & Hpass).
  setoid_rewrite (bind_returns _ _ _ _ _ _ Hpass eq_refl).
  generalize (set_iter_NoDup w (emojis_to_delete (existing_emojis v1) local_files)).
  assert (∀ n, n ∈ set_iter w (emojis_to_delete (existing_emojis v1) local_files) →
               is_Some (existing_emojis v1 !! n)) as Hknown.
  { intros n. rewrite elem_of_set_iter, elem_of_emojis_to_delete. by intros [? _]. }
  revert Hknown.
  generalize (set_iter w (emojis_to_delete (existing_emojis v1) local_files)).
  clear Hpass. intros names. revert v1 s1.
  induction names as [|name names IH]; intros v1 s1 Hknown Hnd; [by eexists _, _|].
  apply NoDup_cons in Hnd as [Hfresh Hnd]. simpl.
  destruct (process_delete_returns w v1 name s1 Hw) as (v2 & s2 & Hstep);
    [apply Hknown; set_solver|].
  setoid_rewrite (bind_returns _ _ _ _ _ _ Hstep eq_refl).
  apply (IH v2 s2); [|done].
  intros n Hn.
  apply process_delete_counts in Hstep as (_ & _ & _ & _ & _ & _ & [-> | ->]); simpl.
  - rewrite lookup_delete_ne by (intros ->; done). apply Hknown. set_solver.
  - apply Hknown. set_solver.
Qed.

Lemma reconcile_completes_witness :
  dependable two_files ∧
  ∃ v s', reconcile two_files (find_all_emoji_files two_files "emojis") old_inventory boot
          = Ok v s'.
Proof.
  assert (dependable two_files) as Hw.
  { split_and!; intros h; simpl; eauto 10. }
  split; [exact Hw|].
  exact (reconcile_completes two_files (find_all_emoji_files two_files "emojis")
           old_inventory boot Hw).
Defined.

(** ** The scanner *)

Lemma find_all_emoji_files_fold w emoji_folder :
  find_all_emoji_files w emoji_folder
  = foldl (scan_step emoji_folder) [] (default [] (folder_tree w)).
Proof. reflexivity. Qed.

Lemma scan_step_cases emoji_folder emoji_files entry :
  (scanned emoji_folder entry ∧
   scan_step emoji_folder emoji_files entry
   = dict_set (local_item emoji_folder entry).1 (local_item emoji_folder entry).2 emoji_files) ∨
  (¬ scanned emoji_folder entry ∧ scan_step emoji_folder emoji_files entry = emoji_files).
Proof.
  unfold scan_step, scanned. cbv zeta. destruct (de_is_file entry).
  - destruct (decide (lower (suffix (path_join emoji_folder (de_rel entry)))
                      ∈ SUPPORTED_FORMATS)) as [Hin|Hout].
    + rewrite bool_decide_true by done. by left.
    + rewrite bool_decide_false by done. right. split; [by intros [_ ?]|done].
  - right. split; [by intros [? _]|done].
Qed.

Lemma dict_set_same {V} key (value : V) d : (key, value) ∈ dict_set key value d.
Proof.
  induction d as [|[k x] d IH]; simpl; [apply list_elem_of_here|].
  destruct (decide (k = key)) as [->|Hk].
  - rewrite bool_decide_true by done. apply list_elem_of_here.
  - rewrite bool_decide_false by done. by apply list_elem_of_further.
Qed.

Lemma dict_set_other {V} key (value : V) d item :
  item ∈ d → item.1 ≠ key → item ∈ dict_set key value d.
Proof.
  induction d as [|[k x] d IH]; simpl; [by intros ?%elem_of_nil|].
  intros [->|Hin]%elem_of_cons Hne; simpl in *.
  - rewrite bool_decide_false by done. apply list_elem_of_here.
  - destruct (decide (k = key)) as [->|Hk].
    + rewrite bool_decide_true by done. by apply list_elem_of_further.
    + rewrite bool_decide_false by done. apply list_elem_of_further. by apply IH.
Qed.

Lemma scan_fold_sound emoji_folder tree :
  ∀ acc item,
    item ∈ foldl (scan_step emoji_folder) acc tree →
    item ∈ acc ∨
    ∃ entry, entry ∈ tree ∧ scanned emoji_folder entry ∧ item = local_item emoji_folder entry.
Proof.
  induction tree as [|entry tree IH]; intros acc item Hin; simpl in Hin; [by left|].
  apply IH in Hin as [Hin|(e & He & Hs & ->)].
  - destruct (scan_step_cases emoji_folder acc entry) as [[Hs Heq]|[_ Heq]];
      rewrite Heq in Hin; [|by left].
    apply elem_of_dict_set in Hin as [->|Hin]; [|by left].
    right. exists entry. split_and!; [apply list_elem_of_here | done | done].
  - right. exists e. split_and!; [by apply list_elem_of_further | done | done].
Qed.

(** What the scanner returns comes from the tree: every item of
    [find_all_emoji_files] is made of an entry of the folder's tree that is a
    file with an allowed extension (compared in lower case); its name is the
    stem of the file name, its path the folder joined with the relative
    path.  No two items have the same name, and a folder that does not exist
    yet gives no item. *)
Theorem scan_sound w emoji_folder :
  NoDup (find_all_emoji_files w emoji_folder).*1 ∧
  (∀ item, item ∈ find_all_emoji_files w emoji_folder →
     ∃ entry, entry ∈ default [] (folder_tree w) ∧
              scanned emoji_folder entry ∧ item = local_item emoji_folder entry) ∧
  (folder_tree w = None → find_all_emoji_files w emoji_folder = []).
Proof.
  split_and!.
  - apply find_all_emoji_files_spec.
  - intros item Hin. rewrite find_all_emoji_files_fold in Hin.
    apply scan_fold_sound in Hin as [Hin|?]; [by apply elem_of_nil in Hin | done].
  - intros Hnone. by rewrite find_all_emoji_files_fold, Hnone.
Qed.

Lemma scan_fold_keeps emoji_folder later :
  ∀ acc item,
    item ∈ acc →
    (∀ e, e ∈ later → scanned emoji_folder e → (local_item emoji_folder e).1 ≠ item.1) →
    item ∈ foldl (scan_step emoji_folder) acc later.
Proof.
  induction later as [|entry later IH]; intros acc item Hin Hother; simpl; [done|].
  apply IH.
  - destruct (scan_step_cases emoji_folder acc entry) as [[Hs ->]|[_ ->]]; [|done].
    apply dict_set_other; [done|].
    intros Heq. apply (Hother entry); [apply list_elem_of_here | done | done].
  - intros e He. apply Hother. by apply list_elem_of_further.
Qed.

Lemma NoDup_keys_lookup {V} (d : list (string * V)) key x y :
  NoDup d.*1 → (key, x) ∈ d → (key, y) ∈ d → x = y.
Proof.
  induction d as [|[k z] d IH]; [by intros _ ?%elem_of_nil|].
  change (((k, z) :: d).*1) with (k :: d.*1).
  intros [Hk Hnd]%NoDup_cons [Hx|Hx]%elem_of_cons [Hy|Hy]%elem_of_cons.
  - congruence.
  - injection Hx as -> ->. destruct Hk. apply list_elem_of_fmap. by exists (k, y).
  - injection Hy as -> ->. destruct Hk. apply list_elem_of_fmap. by exists (k, x).
  - by apply IH.
Qed.

(** The scanner misses no image and the last file of a name wins: for
    an entry of the tree that is a file with an allowed extension, the item
    made of it is in the result of [find_all_emoji_files], unless a later
    entry that the scanner keeps has the same stem; the result has no other
    item of that name. *)
Theorem scan_last_wins w emoji_folder before entry later :
  folder_tree w = Some (before ++ entry :: later) →
  scanned emoji_folder entry →
  (∀ e, e ∈ later → scanned emoji_folder e →
        (local_item emoji_folder e).1 ≠ (local_item emoji_folder entry).1) →
  local_item emoji_folder entry ∈ find_all_emoji_files w emoji_folder ∧
  ∀ info, ((local_item emoji_folder entry).1, info) ∈ find_all_emoji_files w emoji_folder →
          info = (local_item emoji_folder entry).2.
Proof.
  intros Htree Hs Hlater.
  assert (local_item emoji_folder entry ∈ find_all_emoji_files w emoji_folder) as Hin.
  { rewrite find_all_emoji_files_fold, Htree. simpl. rewrite foldl_app. simpl.
    apply scan_fold_keeps; [|done].
    destruct (scan_step_cases emoji_folder (foldl (scan_step emoji_folder) [] before) entry)
      as [[_ ->]|[Hno _]]; [|done].
    apply dict_set_same. }
  split; [done|]. intros info Hinfo.
  pose proof (proj1 (find_all_emoji_files_spec w emoji_folder)) as Hnd.
  eapply NoDup_keys_lookup; [exact Hnd | exact Hinfo |].
  by destruct (local_item emoji_folder entry).
Qed.

Lemma scan_last_wins_witness :
  folder_tree colliding = Some ([ {| de_rel := "a/x.png"; de_is_file := true |} ] ++
                                {| de_rel := "b/x.GIF"; de_is_file := true |} ::
                                [ {| de_rel := "b/x.txt"; de_is_file := true |} ]) ∧
  find_all_emoji_files colliding "emojis"
  = [ ("x", {| le_path := "emojis/b/x.GIF"; le_relative_path := "b/x.GIF" |}) ] ∧
  local_item "emojis" {| de_rel := "b/x.GIF"; de_is_file := true |}
  ∈ find_all_emoji_files colliding "emojis".
Proof.
  split; [reflexivity|]. split; [reflexivity|].
  apply (scan_last_wins colliding "emojis"
           [ {| de_rel := "a/x.png"; de_is_file := true |} ]
           {| de_rel := "b/x.GIF"; de_is_file := true |}
           [ {| de_rel := "b/x.txt"; de_is_file := true |} ]).
  - reflexivity.
  - split; [reflexivity|]. vm_compute. do 3 apply list_elem_of_further.
    apply list_elem_of_here.
  - intros e ->%list_elem_of_singleton [_ Hext]. exfalso.
    vm_compute in Hext.
    repeat (apply elem_of_cons in Hext as [Hext|Hext]; [discriminate Hext|]).
    by apply elem_of_nil in Hext.
Defined.

(** ** The listing, when it goes wrong and when names repeat *)

Lemma get_existing_emojis_unfold w s :
  get_existing_emojis w s
  = match requests_get w (trace s ++ [EvGet (emojis_url w)]) with
    | None => Raise RequestException (after s [EvGet (emojis_url w)])
    | Some (response, json) =>
        if bool_decide (status_code response = 200%Z) then
          match json with
          | None => Raise JSONDecodeError (after s [EvGet (emojis_url w)])
          | Some items => for_each keep_item items ∅ (after s [EvGet (emojis_url w)])
          end
        else Ok ∅ (after s [EvGet (emojis_url w)])
    end.
Proof.
  unfold get_existing_emojis. unfold_m. simpl.
  destruct (requests_get w _) as [[response json]|]; [|done].
  destruct (bool_decide _); [|done]. by destruct json.
Qed.

Lemma keep_item_cases emojis emoji s :
  keep_item emojis emoji s
  = match entry_of_item emoji with
    | Some (name, entry) => Ok (<[name := entry]> emojis) s
    | None => Raise (KeyError (if item_id emoji is None then "id" else "name")) s
    end.
Proof.
  unfold keep_item, entry_of_item.
  destruct (item_id emoji), (item_name emoji); reflexivity.
Qed.

Lemma keep_items_good items : ∀ entries done_entries s,
  mapM entry_of_item items = Some entries →
  for_each keep_item items (listed done_entries) s = Ok (listed (done_entries ++ entries)) s.
Proof.
  induction items as [|emoji items IH]; intros entries done_entries s Hm.
  - injection Hm as <-. by rewrite app_nil_r.
  - apply mapM_Some in Hm. apply Forall2_cons_inv_l in Hm as ([name e] & entries' & He & Hm & ->).
    apply mapM_Some in Hm. simpl. unfold mbind, M_bind.
    rewrite keep_item_cases, He, <- listed_snoc, (IH _ _ _ Hm). by rewrite <- app_assoc.
Qed.

Lemma keep_items_bad good bad rest entries s :
  mapM entry_of_item good = Some entries →
  entry_of_item bad = None →
  for_each keep_item (good ++ bad :: rest) ∅ s
  = Raise (KeyError (if item_id bad is None then "id" else "name")) s.
Proof.
  intros Hgood Hbad.
  cut (∀ done_entries,
         for_each keep_item (good ++ bad :: rest) (listed done_entries) s
         = Raise (KeyError (if item_id bad is None then "id" else "name")) s).
  { intros H. apply (H []). }
  revert entries Hgood. induction good as [|emoji good IH]; intros entries Hgood done_entries.
  - simpl. unfold mbind, M_bind. by rewrite keep_item_cases, Hbad.
  - apply mapM_Some in Hgood.
    apply Forall2_cons_inv_l in Hgood as ([name e] & entries' & He & Hgood & ->).
    apply mapM_Some in Hgood. simpl. unfold mbind, M_bind.
    rewrite keep_item_cases, He, <- listed_snoc. by apply (IH entries').
Qed.

Lemma keep_items_state items : ∀ emojis s, final_sys (for_each keep_item items emojis s) = s.
Proof.
  induction items as [|emoji items IH]; intros emojis s; [done|].
  simpl. unfold mbind, M_bind. rewrite keep_item_cases.
  destruct (entry_of_item emoji) as [[name e]|]; [apply IH | done].
Qed.

Lemma get_existing_emojis_state w s :
  final_sys (get_existing_emojis w s) = after s [EvGet (emojis_url w)].
Proof.
  rewrite get_existing_emojis_unfold.
  destruct (requests_get w _) as [[response json]|]; [|done].
  destruct (bool_decide _); [|done]. destruct json; [|done]. apply keep_items_state.
Qed.

(** The listing has one effect, its GET request, whether it returns or
    raises.  It raises, instead of returning a mapping, when [requests]
    raises, when [response.json()['items']] of a 200 answer cannot be
    evaluated (one exception in this model), and when an item of the listing
    has no id or no name: then it is the [KeyError] of the first such item
    ("id" is looked up before "name"), and the items before it are lost with
    the rest. *)
Theorem listing_failures w s :
  final_sys (get_existing_emojis w s) = after s [EvGet (emojis_url w)] ∧
  (requests_get w (trace s ++ [EvGet (emojis_url w)]) = None →
   get_existing_emojis w s = Raise RequestException (after s [EvGet (emojis_url w)])) ∧
  (∀ response,
     requests_get w (trace s ++ [EvGet (emojis_url w)]) = Some (response, None) →
     status_code response = 200%Z →
     get_existing_emojis w s = Raise JSONDecodeError (after s [EvGet (emojis_url w)])) ∧
  (∀ response good bad rest entries,
     requests_get w (trace s ++ [EvGet (emojis_url w)])
     = Some (response, Some (good ++ bad :: rest)) →
     status_code response = 200%Z →
     mapM entry_of_item good = Some entries →
     entry_of_item bad = None →
     get_existing_emojis w s
     = Raise (KeyError (if item_id bad is None then "id" else "name"))
         (after s [EvGet (emojis_url w)])).
Proof.
  split; [apply get_existing_emojis_state|].
  rewrite get_existing_emojis_unfold. split_and!.
  - by intros ->.
  - intros response -> H200. by rewrite bool_decide_true.
  - intros response good bad rest entries -> H200 Hgood Hbad.
    rewrite bool_decide_true by done. by eapply keep_items_bad.
Qed.

Lemma listed_lookup_last a name e : ∀ b,
  name ∉ b.*1 → listed (a ++ (name, e) :: b) !! name = Some e.
Proof.
  induction b as [|[k x] b IH] using rev_ind; intros Hb.
  - rewrite listed_snoc. apply lookup_insert_eq.
  - rewrite fmap_app in Hb. apply not_elem_of_app in Hb as [Hb Hk].
    change (a ++ (name, e) :: b ++ [(k, x)]) with (a ++ ((name, e) :: b) ++ [(k, x)]).
    rewrite app_assoc, listed_snoc, lookup_insert_ne; [by apply IH|].
    intros ->. apply Hk. simpl. apply list_elem_of_here.
Qed.

Lemma listed_dom entries name : is_Some (listed entries !! name) ↔ name ∈ entries.*1.
Proof.
  unfold listed. rewrite <- not_eq_None_Some, <- not_elem_of_list_to_map.
  rewrite fmap_reverse, elem_of_reverse.
  split; [apply dec_stable | by intros ? ?].
Qed.

Lemma listed_size entries : size (listed entries) ≤ length entries.
Proof.
  induction entries as [|[k x] entries IH] using rev_ind; [done|].
  rewrite listed_snoc, length_app. simpl.
  destruct (listed entries !! k) eqn:Hk.
  - rewrite map_size_insert_Some by done. lia.
  - rewrite map_size_insert_None by done. lia.
Qed.

(** A well-formed listing answered with status 200 becomes a mapping of
    exactly the listed names; when a name is listed more than once, the
    mapping has the id and flag of its last item, so the mapping can be
    smaller than the listing. *)
Theorem listing_last_wins w s response items entries :
  requests_get w (trace s ++ [EvGet (emojis_url w)]) = Some (response, Some items) →
  status_code response = 200%Z →
  mapM entry_of_item items = Some entries →
  ∃ existing,
    get_existing_emojis w s = Ok existing (after s [EvGet (emojis_url w)]) ∧
    (∀ name, is_Some (existing !! name) ↔ name ∈ entries.*1) ∧
    (∀ before name entry later,
       entries = before ++ (name, entry) :: later → name ∉ later.*1 →
       existing !! name = Some entry) ∧
    size existing ≤ length items.
Proof.
  intros Hget H200 Hitems. exists (listed entries).
  rewrite get_existing_emojis_unfold, Hget, bool_decide_true by done.
  split_and!.
  - apply (keep_items_good items entries []). done.
  - apply listed_dom.
  - intros before name entry later -> Hlater. by apply listed_lookup_last.
  - apply mapM_Some, Forall2_length in Hitems. rewrite Hitems. apply listed_size.
Qed.

Lemma listing_last_wins_witness :
  requests_get twice_listed (trace boot ++ [EvGet (emojis_url twice_listed)])
  = Some ({| status_code := 200; text := "" |},
          Some [ {| item_name := Some "old"; item_id := Some "1"; item_animated := None |};
                 {| item_name := Some "old"; item_id := Some "2";
                    item_animated := Some true |} ]) ∧
  get_existing_emojis twice_listed boot
  = Ok {[ "old" := {| re_id := "2"; re_animated := true |} ]}
       (after boot [EvGet (emojis_url twice_listed)]) ∧
  ∃ existing,
    get_existing_emojis twice_listed boot
    = Ok existing (after boot [EvGet (emojis_url twice_listed)]) ∧
    (∀ name, is_Some (existing !! name)
             ↔ name ∈ [ ("old", {| re_id := "1"; re_animated := false |});
                        ("old", {| re_id := "2"; re_animated := true |}) ].*1) ∧
    (∀ before name entry later,
       [ ("old", {| re_id := "1"; re_animated := false |});
         ("old", {| re_id := "2"; re_animated := true |}) ]
       = before ++ (name, entry) :: later → name ∉ later.*1 →
       existing !! name = Some entry) ∧
    size existing
    ≤ length [ {| item_name := Some "old"; item_id := Some "1"; item_animated := None |};
               {| item_name := Some "old"; item_id := Some "2";
                  item_animated := Some true |} ].
Proof.
  split; [reflexivity|]. split; [reflexivity|].
  apply (listing_last_wins twice_listed boot {| status_code := 200; text := "" |});
    reflexivity.
Defined.

(** ** One upload, step by step *)

Lemma read_answer_unfold w s :
  read_answer w s
  = match requests_post w (trace s) with
    | None => Raise RequestException s
    | Some (response, json) =>
        if bool_decide (status_code response = 201%Z) then
          match json with
          | None => Raise JSONDecodeError s
          | Some emoji_data => Ok (true, "Success", Some emoji_data) s
          end
        else Ok (false, diagnostic response, None) s
    end.
Proof.
  unfold read_answer. unfold_m.
  destruct (requests_post w _) as [[response json]|]; [|done].
  destruct (bool_decide _); [|done]. by destruct json.
Qed.

Lemma post_image_unfold w file_ext emoji_name image_data s :
  post_image w file_ext emoji_name image_data s
  = match image_type_of file_ext with
    | None => Ok (false, "Unsupported format", None) s
    | Some image_type =>
        read_answer w
          (after s [EvPost (emojis_url w) emoji_name
                      ("data:" +:+ image_type +:+ ";base64," +:+ b64encode image_data)])
    end.
Proof. unfold post_image. by destruct (image_type_of file_ext). Qed.

Lemma upload_prepared_unfold w file_path file_ext temp_png_path emoji_name :
  upload_prepared w file_path file_ext temp_png_path emoji_name
  = (image_data ← read_file w file_path;
     match temp_png_path with
     | Some n => try_except (unlink w n) (λ _, mret ())
     | None => mret ()
     end;;
     post_image w file_ext emoji_name image_data).
Proof. reflexivity. Qed.

Lemma upload_prepared_local w file_path file_ext emoji_name s :
  upload_prepared w (LocalFile file_path) file_ext None emoji_name s
  = match read_bytes w (trace s ++ [EvRead (LocalFile file_path)]) with
    | None => Raise OSError (after s [EvRead (LocalFile file_path)])
    | Some image_data =>
        post_image w file_ext emoji_name image_data (after s [EvRead (LocalFile file_path)])
    end.
Proof.
  rewrite upload_prepared_unfold. unfold read_file. unfold_m. simpl.
  by destruct (read_bytes w _).
Qed.

Lemma upload_prepared_scratch w n png emoji_name s :
  scratch s !! n = Some png →
  upload_prepared w (ScratchFile n) ".png" (Some n) emoji_name s
  = post_image w ".png" emoji_name png
      {| trace := trace s ++ [EvRead (ScratchFile n); EvUnlink n];
         scratch := if unlink_fails w (trace s ++ [EvRead (ScratchFile n); EvUnlink n])
                    then scratch s else delete n (scratch s) |}.
Proof.
  intros Hn. rewrite upload_prepared_unfold. unfold read_file. unfold_m. simpl.
  rewrite Hn. simpl. rewrite Hn, <- app_assoc. simpl.
  by destruct (unlink_fails w _).
Qed.

Lemma convert_svg_to_png_unfold w svg_path s :
  convert_svg_to_png w svg_path s
  = if SVG_SUPPORT w then
      if tempfile_fails w (trace s) then Ok None s
      else
        match svg2png w (trace s ++ [EvMkTemp (fresh (dom (scratch s)));
                                     EvSvg2Png svg_path (fresh (dom (scratch s)))]) with
        | None =>
            Ok None
               {| trace := trace s ++ [EvMkTemp (fresh (dom (scratch s)));
                                       EvSvg2Png svg_path (fresh (dom (scratch s)))];
                  scratch := <[fresh (dom (scratch s)) := []]> (scratch s) |}
        | Some png =>
            Ok (Some (fresh (dom (scratch s))))
               {| trace := trace s ++ [EvMkTemp (fresh (dom (scratch s)));
                                       EvSvg2Png svg_path (fresh (dom (scratch s)))];
                  scratch := <[fresh (dom (scratch s)) := png]> (scratch s) |}
        end
    else Ok None s.
Proof.
  unfold convert_svg_to_png. unfold_m.
  destruct (SVG_SUPPORT w); simpl; [|done].
  destruct (tempfile_fails w (trace s)); [done|]. simpl.
  rewrite <- app_assoc. simpl.
  destruct (svg2png w _); [|done]. simpl. by rewrite insert_insert_eq.
Qed.

Lemma upload_emoji_unfold w file_path emoji_name s :
  upload_emoji w file_path emoji_name s
  = if bool_decide (lower (suffix file_path) = ".svg") then
      if SVG_SUPPORT w then
        match convert_svg_to_png w file_path (after s [EvUpload file_path emoji_name]) with
        | Ok None s1 => Ok (false, "Failed to convert SVG to PNG", None) s1
        | Ok (Some n) s1 => upload_prepared w (ScratchFile n) ".png" (Some n) emoji_name s1
        | Raise e s1 => Raise e s1
        end
      else Ok (false, "SVG support not available (cairosvg not installed)", None)
              (after s [EvUpload file_path emoji_name])
    else upload_prepared w (LocalFile file_path) (lower (suffix file_path)) None emoji_name
           (after s [EvUpload file_path emoji_name]).
Proof.
  unfold upload_emoji. unfold mbind, M_bind, emit, after. cbv zeta.
  destruct (bool_decide _); [|done].
  destruct (SVG_SUPPORT w); simpl; [|done].
  by destruct (convert_svg_to_png w file_path _) as [[n|] s1|e s1].
Qed.

(** [convert_svg_to_png] never raises: what goes wrong in it is caught
    and becomes the result [None].  Without cairosvg, or when no scratch
    file can be made, it has no effect at all.  When it returns a scratch
    file, the file is new, it holds what cairosvg rendered, and the effects
    were the creation of the file and the rendering, in this order. *)
Theorem convert_svg_to_png_safe w svg_path s :
  ∃ temp_png_path s',
    convert_svg_to_png w svg_path s = Ok temp_png_path s' ∧
    (SVG_SUPPORT w = false ∨ tempfile_fails w (trace s) = true →
     temp_png_path = None ∧ s' = s) ∧
    (∀ n, temp_png_path = Some n →
       scratch s !! n = None ∧
       trace s' = trace s ++ [EvMkTemp n; EvSvg2Png svg_path n] ∧
       ∃ png, svg2png w (trace s') = Some png ∧ scratch s' = <[n := png]> (scratch s)).
Proof.
  rewrite convert_svg_to_png_unfold.
  destruct (SVG_SUPPORT w); [|by eexists None, s].
  destruct (tempfile_fails w (trace s)); [by eexists None, s|].
  destruct (svg2png w _) as [png|] eqn:Hpng.
  - eexists (Some _), _. split; [reflexivity|]. split; [by intros [?|?]|].
    intros n [= <-]. simpl. split_and!; [|done|by exists png].
    apply not_elem_of_dom, is_fresh.
  - eexists None, _. split; [reflexivity|]. split; [by intros [?|?]|done].
Qed.

(** An upload of an SVG that cairosvg renders: the file is rendered into a
    new scratch file, the scratch file is read and its removal is attempted,
    and only then the request is made, with the rendering as a PNG data URI;
    the SVG itself is not read by the script.  The request is made whether
    or not the removal succeeded: when it did, the scratch files on disk are
    those from before the call; when it failed, which the script ignores,
    the scratch file is still on disk, with the rendering. *)
Theorem svg_upload_steps w file_path emoji_name s png :
  lower (suffix file_path) = ".svg" →
  SVG_SUPPORT w = true →
  tempfile_fails w (trace s ++ [EvUpload file_path emoji_name]) = false →
  svg2png w (trace s ++ [EvUpload file_path emoji_name;
                         EvMkTemp (fresh (dom (scratch s)));
                         EvSvg2Png file_path (fresh (dom (scratch s)))]) = Some png →
  upload_emoji w file_path emoji_name s
  = read_answer w
      {| trace := trace s ++ [EvUpload file_path emoji_name;
                              EvMkTemp (fresh (dom (scratch s)));
                              EvSvg2Png file_path (fresh (dom (scratch s)));
                              EvRead (ScratchFile (fresh (dom (scratch s))));
                              EvUnlink (fresh (dom (scratch s)));
                              EvPost (emojis_url w) emoji_name
                                ("data:image/png;base64," +:+ b64encode png)];
         scratch :=
           if unlink_fails w
                (trace s ++ [EvUpload file_path emoji_name;
                             EvMkTemp (fresh (dom (scratch s)));
                             EvSvg2Png file_path (fresh (dom (scratch s)));
                             EvRead (ScratchFile (fresh (dom (scratch s))));
                             EvUnlink (fresh (dom (scratch s)))])
           then <[fresh (dom (scratch s)) := png]> (scratch s)
           else scratch s |}.
Proof.
  intros Hext Hsupport Htemp Hpng.
  rewrite upload_emoji_unfold, Hext, Hsupport, convert_svg_to_png_unfold, Hsupport.
  simpl. rewrite Htemp, <- app_assoc. simpl. rewrite Hpng.
  rewrite (upload_prepared_scratch _ _ png) by apply lookup_insert_eq.
  rewrite post_image_unfold. simpl.
  rewrite delete_insert_eq, delete_id by apply not_elem_of_dom, is_fresh.
  unfold after. simpl. by rewrite <- !app_assoc.
Qed.

Lemma svg_upload_steps_witness :
  lower (suffix "emojis/icon.svg") = ".svg" ∧
  upload_emoji svg_rendered "emojis/icon.svg" "icon" boot
  = Ok (true, "Success", Some {| json_id := Some "900"; json_animated := None |})
       {| trace := [EvUpload "emojis/icon.svg" "icon";
                    EvMkTemp (fresh (dom (scratch boot)));
                    EvSvg2Png "emojis/icon.svg" (fresh (dom (scratch boot)));
                    EvRead (ScratchFile (fresh (dom (scratch boot))));
                    EvUnlink (fresh (dom (scratch boot)));
                    EvPost (emojis_url svg_rendered) "icon" "data:image/png;base64,TWFu"];
          scratch := ∅ |} ∧
  upload_emoji (with_stuck_scratch svg_rendered) "emojis/icon.svg" "icon" boot
  = Ok (true, "Success", Some {| json_id := Some "900"; json_animated := None |})
       {| trace := [EvUpload "emojis/icon.svg" "icon";
                    EvMkTemp (fresh (dom (scratch boot)));
                    EvSvg2Png "emojis/icon.svg" (fresh (dom (scratch boot)));
                    EvRead (ScratchFile (fresh (dom (scratch boot))));
                    EvUnlink (fresh (dom (scratch boot)));
                    EvPost (emojis_url svg_rendered) "icon" "data:image/png;base64,TWFu"];
          scratch := {[ fresh (dom (scratch boot)) := [77; 97; 110]%N ]} |}.
Proof.
  split; [reflexivity|]. split.
  - rewrite (svg_upload_steps svg_rendered "emojis/icon.svg" "icon" boot [77; 97; 110]%N);
      reflexivity.
  - rewrite (svg_upload_steps (with_stuck_scratch svg_rendered) "emojis/icon.svg" "icon"
               boot [77; 97; 110]%N);
      reflexivity.
Defined.



(** A file whose extension is not in the allow-list is read all the same
    before [upload_emoji] rejects it: the result is the failure "Unsupported
    format", without a request, when the file can be read, and the error of
    the read otherwise. *)
Theorem unsupported_extension w file_path emoji_name s :
  lower (suffix file_path) ∉ SUPPORTED_FORMATS →
  upload_emoji w file_path emoji_name s
  = match read_bytes w (trace s ++ [EvUpload file_path emoji_name;
                                    EvRead (LocalFile file_path)]) with
    | Some _ =>
        Ok (false, "Unsupported format", None)
           (after s [EvUpload file_path emoji_name; EvRead (LocalFile file_path)])
    | None =>
        Raise OSError (after s [EvUpload file_path emoji_name; EvRead (LocalFile file_path)])
    end.
Proof.
  intros Hext. unfold SUPPORTED_FORMATS in Hext.
  rewrite !not_elem_of_cons in Hext.
  destruct Hext as (Hpng & Hjpg & Hjpeg & Hgif & Hwebp & Hsvg & _).
  rewrite upload_emoji_unfold, bool_decide_false by done.
  rewrite upload_prepared_local. unfold after. simpl. rewrite <- !app_assoc. simpl.
  destruct (read_bytes w _); [|done].
  rewrite post_image_unfold. unfold image_type_of.
  rewrite (bool_decide_false (_ = ".png")) by done.
  rewrite (bool_decide_false (_ ∈ _)).
  2:{ rewrite !elem_of_cons. intros [?|[?|?%elem_of_nil]]; done. }
  rewrite (bool_decide_false (_ = ".gif")) by done.
  by rewrite (bool_decide_false (_ = ".webp")) by done.
Qed.

Lemma unsupported_extension_witness :
  lower (suffix "emojis/notes.TXT") = ".txt" ∧
  upload_emoji calm "emojis/notes.TXT" "notes" boot
  = Ok (false, "Unsupported format", None)
       (after boot [EvUpload "emojis/notes.TXT" "notes";
                    EvRead (LocalFile "emojis/notes.TXT")]).
Proof.
  split; [reflexivity|].
  rewrite (unsupported_extension calm "emojis/notes.TXT" "notes" boot); [reflexivity|].
  vm_compute. intros Hin.
  repeat (apply elem_of_cons in Hin as [Hin|Hin]; [discriminate Hin|]).
  by apply elem_of_nil in Hin.
Defined.

(** An upload of a raster image: the file is read, then the request
    is made with the bytes of the file as a data URI whose MIME type is
    "image/" and the extension in lower case, "jpeg" for ".jpg"; what
    [upload_emoji] returns is read off the answer to this request. *)
Theorem raster_upload_request w file_path emoji_name s image_data :
  lower (suffix file_path) ∈ RASTER_FORMATS →
  read_bytes w (trace s ++ [EvUpload file_path emoji_name; EvRead (LocalFile file_path)])
  = Some image_data →
  ∃ subtype,
    (lower (suffix file_path) = ".jpg" ∧ subtype = "jpeg" ∨
     lower (suffix file_path) = "." +:+ subtype) ∧
    upload_emoji w file_path emoji_name s
    = read_answer w
        (after s [EvUpload file_path emoji_name; EvRead (LocalFile file_path);
                  EvPost (emojis_url w) emoji_name
                    ("data:image/" +:+ subtype +:+ ";base64," +:+ b64encode image_data)]).
Proof.
  intros Hext Hread.
  assert (∀ subtype,
            lower (suffix file_path) ≠ ".svg" →
            image_type_of (lower (suffix file_path)) = Some ("image/" +:+ subtype) →
            upload_emoji w file_path emoji_name s
            = read_answer w
                (after s [EvUpload file_path emoji_name; EvRead (LocalFile file_path);
                          EvPost (emojis_url w) emoji_name
                            ("data:image/" +:+ subtype +:+ ";base64," +:+
                             b64encode image_data)])) as Hgo.
  { intros subtype Hsvg Hty.
    rewrite upload_emoji_unfold, bool_decide_false by done.
    rewrite upload_prepared_local. unfold after at 1 2. simpl. rewrite <- !app_assoc. simpl.
    rewrite Hread, post_image_unfold, Hty. unfold after. simpl.
    by rewrite <- !app_assoc. }
  unfold RASTER_FORMATS in Hext. rewrite !elem_of_cons in Hext.
  destruct Hext as [He|[He|[He|[He|[He|He%elem_of_nil]]]]]; [..|done].
  - exists "png". split; [by right|]. apply Hgo; by rewrite He.
  - exists "jpeg". split; [by left|]. apply Hgo; by rewrite He.
  - exists "jpeg". split; [by right|]. apply Hgo; by rewrite He.
  - exists "gif". split; [by right|]. apply Hgo; by rewrite He.
  - exists "webp". split; [by right|]. apply Hgo; by rewrite He.
Qed.

Lemma raster_upload_request_witness :
  lower (suffix "emojis/Photo.JPG") = ".jpg" ∧
  upload_emoji calm "emojis/Photo.JPG" "Photo" boot
  = Ok (true, "Success", Some {| json_id := Some "900"; json_animated := None |})
       (after boot [EvUpload "emojis/Photo.JPG" "Photo";
                    EvRead (LocalFile "emojis/Photo.JPG");
                    EvPost (emojis_url calm) "Photo" "data:image/jpeg;base64,TWFu"]) ∧
  ∃ subtype,
    (lower (suffix "emojis/Photo.JPG") = ".jpg" ∧ subtype = "jpeg" ∨
     lower (suffix "emojis/Photo.JPG") = "." +:+ subtype) ∧
    upload_emoji calm "emojis/Photo.JPG" "Photo" boot
    = read_answer calm
        (after boot [EvUpload "emojis/Photo.JPG" "Photo";
                     EvRead (LocalFile "emojis/Photo.JPG");
                     EvPost (emojis_url calm) "Photo"
                       ("data:image/" +:+ subtype +:+ ";base64," +:+
                        b64encode [77; 97; 110]%N)]).
Proof.
  split; [reflexivity|]. split; [reflexivity|].
  apply (raster_upload_request calm "emojis/Photo.JPG" "Photo" boot [77; 97; 110]%N).
  - vm_compute. apply list_elem_of_further, list_elem_of_here.
  - reflexivity.
Defined.

Lemma read_answer_cases w s :
  match read_answer w s with
  | Ok r s' => s' = s ∧ answer_of w (trace s) r
  | Raise e s' => e ∈ [RequestException; JSONDecodeError]
  end.
Proof.
  rewrite read_answer_unfold. unfold answer_of.
  destruct (requests_post w (trace s)) as [[response json]|]; [|apply list_elem_of_here].
  destruct (decide (status_code response = 201%Z)) as [H201|H201].
  - rewrite bool_decide_true by done.
    destruct json as [emoji_data|]; [|apply list_elem_of_further, list_elem_of_here].
    split; [done|]. exists response, (Some emoji_data). split; [done|]. left. by eauto.
  - rewrite bool_decide_false by done.
    split; [done|]. exists response, json. split; [done|]. by right.
Qed.

Lemma post_image_cases w file_ext emoji_name image_data s :
  match post_image w file_ext emoji_name image_data s with
  | Ok r s' =>
      s' = s ∧ r = (false, "Unsupported format", None) ∨
      ∃ data_uri,
        s' = after s [EvPost (emojis_url w) emoji_name data_uri] ∧ answer_of w (trace s') r
  | Raise e s' => e ∈ [RequestException; JSONDecodeError; OSError]
  end.
Proof.
  rewrite post_image_unfold. destruct (image_type_of file_ext) as [image_type|]; [|by left].
  pose proof (read_answer_cases w
    (after s [EvPost (emojis_url w) emoji_name
                ("data:" +:+ image_type +:+ ";base64," +:+ b64encode image_data)])) as H.
  destruct (read_answer w _) as [r s'|e s'].
  - destruct H as [-> H]. right. by eexists.
  - rewrite !elem_of_cons in H. rewrite !elem_of_cons. tauto.
Qed.

(** What a call of [upload_emoji] did and what it returned *)
Lemma upload_emoji_outcome w file_path emoji_name s :
  match upload_emoji w file_path emoji_name s with
  | Ok r s' =>
      (∃ files,
         trace s' = trace s ++ EvUpload file_path emoji_name :: files ∧
         Forall file_event files ∧
         r.1.1 = false ∧ r.1.2 ∈ preparation_failures ∧ r.2 = None) ∨
      (∃ files data_uri,
         trace s' = trace s ++ EvUpload file_path emoji_name :: files ++
                      [EvPost (emojis_url w) emoji_name data_uri] ∧
         Forall file_event files ∧
         answer_of w (trace s') r)
  | Raise e s' => e ∈ [RequestException; JSONDecodeError; OSError]
  end.
Proof.
  rewrite upload_emoji_unfold.
  destruct (bool_decide (lower (suffix file_path) = ".svg")).
  - destruct (SVG_SUPPORT w) eqn:Hsupport.
    2:{ left. exists []. simpl. split_and!; [done|done|done| |done].
        apply list_elem_of_here. }
    rewrite convert_svg_to_png_unfold, Hsupport. simpl.
    destruct (tempfile_fails w _).
    { left. exists []. simpl. split_and!; [done|done|done| |done].
      apply list_elem_of_further, list_elem_of_here. }
    rewrite <- app_assoc. simpl.
    destruct (svg2png w _) as [png|].
    2:{ left. eexists [_; _]. simpl. split_and!; [done| |done| |done].
        - by repeat constructor.
        - apply list_elem_of_further, list_elem_of_here. }
    rewrite (upload_prepared_scratch _ _ png) by apply lookup_insert_eq.
    match goal with |- context [post_image ?a ?b ?c ?d ?e] =>
      pose proof (post_image_cases a b c d e) as H;
      destruct (post_image a b c d e) as [r s'|e' s'] end; [|done].
    destruct H as [[-> ->]|(data_uri & -> & Hans)].
    + left. eexists [_; _; _; _]. simpl. rewrite <- app_assoc. simpl.
      split_and!; [done| |done| |done].
      * by repeat constructor.
      * do 2 apply list_elem_of_further. apply list_elem_of_here.
    + right.
      exists [EvMkTemp (fresh (dom (scratch s)));
              EvSvg2Png file_path (fresh (dom (scratch s)));
              EvRead (ScratchFile (fresh (dom (scratch s))));
              EvUnlink (fresh (dom (scratch s)))], data_uri.
      split_and!; [|by repeat constructor|done].
      simpl. by rewrite <- !app_assoc.
  - rewrite upload_prepared_local. simpl.
    destruct (read_bytes w _) as [image_data|].
    2:{ do 2 apply list_elem_of_further. apply list_elem_of_here. }
    match goal with |- context [post_image ?a ?b ?c ?d ?e] =>
      pose proof (post_image_cases a b c d e) as H;
      destruct (post_image a b c d e) as [r s'|e' s'] end; [|done].
    destruct H as [[-> ->]|(data_uri & -> & Hans)].
    + left. eexists [_]. simpl. rewrite <- app_assoc. simpl.
      split_and!; [done| |done| |done].
      * by repeat constructor.
      * do 2 apply list_elem_of_further. apply list_elem_of_here.
    + right. exists [EvRead (LocalFile file_path)], data_uri.
      split_and!; [|by repeat constructor|done].
      simpl. by rewrite <- !app_assoc.
Qed.



Lemma sleep_not_file ms files : Forall file_event files → EvSleep ms ∉ files.
Proof.
  intros Hfiles Hin. rewrite Forall_forall in Hfiles. by apply Hfiles in Hin.
Qed.

Lemma process_local_pause w v item s v' s' t :
  process_local w v item s = Ok v' s' →
  trace s' = trace s ++ t →
  EvSleep 5000 ∈ t →
  ∃ before data_uri response json,
    t = before ++ [EvPost (emojis_url w) item.1 data_uri; EvSleep 5000] ∧
    requests_post w (trace s ++ before ++ [EvPost (emojis_url w) item.1 data_uri])
    = Some (response, json) ∧
    status_code response ≠ 201%Z ∧
    str_in "429" (diagnostic response) = true.
Proof.
  unfold process_local. cbv zeta. intros Hrun Ht Hin.
  destruct (existing_emojis v !! item.1).
  { injection Hrun as <- <-. rewrite <- (app_nil_r (trace s)) in Ht at 1.
    apply app_inv_head in Ht. subst t. by apply elem_of_nil in Hin. }
  apply bind_Ok in Hrun as ([[success message] emoji_data] & s1 & Hup & Hrun).
  pose proof (upload_emoji_outcome w (le_path item.2) item.1 s) as Hout.
  rewrite Hup in Hout. simpl in Hout.
  destruct Hout as [(files & Hs1 & Hfiles & -> & Hm & ->)
                   |(files & data_uri & Hs1 & Hfiles & response & json & Hpost & Hans)];
    pose proof (sleep_not_file 5000 files Hfiles) as Hnone.
  - apply failed_spec in Hrun as [_ ->].
    replace (str_in "429" message) with false in Ht.
    2:{ unfold preparation_failures in Hm. rewrite !elem_of_cons in Hm.
        destruct Hm as [->|[->|[->|?%elem_of_nil]]]; done. }
    simpl in Ht. rewrite app_nil_r, Hs1 in Ht. apply app_inv_head in Ht. subst t.
    apply elem_of_cons in Hin as [Hin|Hin]; done.
  - destruct Hans as [(_ & _ & [= -> -> ->])|(H201 & [= -> -> ->])].
    + exfalso. destruct json as [emoji_data|]; [|raised Hrun].
      destruct (json_id emoji_data) as [i|]; [|raised Hrun].
      unfold_m. simpl in Hrun. injection Hrun as <- <-. simpl in Ht.
      rewrite Hs1, <- !app_assoc in Ht. apply app_inv_head in Ht. subst t.
      repeat (progress rewrite ?elem_of_cons, ?elem_of_app, ?elem_of_nil in Hin).
      decompose [or] Hin; done.
    + apply failed_spec in Hrun as [_ ->].
      destruct (str_in "429" (diagnostic response)) eqn:H429.
      * simpl in Ht. rewrite Hs1, <- !app_assoc in Ht. apply app_inv_head in Ht. subst t.
        exists (EvUpload (le_path item.2) item.1 :: files), data_uri, response, json.
        split_and!; [|by rewrite <- Hpost, Hs1|done|done].
        simpl. by rewrite <- ?app_assoc.
      * exfalso. simpl in Ht. rewrite app_nil_r, Hs1 in Ht. apply app_inv_head in Ht.
        subst t.
        repeat (progress rewrite ?elem_of_cons, ?elem_of_app, ?elem_of_nil in Hin).
        decompose [or] Hin; done.
Qed.

(** How a rate limit is recognised.  The diagnostic of an answer
    contains "429" when the status is 429, and also when the body of an
    answer of any other status contains these digits.  In the upload pass a
    pause of five seconds comes right after a Create call that the server
    answered with a status other than 201 and such a diagnostic: a failure
    of the preparation of an upload never pauses. *)
Theorem rate_limit_detection :
  (∀ response,
     status_code response = 429%Z ∨ str_in "429" (text response) = true →
     str_in "429" (diagnostic response) = true) ∧
  (∀ w v item s v' s' t,
     process_local w v item s = Ok v' s' →
     trace s' = trace s ++ t →
     EvSleep 5000 ∈ t →
     ∃ before data_uri response json,
       t = before ++ [EvPost (emojis_url w) item.1 data_uri; EvSleep 5000] ∧
       requests_post w (trace s ++ before ++ [EvPost (emojis_url w) item.1 data_uri])
       = Some (response, json) ∧
       status_code response ≠ 201%Z ∧
       str_in "429" (diagnostic response) = true).
Proof.
  split.
  - intros response [H429|Hbody]; unfold diagnostic.
    + rewrite H429. apply (str_in_middle "429" "").
    + by do 2 apply str_in_app_r.
  - apply process_local_pause.
Qed.

(** ** What the inventory records of an upload *)

(** An upload is counted only after a Create call that the server
    answered with status 201 and an id; the inventory, and with it the
    report, gets the emoji under the name of the file with this id, and with
    the animated flag of the answer, false when the answer has none.  The
    pause of 1.5 seconds follows at once. *)
Theorem upload_records_answer w v item s v' s' :
  process_local w v item s = Ok v' s' →
  uploaded_count v' ≠ uploaded_count v →
  ∃ before data_uri response emoji_data i,
    trace s' = trace s ++ before ++ [EvPost (emojis_url w) item.1 data_uri; EvSleep 1500] ∧
    requests_post w (trace s ++ before ++ [EvPost (emojis_url w) item.1 data_uri])
    = Some (response, Some emoji_data) ∧
    status_code response = 201%Z ∧
    json_id emoji_data = Some i ∧
    existing_emojis v'
    = <[item.1 := {| re_id := i; re_animated := default false (json_animated emoji_data) |}]>
        (existing_emojis v) ∧
    uploaded_count v' = S (uploaded_count v).
Proof.
  unfold process_local. cbv zeta. intros Hrun Hcount.
  destruct (existing_emojis v !! item.1).
  { by injection Hrun as <- <-. }
  apply bind_Ok in Hrun as ([[success message] emoji_data] & s1 & Hup & Hrun).
  pose proof (upload_emoji_outcome w (le_path item.2) item.1 s) as Hout.
  rewrite Hup in Hout. simpl in Hout.
  destruct Hout as [(files & Hs1 & Hfiles & -> & Hm & ->)
                   |(files & data_uri & Hs1 & Hfiles & response & json & Hpost & Hans)].
  { by apply failed_spec in Hrun as [-> _]. }
  destruct Hans as [(H201 & Hjson & [= -> -> ->])|(H201 & [= -> -> ->])].
  2:{ by apply failed_spec in Hrun as [-> _]. }
  destruct json as [emoji_data|]; [|raised Hrun].
  destruct (json_id emoji_data) as [i|] eqn:Hid; [|raised Hrun].
  unfold_m. simpl in Hrun. injection Hrun as <- <-. simpl.
  exists (EvUpload (le_path item.2) item.1 :: files), data_uri, response, emoji_data, i.
  split_and!; [|by rewrite <- Hpost, Hs1|done..].
  rewrite Hs1, <- app_assoc. simpl. by rewrite <- app_assoc.
Qed.

Lemma upload_records_answer_witness :
  process_local two_files (initial_vars old_inventory)
    ("smile", {| le_path := "emojis/smile.png"; le_relative_path := "smile.png" |}) boot
  = Ok (with_uploaded "smile" {| re_id := "900"; re_animated := false |}
          (initial_vars old_inventory))
       (after boot [ EvUpload "emojis/smile.png" "smile";
                     EvRead (LocalFile "emojis/smile.png");
                     EvPost (emojis_url two_files) "smile" "data:image/png;base64,TWFu";
                     EvSleep 1500 ]) ∧
  ∃ before data_uri response emoji_data i,
    [ EvUpload "emojis/smile.png" "smile";
      EvRead (LocalFile "emojis/smile.png");
      EvPost (emojis_url two_files) "smile" "data:image/png;base64,TWFu";
      EvSleep 1500 ]
    = [] ++ before ++ [EvPost (emojis_url two_files) "smile" data_uri; EvSleep 1500] ∧
    requests_post two_files ([] ++ before ++ [EvPost (emojis_url two_files) "smile" data_uri])
    = Some (response, Some emoji_data) ∧
    status_code response = 201%Z ∧
    json_id emoji_data = Some i ∧
    <[ "smile" := {| re_id := "900"; re_animated := false |} ]> old_inventory
    = <[ "smile" := {| re_id := i; re_animated := default false (json_animated emoji_data) |} ]>
        old_inventory ∧
    1 = 1.
Proof.
  split; [reflexivity|].
  apply (upload_records_answer two_files (initial_vars old_inventory)
           ("smile", {| le_path := "emojis/smile.png"; le_relative_path := "smile.png" |})
           boot
           (with_uploaded "smile" {| re_id := "900"; re_animated := false |}
              (initial_vars old_inventory))
           (after boot [ EvUpload "emojis/smile.png" "smile";
                         EvRead (LocalFile "emojis/smile.png");
                         EvPost (emojis_url two_files) "smile" "data:image/png;base64,TWFu";
                         EvSleep 1500 ])).
  - reflexivity.
  - simpl. lia.
Defined.

(** ** The bookkeeping of the two passes *)

Lemma count_upload_part (p : Event → bool) file_path emoji_name url files posts pause :
  (∀ e, file_event e → p e = false) →
  (∀ f n, p (EvUpload f n) = false) →
  (∀ u n d, p (EvPost u n d) = false) →
  Forall file_event files →
  posts = [] ∨ (∃ data_uri, posts = [EvPost url emoji_name data_uri]) →
  count p (EvUpload file_path emoji_name :: files ++ posts ++ pause) = count p pause.
Proof.
  intros Hfile Hup Hpost Hfiles Hposts.
  rewrite count_cons, Hup, !count_app, (count_files p files Hfile Hfiles).
  destruct Hposts as [->|[data_uri ->]]; [done|].
  by rewrite count_cons, Hpost.
Qed.

Lemma map_size_delete_present {A} (m : gmap string A) i x :
  m !! i = Some x → size m = S (size (delete i m)).
Proof.
  intros Hi. rewrite <- (insert_delete_id m i x) at 1 by done.
  apply map_size_insert_None, lookup_delete_eq.
Qed.

Lemma set_iter_length w X : length (set_iter w X) = size X.
Proof. by rewrite set_iter_perm. Qed.

(** One turn of the upload loop, for the accounts *)
Lemma process_local_account w v item s v' s' :
  process_local w v item s = Ok v' s' →
  ∃ t, trace s' = trace s ++ t ∧
    count any_delete t = 0 ∧
    count any_sleep t = count (is_sleep 1500) t + count (is_sleep 5000) t ∧
    (is_Some (existing_emojis v !! item.1) ∧ v' = with_skipped v ∧ t = [] ∨
     existing_emojis v !! item.1 = None ∧ (∃ entry, v' = with_uploaded item.1 entry v) ∧
       count (is_sleep 1500) t = 1 ∧ count (is_sleep 5000) t = 0 ∨
     v' = with_error v ∧ count (is_sleep 1500) t = 0 ∧ count (is_sleep 5000) t ≤ 1).
Proof.
  intros Hrun.
  apply process_local_spec in Hrun
    as [(Hknown & -> & ->)
       |(Hnew & files & posts & pause & Ht & Hfiles & Hposts & _ & _ & Hend)].
  { exists []. rewrite app_nil_r. split_and!; [done..|]. by left. }
  eexists. split; [exact Ht|].
  assert (∀ p : Event → bool,
            (∀ e, file_event e → p e = false) →
            (∀ f n, p (EvUpload f n) = false) →
            (∀ u n d, p (EvPost u n d) = false) →
            count p (EvUpload (le_path item.2) item.1 :: files ++ posts ++ pause)
            = count p pause) as Hc.
  { intros p H1 H2 H3. by eapply count_upload_part. }
  rewrite (Hc any_delete), (Hc any_sleep), (Hc (is_sleep 1500)), (Hc (is_sleep 5000))
    by first [by intros []|done].
  destruct Hend as [(entry & -> & ->)|[-> [->| ->]]].
  - split_and!; [done..|]. right. left. by eauto.
  - split_and!; [done..|]. right. right. split_and!; [done|done|]. unfold count. simpl. lia.
  - split_and!; [done..|]. right. right. split_and!; [done|done|]. unfold count. simpl. lia.
Qed.

(** The upload pass, for the accounts *)
Lemma upload_pass_account w local_files : ∀ v s v' s',
  for_each (process_local w) local_files v s = Ok v' s' →
  ∃ t, trace s' = trace s ++ t ∧
    count any_delete t = 0 ∧
    count any_sleep t = count (is_sleep 1500) t + count (is_sleep 5000) t ∧
    uploaded_count v' = uploaded_count v + count (is_sleep 1500) t ∧
    error_count v + count (is_sleep 5000) t ≤ error_count v' ∧
    uploaded_count v' + skipped_count v' + error_count v'
    = uploaded_count v + skipped_count v + error_count v + length local_files ∧
    updated_count v' = updated_count v ∧
    deleted_count v' = deleted_count v ∧
    size (existing_emojis v') = size (existing_emojis v) + count (is_sleep 1500) t ∧
    (∀ n, n ∉ local_files.*1 → existing_emojis v' !! n = existing_emojis v !! n) ∧
    (∀ n, is_Some (existing_emojis v !! n) →
          existing_emojis v' !! n = existing_emojis v !! n) ∧
    (error_count v' = error_count v →
     ∀ n, n ∈ local_files.*1 → is_Some (existing_emojis v' !! n)).
Proof.
  induction local_files as [|item local_files IH]; intros v s v' s' Hrun.
  { injection Hrun as <- <-. exists []. rewrite app_nil_r, !count_nil. simpl.
    split_and!; try done; try lia. by intros _ n ?%elem_of_nil. }
  simpl in Hrun. apply bind_Ok in Hrun as (v1 & s1 & Hstep & Hrest).
  apply process_local_account in Hstep as (t1 & Ht1 & Hd1 & Hs1 & Hstep).
  apply IH in Hrest as (t2 & Ht2 & Hd2 & Hs2 & Hup & Herr & Hsum & Hupd & Hdel & Hsize
                        & Hout & Hkeep & Hall).
  exists (t1 ++ t2). rewrite !count_app.
  split; [by rewrite Ht2, Ht1, app_assoc|].
  change ((item :: local_files).*1) with (item.1 :: local_files.*1).
  destruct Hstep as [(Hknown & -> & ->)
                    |[(Hnew & [entry ->] & H15 & H50)|(-> & H15 & H50)]];
    simpl in *; rewrite ?count_nil.
  - split_and!; try done; try lia.
    + intros n [_ Hn]%not_elem_of_cons. by apply Hout.
    + intros Herr0 n [->|Hn]%elem_of_cons; [|apply Hall; [lia|done]].
      by rewrite Hkeep.
  - rewrite map_size_insert_None in Hsize by done.
    split_and!; try done; try lia.
    + intros n [Hne Hn]%not_elem_of_cons. by rewrite Hout, lookup_insert_ne.
    + intros n Hn. assert (n ≠ item.1) as Hne.
      { intros ->. rewrite Hnew in Hn. by destruct Hn. }
      rewrite Hkeep; rewrite lookup_insert_ne; done.
    + intros Herr0 n [->|Hn]%elem_of_cons; [|apply Hall; [lia|done]].
      rewrite Hkeep; rewrite lookup_insert_eq; by eauto.
  - split_and!; try done; try lia.
    intros n [_ Hn]%not_elem_of_cons. by apply Hout.
Qed.

(** One turn of the deletion loop, for the accounts *)
Lemma process_delete_account w v emoji_name s v' s' :
  process_delete w v emoji_name s = Ok v' s' →
  ∃ t, trace s' = trace s ++ t ∧
    Forall delete_event t ∧
    count any_delete t = 1 ∧
    count any_sleep t = count (is_sleep 1500) t + count (is_sleep 5000) t ∧
    is_Some (existing_emojis v !! emoji_name) ∧
    (v' = with_deleted emoji_name v ∧
       count (is_sleep 1500) t = 1 ∧ count (is_sleep 5000) t = 0 ∨
     v' = with_error v ∧ count (is_sleep 1500) t = 0 ∧ count (is_sleep 5000) t ≤ 1).
Proof.
  intros Hrun.
  apply process_delete_spec in Hrun as (emoji_info & pause & Hlook & Ht & Hend).
  eexists. split; [exact Ht|].
  destruct Hend as [[-> ->]|[-> [->| ->]]].
  - split_and!; [by repeat constructor|done|done|by eauto|]. by left.
  - split_and!; [by repeat constructor|done|done|by eauto|]. right.
    split_and!; [done|done|]. unfold count. simpl. lia.
  - split_and!; [by repeat constructor|done|done|by eauto|]. right.
    split_and!; [done|done|]. unfold count. simpl. lia.
Qed.

(** The deletion pass, for the accounts *)
Lemma delete_pass_account w names : ∀ v s v' s',
  for_each (process_delete w) names v s = Ok v' s' →
  ∃ t, trace s' = trace s ++ t ∧
    Forall delete_event t ∧
    count any_delete t = length names ∧
    count any_sleep t = count (is_sleep 1500) t + count (is_sleep 5000) t ∧
    deleted_count v' = deleted_count v + count (is_sleep 1500) t ∧
    error_count v + count (is_sleep 5000) t ≤ error_count v' ∧
    deleted_count v' + error_count v' = deleted_count v + error_count v + length names ∧
    uploaded_count v' = uploaded_count v ∧
    updated_count v' = updated_count v ∧
    skipped_count v' = skipped_count v ∧
    size (existing_emojis v') + count (is_sleep 1500) t = size (existing_emojis v) ∧
    (∀ n, existing_emojis v' !! n = existing_emojis v !! n ∨
          existing_emojis v' !! n = None) ∧
    (∀ n, n ∉ names → existing_emojis v' !! n = existing_emojis v !! n) ∧
    (error_count v' = error_count v → ∀ n, n ∈ names → existing_emojis v' !! n = None).
Proof.
  induction names as [|emoji_name names IH]; intros v s v' s' Hrun.
  { injection Hrun as <- <-. exists []. rewrite app_nil_r, !count_nil. simpl.
    split_and!; try done; try lia; [by left|by intros _ n ?%elem_of_nil]. }
  simpl in Hrun. apply bind_Ok in Hrun as (v1 & s1 & Hstep & Hrest).
  apply process_delete_account in Hstep
    as (t1 & Ht1 & Hd1 & Hc1 & Hs1 & [info Hlook] & Hstep).
  apply IH in Hrest as (t2 & Ht2 & Hd2 & Hc2 & Hs2 & Hdel & Herr & Hsum & Hup & Hupd & Hskip
                        & Hsize & Hless & Hout & Hall).
  exists (t1 ++ t2). rewrite !count_app.
  split; [by rewrite Ht2, Ht1, app_assoc|].
  split; [by apply Forall_app|].
  destruct Hstep as [(-> & H15 & H50)|(-> & H15 & H50)]; simpl in *.
  - pose proof (map_size_delete_present _ _ _ Hlook) as Hone.
    split_and!; try done; try lia.
    + intros n. destruct (Hless n) as [->| ->]; [|by right].
      destruct (decide (n = emoji_name)) as [->|Hne].
      * right. apply lookup_delete_eq.
      * left. by apply lookup_delete_ne.
    + intros n [Hne Hn]%not_elem_of_cons. by rewrite Hout, lookup_delete_ne.
    + intros Herr0 n [->|Hn]%elem_of_cons; [|apply Hall; [lia|done]].
      destruct (Hless emoji_name) as [->| ->]; [apply lookup_delete_eq|done].
  - split_and!; try done; try lia.
    intros n [_ Hn]%not_elem_of_cons. by apply Hout.
Qed.

Lemma reconcile_passes w local_files existing s v s' :
  reconcile w local_files existing s = Ok v s' →
  ∃ v1 s1,
    for_each (process_local w) local_files (initial_vars existing) s = Ok v1 s1 ∧
    for_each (process_delete w) (set_iter w (emojis_to_delete existing local_files)) v1 s1
    = Ok v s' ∧
    (∀ n, n ∈ set_iter w (emojis_to_delete existing local_files)
          ↔ is_Some (existing !! n) ∧ n ∉ local_files.*1).
Proof.
  unfold reconcile. intros (v1 & s1 & Hup & Hdel)%bind_Ok. exists v1, s1.
  split; [done|].
  apply upload_pass_account in Hup as Hacc.
  destruct Hacc as (_ & _ & _ & _ & _ & _ & _ & _ & _ & _ & Hout & _).
  assert (emojis_to_delete (existing_emojis v1) local_files
          = emojis_to_delete existing local_files) as <-.
  { apply set_eq. intros n. rewrite !elem_of_emojis_to_delete.
    split; intros [Hn Hl]; (split; [|done]); rewrite Hout in *; done. }
  split; [done|]. intros n.
  rewrite elem_of_set_iter, elem_of_emojis_to_delete.
  split; intros [Hn Hl]; (split; [|done]); rewrite Hout in *; done.
Qed.

(** The counters of a reconciliation that completed.  Every local file
    and every emoji to delete is counted once: as uploaded, skipped or
    failed, or as deleted or failed.  The inventory that goes into the report
    has as many emojis as the listing had, plus the uploaded ones, minus the
    deleted ones; and nothing ever counts as updated. *)
Theorem reconcile_counters w local_files (existing : gmap string RemoteEntry) s v s' :
  reconcile w local_files existing s = Ok v s' →
  uploaded_count v + skipped_count v + deleted_count v + error_count v
  = length local_files + size (emojis_to_delete existing local_files) ∧
  size (existing_emojis v) + deleted_count v = size existing + uploaded_count v ∧
  updated_count v = 0.
Proof.
  intros (v1 & s1 & Hup & Hdel & _)%reconcile_passes.
  apply upload_pass_account in Hup
    as (t1 & _ & _ & _ & Hu1 & _ & Hsum1 & Hupd1 & Hdel1 & Hsize1 & _).
  apply delete_pass_account in Hdel
    as (t2 & _ & _ & _ & _ & Hd2 & _ & Hsum2 & Hup2 & Hupd2 & Hskip2 & Hsize2 & _).
  rewrite set_iter_length in Hsum2. simpl in *. lia.
Qed.

Lemma reconcile_counters_witness :
  reconcile two_files (find_all_emoji_files two_files "emojis") old_inventory boot
  = Ok two_files_vars (after boot two_files_trace) ∧
  uploaded_count two_files_vars + skipped_count two_files_vars +
  deleted_count two_files_vars + error_count two_files_vars
  = length (find_all_emoji_files two_files "emojis") +
    size (emojis_to_delete old_inventory (find_all_emoji_files two_files "emojis")) ∧
  size (existing_emojis two_files_vars) + deleted_count two_files_vars
  = size old_inventory + uploaded_count two_files_vars ∧
  updated_count two_files_vars = 0.
Proof.
  split; [reflexivity|].
  apply (reconcile_counters two_files (find_all_emoji_files two_files "emojis")
           old_inventory boot two_files_vars (after boot two_files_trace)).
  reflexivity.
Defined.

(** The inventory after a reconciliation that completed.  An entry
    of it is an entry of the listing, as it was, or the entry of a local file
    that the listing did not have; an emoji that is both listed and local
    stays as listed.  When no error was counted, the inventory has exactly
    the names of the local files. *)
Theorem reconcile_inventory w local_files (existing : gmap string RemoteEntry) s v s' :
  reconcile w local_files existing s = Ok v s' →
  (∀ n entry, existing_emojis v !! n = Some entry →
     existing !! n = Some entry ∨ existing !! n = None ∧ n ∈ local_files.*1) ∧
  (∀ n, n ∈ local_files.*1 → is_Some (existing !! n) →
     existing_emojis v !! n = existing !! n) ∧
  (error_count v = 0 → ∀ n, is_Some (existing_emojis v !! n) ↔ n ∈ local_files.*1).
Proof.
  intros (v1 & s1 & Hup & Hdel & Hnames)%reconcile_passes.
  apply upload_pass_account in Hup
    as (t1 & _ & _ & _ & _ & Herr1 & _ & _ & _ & _ & Hout1 & Hkeep1 & Hall1).
  apply delete_pass_account in Hdel
    as (t2 & _ & _ & _ & _ & _ & Herr2 & _ & _ & _ & _ & _ & Hless2 & Hout2 & Hall2).
  simpl in *. split_and!.
  - intros n entry Hn.
    assert (existing_emojis v1 !! n = Some entry) as Hn1.
    { destruct (Hless2 n) as [<-|Hnone]; [done|congruence]. }
    destruct (decide (n ∈ local_files.*1)) as [Hl|Hl].
    + destruct (existing !! n) as [e|] eqn:He; [|by right].
      left. rewrite <- Hn1, Hkeep1, He; by eauto.
    + left. by rewrite <- Hn1, Hout1.
  - intros n Hl Hn. rewrite Hout2, Hkeep1; [done..|].
    rewrite Hnames. by intros [_ ?].
  - intros Hzero n.
    assert (error_count v1 = 0) as Hzero1 by lia.
    split.
    + intros Hn. destruct (decide (n ∈ local_files.*1)) as [Hl|Hl]; [done|exfalso].
      assert (n ∈ set_iter w (emojis_to_delete existing local_files)) as Hdel.
      { apply Hnames. split; [|done]. rewrite <- Hout1 by done.
        destruct (Hless2 n) as [<-|Hnone]; [done|]. rewrite Hnone in Hn. by destruct Hn. }
      rewrite Hall2 in Hn; [by destruct Hn|lia|done].
    + intros Hl. rewrite Hout2.
      * apply Hall1; [lia|done].
      * rewrite Hnames. by intros [_ ?].
Qed.

Lemma reconcile_inventory_witness :
  reconcile two_files (find_all_emoji_files two_files "emojis") old_inventory boot
  = Ok two_files_vars (after boot two_files_trace) ∧
  existing_emojis two_files_vars
  = {[ "smile" := {| re_id := "900"; re_animated := false |};
       "wave" := {| re_id := "900"; re_animated := false |} ]} ∧
  (find_all_emoji_files two_files "emojis").*1 = ["smile"; "wave"] ∧
  (error_count two_files_vars = 0 →
   ∀ n, is_Some (existing_emojis two_files_vars !! n)
        ↔ n ∈ (find_all_emoji_files two_files "emojis").*1).
Proof.
  split; [reflexivity|]. split; [reflexivity|]. split; [reflexivity|].
  apply (reconcile_inventory two_files (find_all_emoji_files two_files "emojis")
           old_inventory boot two_files_vars (after boot two_files_trace)).
  reflexivity.
Defined.

(** The pauses of a reconciliation that completed: one pause of 1.5
    seconds for every upload and every deletion that succeeded, at most one
    pause of 5 seconds for every error counted, and no other pause. *)
Theorem reconcile_pauses w local_files (existing : gmap string RemoteEntry) s v s' :
  reconcile w local_files existing s = Ok v s' →
  ∃ t, trace s' = trace s ++ t ∧
    count (is_sleep 1500) t = uploaded_count v + deleted_count v ∧
    count (is_sleep 5000) t ≤ error_count v ∧
    count any_sleep t = count (is_sleep 1500) t + count (is_sleep 5000) t.
Proof.
  intros (v1 & s1 & Hup & Hdel & _)%reconcile_passes.
  apply upload_pass_account in Hup
    as (t1 & Ht1 & _ & Hs1 & Hu1 & He1 & _ & _ & Hdel1 & _).
  apply delete_pass_account in Hdel
    as (t2 & Ht2 & _ & _ & Hs2 & Hd2 & He2 & _ & Hup2 & _).
  exists (t1 ++ t2). rewrite !count_app. simpl in *.
  split; [by rewrite Ht2, Ht1, app_assoc|]. lia.
Qed.

Lemma reconcile_pauses_witness :
  reconcile busy (find_all_emoji_files busy "emojis") old_inventory boot
  = Ok {| existing_emojis := old_inventory; uploaded_count := 0; updated_count := 0;
          deleted_count := 0; skipped_count := 0; error_count := 2 |}
       (after boot
          [ EvUpload "emojis/smile.png" "smile";
            EvRead (LocalFile "emojis/smile.png");
            EvPost (emojis_url busy) "smile" "data:image/png;base64,TWFu";
            EvSleep 5000;
            EvDelete (emojis_url busy +:+ "/123") "old";
            EvSleep 5000 ]) ∧
  ∃ t, [ EvUpload "emojis/smile.png" "smile";
         EvRead (LocalFile "emojis/smile.png");
         EvPost (emojis_url busy) "smile" "data:image/png;base64,TWFu";
         EvSleep 5000;
         EvDelete (emojis_url busy +:+ "/123") "old";
         EvSleep 5000 ] = [] ++ t ∧
    count (is_sleep 1500) t = 0 + 0 ∧
    count (is_sleep 5000) t ≤ 2 ∧
    count any_sleep t = count (is_sleep 1500) t + count (is_sleep 5000) t.
Proof.
  split; [reflexivity|].
  apply (reconcile_pauses busy (find_all_emoji_files busy "emojis") old_inventory boot
           {| existing_emojis := old_inventory; uploaded_count := 0; updated_count := 0;
              deleted_count := 0; skipped_count := 0; error_count := 2 |}
           (after boot
              [ EvUpload "emojis/smile.png" "smile";
                EvRead (LocalFile "emojis/smile.png");
                EvPost (emojis_url busy) "smile" "data:image/png;base64,TWFu";
                EvSleep 5000;
                EvDelete (emojis_url busy +:+ "/123") "old";
                EvSleep 5000 ])).
  reflexivity.
Defined.

(** The order of the two passes: the effects of a reconciliation that
    completed are those of the uploads, with no Delete call among them,
    followed by Delete calls and pauses only.  No file is read and no Create
    call is made once the first Delete call has been made. *)
Theorem reconcile_order w local_files (existing : gmap string RemoteEntry) s v s' :
  reconcile w local_files existing s = Ok v s' →
  ∃ t1 t2, trace s' = trace s ++ t1 ++ t2 ∧
    count any_delete t1 = 0 ∧
    Forall delete_event t2 ∧
    count any_delete t2 = size (emojis_to_delete existing local_files).
Proof.
  intros (v1 & s1 & Hup & Hdel & _)%reconcile_passes.
  apply upload_pass_account in Hup as (t1 & Ht1 & Hnone & _).
  apply delete_pass_account in Hdel as (t2 & Ht2 & Honly & Hcount & _).
  exists t1, t2. rewrite set_iter_length in Hcount.
  split_and!; [by rewrite Ht2, Ht1, app_assoc|done..].
Qed.

Lemma reconcile_order_witness :
  reconcile two_files (find_all_emoji_files two_files "emojis") old_inventory boot
  = Ok two_files_vars (after boot two_files_trace) ∧
  ∃ t1 t2, two_files_trace = [] ++ t1 ++ t2 ∧
    count any_delete t1 = 0 ∧
    Forall delete_event t2 ∧
    count any_delete t2
    = size (emojis_to_delete old_inventory (find_all_emoji_files two_files "emojis")).
Proof.
  split; [reflexivity|].
  apply (reconcile_order two_files (find_all_emoji_files two_files "emojis")
           old_inventory boot two_files_vars (after boot two_files_trace)).
  reflexivity.
Defined.

(** ** A whole run *)

Lemma write_emoji_codes_cases w (emojis_dict : gmap string RemoteEntry) local_files s :
  ∃ lines,
    mapM (report_line emojis_dict) (sorted_keys emojis_dict) = Some lines ∧
    length lines = size emojis_dict ∧
    write_emoji_codes w emojis_dict local_files s
    = if report_unwritable w (trace s) then Raise OSError s
      else Ok () (after s [EvWrite (EMOJI_CODES_FILE w)
                             (report_header emojis_dict +:+ foldr String.append "" lines +:+
                              report_footer (now_ny w (trace s)))]).
Proof.
  destruct (report_lines_Some emojis_dict (sorted_keys emojis_dict)) as [lines Hl].
  { intros name. by rewrite elem_of_sorted_keys. }
  exists lines. split_and!; [done| |].
  - apply length_mapM in Hl. rewrite <- Hl, sorted_keys_perm.
    rewrite <- size_dom. done.
  - unfold write_emoji_codes. unfold_m. rewrite Hl. by destruct (report_unwritable w _).
Qed.

Lemma upload_pass_events w local_files : ∀ v s v' s',
  for_each (process_local w) local_files v s = Ok v' s' →
  ∃ t, trace s' = trace s ++ t ∧ Forall reconcile_event t.
Proof.
  induction local_files as [|item local_files IH]; intros v s v' s' Hrun.
  { injection Hrun as <- <-. exists []. by rewrite app_nil_r. }
  simpl in Hrun. apply bind_Ok in Hrun as (v1 & s1 & Hstep & Hrest).
  apply IH in Hrest as (t2 & Ht2 & Hev2).
  apply process_local_spec in Hstep
    as [(_ & _ & ->)|(_ & files & posts & pause & Ht & Hfiles & Hposts & _ & _ & Hend)].
  { by exists t2. }
  eexists. split; [by rewrite Ht2, Ht, <- app_assoc|].
  apply Forall_app. split; [|done].
  apply Forall_cons. split; [done|].
  rewrite !Forall_app. split_and!.
  - eapply Forall_impl; [exact Hfiles|]. by intros [].
  - destruct Hposts as [->|[data_uri ->]]; by repeat constructor.
  - destruct Hend as [(entry & _ & ->)|[_ [->| ->]]]; by repeat constructor.
Qed.

Lemma reconcile_events w local_files existing s v s' :
  reconcile w local_files existing s = Ok v s' →
  ∃ t, trace s' = trace s ++ t ∧ Forall reconcile_event t.
Proof.
  unfold reconcile. intros (v1 & s1 & Hup & Hdel)%bind_Ok.
  apply upload_pass_events in Hup as (t1 & Ht1 & Hev1).
  apply delete_pass_account in Hdel as (t2 & Ht2 & Hev2 & _).
  exists (t1 ++ t2). split; [by rewrite Ht2, Ht1, app_assoc|].
  apply Forall_app. split; [done|].
  eapply Forall_impl; [exact Hev2|]. by intros [].
Qed.

Lemma run_steps w s v s' :
  run w s = Ok v s' →
  ∃ existing s2,
    get_existing_emojis w
      (after s (if folder_tree w is None then [EvMkdir (EMOJI_FOLDER w)] else []))
    = Ok existing
        (after s ((if folder_tree w is None then [EvMkdir (EMOJI_FOLDER w)] else []) ++
                  [EvGet (emojis_url w)])) ∧
    reconcile w (find_all_emoji_files w (EMOJI_FOLDER w)) existing
      (after s ((if folder_tree w is None then [EvMkdir (EMOJI_FOLDER w)] else []) ++
                [EvGet (emojis_url w)]))
    = Ok v s2 ∧
    write_emoji_codes w (existing_emojis v) (find_all_emoji_files w (EMOJI_FOLDER w)) s2
    = Ok () s'.
Proof.
  unfold run.
  intros ([] & s0 & Hmk & (existing & s1 & Hget & Hrun)%bind_Ok)%bind_Ok.
  cbv zeta in Hrun.
  apply bind_Ok in Hrun as (v1 & s2 & Hrec & ([] & s3 & Hw & [= -> ->])%bind_Ok).
  assert (s0 = after s (if folder_tree w is None then [EvMkdir (EMOJI_FOLDER w)] else []))
    as ->.
  { destruct (folder_tree w); injection Hmk as <-; [|done].
    unfold after. rewrite app_nil_r. by destruct s. }
  pose proof (get_existing_emojis_state w
    (after s (if folder_tree w is None then [EvMkdir (EMOJI_FOLDER w)] else []))) as Hs1.
  rewrite Hget in Hs1. simpl in Hs1. subst s1.
  assert (∀ t1 t2, after (after s t1) t2 = after s (t1 ++ t2)) as Hafter.
  { intros t1 t2. unfold after. simpl. by rewrite <- app_assoc. }
  rewrite Hafter in Hget, Hrec. by exists existing, s2.
Qed.

(** The effects of a run that reaches its end: the folder is created
    when it is missing, the listing is requested once, before everything
    else, and the report is written once, after everything else, whatever
    the number of errors counted; it has one line for each emoji of the final
    inventory, as many as its header announces.  Between the listing and the
    report there are only the effects of the two passes. *)
Theorem run_effects w s v s' :
  run w s = Ok v s' →
  ∃ t lines stamp,
    trace s'
    = trace s ++ (if folder_tree w is None then [EvMkdir (EMOJI_FOLDER w)] else []) ++
      EvGet (emojis_url w) :: t ++
      [EvWrite (EMOJI_CODES_FILE w)
         (report_header (existing_emojis v) +:+ foldr String.append "" lines +:+
          report_footer stamp)] ∧
    Forall reconcile_event t ∧
    mapM (report_line (existing_emojis v)) (sorted_keys (existing_emojis v)) = Some lines ∧
    length lines = size (existing_emojis v).
Proof.
  intros (existing & s2 & _ & Hrec & Hw)%run_steps.
  apply reconcile_events in Hrec as (t & Ht & Hev).
  destruct (write_emoji_codes_cases w (existing_emojis v)
              (find_all_emoji_files w (EMOJI_FOLDER w)) s2) as (lines & Hl & Hlen & Hw').
  rewrite Hw in Hw'. destruct (report_unwritable w _); [done|].
  injection Hw' as ->. exists t, lines, (now_ny w (trace s2)).
  split_and!; [|done..]. simpl. rewrite Ht. simpl.
  by rewrite <- !app_assoc.
Qed.

Lemma run_effects_witness :
  run only_old boot
  = Ok {| existing_emojis := ∅; uploaded_count := 0; updated_count := 0;
          deleted_count := 1; skipped_count := 0; error_count := 0 |}
       (after boot
          [ EvMkdir "emojis";
            EvGet (emojis_url only_old);
            EvDelete (emojis_url only_old +:+ "/123") "old";
            EvSleep 1500;
            EvWrite "emojis.txt"
              ("Discord Application Emoji Codes" +:+ nl +:+
               "Total emojis: 0" +:+ nl +:+
               "============================================================" +:+ nl +:+ nl +:+
               nl +:+ "Last updated on: 2025-06-01 12:00:00 EDT" +:+ nl) ]) ∧
  ∃ t lines stamp,
    [ EvMkdir "emojis";
      EvGet (emojis_url only_old);
      EvDelete (emojis_url only_old +:+ "/123") "old";
      EvSleep 1500;
      EvWrite "emojis.txt"
        ("Discord Application Emoji Codes" +:+ nl +:+
         "Total emojis: 0" +:+ nl +:+
         "============================================================" +:+ nl +:+ nl +:+
         nl +:+ "Last updated on: 2025-06-01 12:00:00 EDT" +:+ nl) ]
    = [] ++ [EvMkdir "emojis"] ++
      EvGet (emojis_url only_old) :: t ++
      [EvWrite "emojis.txt"
         (report_header ∅ +:+ foldr String.append "" lines +:+ report_footer stamp)] ∧
    Forall reconcile_event t ∧
    mapM (report_line ∅) (sorted_keys ∅) = Some lines ∧
    length lines = size (∅ : gmap string RemoteEntry).
Proof.
  split; [reflexivity|].
  apply (run_effects only_old boot
           {| existing_emojis := ∅; uploaded_count := 0; updated_count := 0;
              deleted_count := 1; skipped_count := 0; error_count := 0 |}
           (after boot
              [ EvMkdir "emojis";
                EvGet (emojis_url only_old);
                EvDelete (emojis_url only_old +:+ "/123") "old";
                EvSleep 1500;
                EvWrite "emojis.txt"
                  ("Discord Application Emoji Codes" +:+ nl +:+
                   "Total emojis: 0" +:+ nl +:+
                   "============================================================" +:+ nl +:+
                   nl +:+ nl +:+ "Last updated on: 2025-06-01 12:00:00 EDT" +:+ nl) ])).
  reflexivity.
Defined.

(** ** The calls of the two passes, in their order *)

Lemma omap_upload_part (f : Event → option (string * string)) file_path emoji_name url
    files posts pause :
  (∀ e, file_event e → f e = None) →
  (∀ u n d, f (EvPost u n d) = None) →
  (∀ ms, f (EvSleep ms) = None) →
  Forall file_event files →
  posts = [] ∨ (∃ data_uri, posts = [EvPost url emoji_name data_uri]) →
  pause = [] ∨ (∃ ms, pause = [EvSleep ms]) →
  omap f (EvUpload file_path emoji_name :: files ++ posts ++ pause)
  = from_option (λ x, [x]) [] (f (EvUpload file_path emoji_name)).
Proof.
  intros Hfile Hpost Hsleep Hfiles Hposts Hpause.
  assert (omap f (files ++ posts ++ pause) = []) as Hrest.
  { rewrite !omap_app.
    assert (omap f files = []) as ->.
    { induction Hfiles as [|e files He _ IH]; [done|]. simpl. by rewrite (Hfile e He). }
    destruct Hposts as [->|[data_uri ->]], Hpause as [->|[ms ->]]; simpl;
      by rewrite ?Hpost, ?Hsleep. }
  change (EvUpload file_path emoji_name :: files ++ posts ++ pause)
    with ([EvUpload file_path emoji_name] ++ (files ++ posts ++ pause)).
  rewrite omap_app, Hrest, app_nil_r. simpl. by destruct (f _).
Qed.

Lemma filter_unknown_ext (m1 m2 : gmap string RemoteEntry)
    (l : list (string * LocalEntry)) :
  (∀ item, item ∈ l → m1 !! item.1 = m2 !! item.1) →
  filter (λ item, item.1 ∉ dom m1) l = filter (λ item, item.1 ∉ dom m2) l.
Proof.
  induction l as [|item l IH]; intros Hsame; [done|].
  assert (item.1 ∉ dom m1 ↔ item.1 ∉ dom m2) as Hiff.
  { by rewrite !not_elem_of_dom, (Hsame item) by apply list_elem_of_here. }
  rewrite !filter_cons, IH by (intros other Hin; by apply Hsame, list_elem_of_further).
  destruct (decide (item.1 ∉ dom m1)), (decide (item.1 ∉ dom m2)); tauto.
Qed.

Lemma upload_pass_calls w local_files :
  NoDup local_files.*1 →
  ∀ v s v' s',
    for_each (process_local w) local_files v s = Ok v' s' →
    ∃ t, trace s' = trace s ++ t ∧
      omap upload_of t
      = (λ item, (le_path item.2, item.1)) <$>
          filter (λ item, item.1 ∉ dom (existing_emojis v)) local_files ∧
      omap delete_of t = [].
Proof.
  induction local_files as [|item local_files IH]; intros Hnd v s v' s' Hrun.
  { injection Hrun as <- <-. exists []. by rewrite app_nil_r. }
  change ((item :: local_files).*1) with (item.1 :: local_files.*1) in Hnd.
  apply NoDup_cons in Hnd as [Hfresh Hnd].
  simpl in Hrun. apply bind_Ok in Hrun as (v1 & s1 & Hstep & Hrest).
  apply (IH Hnd) in Hrest as (t2 & Ht2 & Hup2 & Hdel2).
  apply process_local_spec in Hstep
    as [(Hknown & -> & ->)
       |(Hnew & files & posts & pause & Ht & Hfiles & Hposts & _ & _ & Hend)].
  - exists t2. split; [done|]. split; [|done].
    rewrite filter_cons_False; [done|].
    intros Hout. apply not_elem_of_dom in Hout. rewrite Hout in Hknown. by destruct Hknown.
  - assert (pause = [] ∨ ∃ ms, pause = [EvSleep ms]) as Hpause.
    { destruct Hend as [(entry & _ & ->)|[_ [->| ->]]]; eauto. }
    eexists. split; [by rewrite Ht2, Ht, <- app_assoc|].
    rewrite !omap_app.
    rewrite !(omap_upload_part _ _ _ _ _ _ pause) by first [by intros []|done].
    simpl. rewrite Hup2, Hdel2. split; [|done].
    rewrite filter_cons_True by (by apply not_elem_of_dom).
    simpl. f_equal. f_equal. apply filter_unknown_ext.
    intros other Hother.
    assert (other.1 ≠ item.1) as Hne.
    { intros Heq. apply Hfresh. rewrite <- Heq. apply list_elem_of_fmap. by exists other. }
    destruct Hend as [(entry & -> & _)|[-> _]]; simpl; [|done].
    by rewrite lookup_insert_ne.
Qed.

Lemma delete_pass_calls w (listing : gmap string RemoteEntry) names :
  NoDup names →
  ∀ v s v' s',
    (∀ n, n ∈ names → existing_emojis v !! n = listing !! n) →
    for_each (process_delete w) names v s = Ok v' s' →
    ∃ t, trace s' = trace s ++ t ∧
      omap upload_of t = [] ∧
      Forall2 (λ call n, ∃ info, listing !! n = Some info ∧
                                 call = (emojis_url w +:+ "/" +:+ re_id info, n))
        (omap delete_of t) names.
Proof.
  induction 1 as [|emoji_name names Hfresh Hnd IH]; intros v s v' s' Hsame Hrun.
  { injection Hrun as <- <-. exists []. rewrite app_nil_r. by split_and!. }
  simpl in Hrun. apply bind_Ok in Hrun as (v1 & s1 & Hstep & Hrest).
  apply process_delete_spec in Hstep as (info & pause & Hlook & Ht & Hend).
  apply IH in Hrest as (t2 & Ht2 & Hup2 & Hdel2).
  - eexists. split; [by rewrite Ht2, Ht, <- app_assoc|].
    rewrite !omap_app.
    assert (omap upload_of
              (EvDelete (emojis_url w +:+ "/" +:+ re_id info) emoji_name :: pause) = [] ∧
            omap delete_of
              (EvDelete (emojis_url w +:+ "/" +:+ re_id info) emoji_name :: pause)
            = [(emojis_url w +:+ "/" +:+ re_id info, emoji_name)]) as [-> ->].
    { destruct Hend as [[_ ->]|[_ [->| ->]]]; done. }
    rewrite Hup2. simpl. split; [done|].
    apply Forall2_cons. split; [|done]. exists info. split; [|done].
    rewrite <- Hlook. symmetry. apply Hsame, list_elem_of_here.
  - intros n Hn. rewrite <- Hsame by (by apply list_elem_of_further).
    destruct Hend as [[-> _]|[-> _]]; simpl; [|done].
    apply lookup_delete_ne. by intros ->.
Qed.

(** The calls of a reconciliation that completed, in their order.  The
    upload attempts are those of the local files that the listing does not
    have, each with the path the scanner found, in the order of the scan;
    the Delete calls are those of the listed emojis without a local file,
    in the order the set yields them, each at the URL of the id that the
    listing gave. *)
Theorem reconcile_calls w local_files (existing : gmap string RemoteEntry) s v s' :
  NoDup local_files.*1 →
  reconcile w local_files existing s = Ok v s' →
  ∃ t, trace s' = trace s ++ t ∧
    omap upload_of t
    = (λ item, (le_path item.2, item.1)) <$>
        filter (λ item, item.1 ∉ dom existing) local_files ∧
    Forall2 (λ call n, ∃ info, existing !! n = Some info ∧
                               call = (emojis_url w +:+ "/" +:+ re_id info, n))
      (omap delete_of t) (set_iter w (emojis_to_delete existing local_files)).
Proof.
  intros Hnd (v1 & s1 & Hup & Hdel & Hnames)%reconcile_passes.
  apply upload_pass_account in Hup as Hacc.
  destruct Hacc as (_ & _ & _ & _ & _ & _ & _ & _ & _ & _ & Hout & _).
  apply (upload_pass_calls w local_files Hnd) in Hup as (t1 & Ht1 & Hup1 & Hdel1).
  apply (delete_pass_calls w existing) in Hdel as (t2 & Ht2 & Hup2 & Hdel2);
    [|apply set_iter_NoDup|].
  - exists (t1 ++ t2). rewrite !omap_app, Hup1, Hup2, Hdel1, app_nil_r. simpl.
    split; [by rewrite Ht2, Ht1, app_assoc|done].
  - intros n [_ Hn]%Hnames. by apply Hout.
Qed.

Lemma reconcile_calls_witness :
  NoDup (find_all_emoji_files two_files "emojis").*1 ∧
  reconcile two_files (find_all_emoji_files two_files "emojis") old_inventory boot
  = Ok two_files_vars (after boot two_files_trace) ∧
  omap upload_of two_files_trace
  = [("emojis/smile.png", "smile"); ("emojis/sub/wave.gif", "wave")] ∧
  omap delete_of two_files_trace = [(emojis_url two_files +:+ "/123", "old")] ∧
  ∃ t, two_files_trace = [] ++ t ∧
    omap upload_of t
    = (λ item, (le_path item.2, item.1)) <$>
        filter (λ item, item.1 ∉ dom old_inventory)
          (find_all_emoji_files two_files "emojis") ∧
    Forall2 (λ call n, ∃ info, old_inventory !! n = Some info ∧
                               call = (emojis_url two_files +:+ "/" +:+ re_id info, n))
      (omap delete_of t)
      (set_iter two_files
         (emojis_to_delete old_inventory (find_all_emoji_files two_files "emojis"))).
Proof.
  assert (NoDup (find_all_emoji_files two_files "emojis").*1) as Hnd
    by apply find_all_emoji_files_spec.
  split; [exact Hnd|]. split; [reflexivity|]. split; [reflexivity|].
  split; [reflexivity|].
  apply (reconcile_calls two_files (find_all_emoji_files two_files "emojis")
           old_inventory boot two_files_vars (after boot two_files_trace) Hnd).
  reflexivity.
Defined.

(** In the deletion loop the lookup [existing_emojis[emoji_name]] finds its
    entry: when the turn of a name of the delete set comes, after the turns
    of the names before it have returned, the inventory still has the name,
    with the entry that the listing gave.  The set was made of the keys of
    the inventory, it yields no name twice, and a turn removes no other name
    than its own. *)
Theorem delete_lookup_succeeds w local_files (existing : gmap string RemoteEntry)
    s v1 s1 names_done n names_left v2 s2 :
  for_each (process_local w) local_files (initial_vars existing) s = Ok v1 s1 →
  set_iter w (emojis_to_delete (existing_emojis v1) local_files)
  = names_done ++ n :: names_left →
  for_each (process_delete w) names_done v1 s1 = Ok v2 s2 →
  ∃ info, existing_emojis v2 !! n = Some info ∧ existing !! n = Some info.
Proof.
  intros Hup Hnames Hdone.
  pose proof (set_iter_NoDup w (emojis_to_delete (existing_emojis v1) local_files)) as Hnd.
  assert (n ∈ set_iter w (emojis_to_delete (existing_emojis v1) local_files)) as Hin.
  { rewrite Hnames. apply elem_of_app. right. apply list_elem_of_here. }
  rewrite Hnames in Hnd. apply NoDup_app in Hnd as (_ & Hfresh & _).
  apply elem_of_set_iter, elem_of_emojis_to_delete in Hin as [[info Hinfo] Hlocal].
  apply upload_pass_account in Hup
    as (_ & _ & _ & _ & _ & _ & _ & _ & _ & _ & Hout & _).
  apply delete_pass_account in Hdone
    as (_ & _ & _ & _ & _ & _ & _ & _ & _ & _ & _ & _ & _ & Hkeep & _).
  exists info. rewrite Hkeep, <- Hout; [done..|].
  intros Hdone. apply (Hfresh n Hdone), list_elem_of_here.
Qed.

Lemma delete_lookup_succeeds_witness :
  for_each (process_local two_files) (find_all_emoji_files two_files "emojis")
    (initial_vars old_inventory) boot
  = Ok two_files_uploaded (after boot (take 8 two_files_trace)) ∧
  set_iter two_files
    (emojis_to_delete (existing_emojis two_files_uploaded)
       (find_all_emoji_files two_files "emojis"))
  = [] ++ "old" :: [] ∧
  ∃ info,
    existing_emojis two_files_uploaded !! "old" = Some info ∧
    old_inventory !! "old" = Some info.
Proof.
  assert (for_each (process_local two_files) (find_all_emoji_files two_files "emojis")
            (initial_vars old_inventory) boot
          = Ok two_files_uploaded (after boot (take 8 two_files_trace))) as Hup
    by (by vm_compute).
  assert (set_iter two_files
            (emojis_to_delete (existing_emojis two_files_uploaded)
               (find_all_emoji_files two_files "emojis"))
          = [] ++ "old" :: []) as Hnames by (by vm_compute).
  split; [exact Hup|]. split; [exact Hnames|].
  exact (delete_lookup_succeeds two_files (find_all_emoji_files two_files "emojis")
           old_inventory boot two_files_uploaded (after boot (take 8 two_files_trace))
           [] "old" [] two_files_uploaded (after boot (take 8 two_files_trace))
           Hup Hnames eq_refl).
Defined.

(** A run without the folder of the images.  The folder is created, no file
    is found and nothing is uploaded or skipped.  The run makes one Delete
    call for every entry of the mapping that [get_existing_emojis] returned,
    at the URL of the id of that entry, in the order the set yields the
    names, and each entry is counted as deleted or as an error.  This is the
    mapping, not the application: the mapping is empty when the listing was
    not answered with status 200, and then no Delete call is made; for a
    name that is listed twice it has the last item only.  When no error is
    counted, the inventory in memory, which goes into the report, is
    empty. *)
Theorem missing_folder_run w s v s' :
  folder_tree w = None →
  run w s = Ok v s' →
  ∃ existing t content,
    get_existing_emojis w (after s [EvMkdir (EMOJI_FOLDER w)])
    = Ok existing (after s [EvMkdir (EMOJI_FOLDER w); EvGet (emojis_url w)]) ∧
    trace s'
    = trace s ++ EvMkdir (EMOJI_FOLDER w) :: EvGet (emojis_url w) :: t ++
      [EvWrite (EMOJI_CODES_FILE w) content] ∧
    Forall delete_event t ∧
    Forall2 (λ call n, ∃ info, existing !! n = Some info ∧
                               call = (emojis_url w +:+ "/" +:+ re_id info, n))
      (omap delete_of t) (set_iter w (dom existing)) ∧
    uploaded_count v = 0 ∧
    skipped_count v = 0 ∧
    deleted_count v + error_count v = size existing ∧
    (error_count v = 0 → existing_emojis v = ∅).
Proof.
  intros Htree (existing & s2 & Hget & Hrec & Hw)%run_steps.
  rewrite Htree in Hget, Hrec.
  assert (find_all_emoji_files w (EMOJI_FOLDER w) = []) as Hnone.
  { by rewrite find_all_emoji_files_fold, Htree. }
  rewrite Hnone in Hrec, Hw.
  apply reconcile_passes in Hrec as (v1 & s1 & Hup & Hdel & Hnames).
  injection Hup as <- <-.
  assert (emojis_to_delete existing [] = dom existing) as Hset.
  { unfold emojis_to_delete. simpl. apply difference_empty_L. }
  rewrite Hset in Hdel, Hnames.
  destruct (write_emoji_codes_cases w (existing_emojis v) [] s2)
    as (lines & _ & _ & Hw').
  rewrite Hw in Hw'. destruct (report_unwritable w _); [done|]. injection Hw' as ->.
  apply (delete_pass_calls w existing) in Hdel as Hcalls;
    [|apply set_iter_NoDup|done].
  apply delete_pass_account in Hdel
    as (t & Ht & Hev & _ & _ & _ & _ & Hsum & Hup & _ & Hskip & _ & _ & Hout & Hall).
  destruct Hcalls as (t' & Ht' & _ & Hcalls).
  rewrite Ht in Ht'. apply app_inv_head in Ht'. subst t'.
  rewrite set_iter_length, size_dom in Hsum. simpl in *.
  exists existing, t. eexists. split_and!; [done| |done|done|done|done|lia|].
  - rewrite Ht. simpl. rewrite <- !app_assoc. reflexivity.
  - intros Hzero. apply map_eq. intros n. rewrite lookup_empty.
    destruct (existing !! n) as [entry|] eqn:Hn.
    + apply Hall; [lia|]. apply Hnames. split; [by eauto|]. apply not_elem_of_nil.
    + rewrite Hout; [done|]. rewrite Hnames, Hn. by intros [[] _].
Qed.

Lemma missing_folder_run_witness :
  folder_tree only_old = None ∧
  run only_old boot
  = Ok {| existing_emojis := ∅; uploaded_count := 0; updated_count := 0;
          deleted_count := 1; skipped_count := 0; error_count := 0 |}
       (after boot
          [ EvMkdir "emojis";
            EvGet (emojis_url only_old);
            EvDelete (emojis_url only_old +:+ "/123") "old";
            EvSleep 1500;
            EvWrite "emojis.txt"
              ("Discord Application Emoji Codes" +:+ nl +:+
               "Total emojis: 0" +:+ nl +:+
               "============================================================" +:+ nl +:+ nl +:+
               nl +:+ "Last updated on: 2025-06-01 12:00:00 EDT" +:+ nl) ]) ∧
  ∃ existing t content,
    get_existing_emojis only_old (after boot [EvMkdir (EMOJI_FOLDER only_old)])
    = Ok existing (after boot [EvMkdir (EMOJI_FOLDER only_old);
                               EvGet (emojis_url only_old)]) ∧
    [ EvMkdir "emojis";
      EvGet (emojis_url only_old);
      EvDelete (emojis_url only_old +:+ "/123") "old";
      EvSleep 1500;
      EvWrite "emojis.txt"
        ("Discord Application Emoji Codes" +:+ nl +:+
         "Total emojis: 0" +:+ nl +:+
         "============================================================" +:+ nl +:+ nl +:+
         nl +:+ "Last updated on: 2025-06-01 12:00:00 EDT" +:+ nl) ]
    = [] ++ EvMkdir (EMOJI_FOLDER only_old) :: EvGet (emojis_url only_old) :: t ++
      [EvWrite (EMOJI_CODES_FILE only_old) content] ∧
    Forall delete_event t ∧
    Forall2 (λ call n, ∃ info, existing !! n = Some info ∧
                               call = (emojis_url only_old +:+ "/" +:+ re_id info, n))
      (omap delete_of t) (set_iter only_old (dom existing)) ∧
    0 = 0 ∧
    0 = 0 ∧
    1 + 0 = size existing ∧
    (0 = 0 → (∅ : gmap string RemoteEntry) = ∅).
Proof.
  split; [reflexivity|]. split; [reflexivity|].
  apply (missing_folder_run only_old boot
           {| existing_emojis := ∅; uploaded_count := 0; updated_count := 0;
              deleted_count := 1; skipped_count := 0; error_count := 0 |}
           (after boot
              [ EvMkdir "emojis";
                EvGet (emojis_url only_old);
                EvDelete (emojis_url only_old +:+ "/123") "old";
                EvSleep 1500;
                EvWrite "emojis.txt"
                  ("Discord Application Emoji Codes" +:+ nl +:+
                   "Total emojis: 0" +:+ nl +:+
                   "============================================================" +:+ nl +:+
                   nl +:+ nl +:+ "Last updated on: 2025-06-01 12:00:00 EDT" +:+ nl) ]));
    reflexivity.
Defined.

(** ** The columns of the report and the reference codes *)

Lemma length_str_app a b : String.length (a +:+ b) = String.length a + String.length b.
Proof. induction a as [|c a IH]; [done|]. rewrite str_app_cons. simpl. by rewrite IH. Qed.

Lemma length_spaces n : String.length (spaces n) = n.
Proof. induction n as [|n IH]; [done|]. simpl. by rewrite IH. Qed.

Lemma length_ljust width name :
  String.length (ljust width name) = width `max` String.length name.
Proof. unfold ljust. rewrite length_str_app, length_spaces. lia. Qed.

(** The columns of the report.  The line of an emoji is its name, the
    filling, the reference code and a newline; the code starts after 31
    characters for every name of at most 30 characters, so that the codes
    stand in one column, and one space after the name for a longer name,
    which is never cut. *)
Theorem report_columns (emojis_dict : gmap string RemoteEntry) name info :
  emojis_dict !! name = Some info →
  ∃ column,
    report_line emojis_dict name
    = Some (column +:+ format_emoji_code name (re_id info) (re_animated info) +:+ nl) ∧
    String.prefix name column = true ∧
    String.length column = 31 `max` S (String.length name).
Proof.
  intros Hinfo. exists (ljust 30 name +:+ " "). split_and!.
  - unfold report_line. rewrite Hinfo. simpl. by rewrite str_app_assoc.
  - unfold ljust. rewrite str_app_assoc. apply prefix_app.
  - rewrite length_str_app, length_ljust. simpl. lia.
Qed.

Lemma report_columns_witness :
  sample_inventory !! "smile" = Some {| re_id := "1"; re_animated := false |} ∧
  report_line sample_inventory "smile"
  = Some ("smile                          <:smile:1>" +:+ nl) ∧
  ∃ column,
    report_line sample_inventory "smile"
    = Some (column +:+ format_emoji_code "smile" "1" false +:+ nl) ∧
    String.prefix "smile" column = true ∧
    String.length column = 31 `max` S (String.length "smile").
Proof.
  split; [reflexivity|]. split; [reflexivity|].
  apply (report_columns sample_inventory "smile" {| re_id := "1"; re_animated := false |}).
  reflexivity.
Defined.

Lemma str_app_nil a : "" +:+ a = a.
Proof. reflexivity. Qed.

Lemma colon_free_split n1 : ∀ n2 r1 r2,
  str_in ":" n1 = false → str_in ":" n2 = false →
  n1 +:+ ":" +:+ r1 = n2 +:+ ":" +:+ r2 →
  n1 = n2 ∧ r1 = r2.
Proof.
  assert (∀ n, str_in ":" (String ":" n) = false → False) as Hcolon.
  { intros n H. by destruct n. }
  assert (∀ d n, str_in ":" (String d n) = false → str_in ":" n = false) as Htail.
  { intros d n H.
    change (str_in ":" (String d n))
      with (String.prefix ":" (String d n) || str_in ":" n) in H.
    by apply orb_false_iff in H as [_ ?]. }
  induction n1 as [|c n1 IH]; intros [|d n2] r1 r2 H1 H2 Heq;
    rewrite ?str_app_cons, ?str_app_nil in Heq.
  - by injection Heq as ->.
  - injection Heq as Hd _. subst d. by apply Hcolon in H2.
  - injection Heq as Hc _. subst c. by apply Hcolon in H1.
  - injection Heq as -> Heq.
    destruct (IH n2 r1 r2) as [-> ->]; [by eapply Htail..|done|done].
Qed.

Lemma str_app_inv_tail a b c : a +:+ c = b +:+ c → a = b.
Proof.
  revert b. induction a as [|x a IH]; intros [|y b] Heq.
  - done.
  - exfalso. apply (f_equal String.length) in Heq.
    rewrite str_app_cons, length_str_app in Heq. simpl in Heq. rewrite length_str_app in Heq.
    lia.
  - exfalso. apply (f_equal String.length) in Heq.
    rewrite str_app_cons, length_str_app in Heq. simpl in Heq. rewrite length_str_app in Heq.
    lia.
  - rewrite !str_app_cons in Heq. injection Heq as -> Heq. by rewrite (IH b Heq).
Qed.

(** The reference codes are unambiguous: two emojis whose names
    have no colon get the same code only when they have the same name, the
    same id and the same animated flag. *)
Theorem format_emoji_code_inj n1 i1 a1 n2 i2 a2 :
  str_in ":" n1 = false →
  str_in ":" n2 = false →
  format_emoji_code n1 i1 a1 = format_emoji_code n2 i2 a2 →
  n1 = n2 ∧ i1 = i2 ∧ a1 = a2.
Proof.
  intros H1 H2 Heq. unfold format_emoji_code in Heq.
  assert (a1 = a2 ∧ n1 +:+ ":" +:+ i1 +:+ ">" = n2 +:+ ":" +:+ i2 +:+ ">") as [-> Hrest].
  { destruct a1, a2; cbv zeta in Heq; rewrite ?str_app_cons in Heq; simpl in Heq;
      by injection Heq. }
  apply colon_free_split in Hrest as [-> Hid]; [|done..].
  by apply str_app_inv_tail in Hid as ->.
Qed.

Lemma format_emoji_code_inj_witness :
  format_emoji_code "wave" "2" true = "<a:wave:2>" ∧
  "wave" = "wave" ∧ "2" = "2" ∧ true = true.
Proof.
  split; [reflexivity|].
  apply (format_emoji_code_inj "wave" "2" true "wave" "2" true); reflexivity.
Defined.
